(** * drone-gemini-cli-plugin: the execution and output-interpretation core

    A shallow embedding of the Go package [plugin] (config.go, errors.go,
    cli_executor.go, output_parser.go and plugin.go without the formatting
    of the statistics), followed by the properties proved about it.

    Conventions.
    - A Go struct [S] is the record [S.t] of module [S]; its methods live in
      the same module ([Config.DetectAuthMode], [OutputParser.ParseJSON],
      [CLIExecutor.Execute], ...).  The field [Type] is spelled [Type_].
    - Go [string] is [string] (a sequence of bytes), Go [int] is [Z],
      Go [float64] is the kernel's binary64 [float], a nil-able pointer is an
      [option], a Go map is a [gmap] (a nil map and an empty map are not
      distinguished: the package only reads maps).  The pricing table, which
      the package ranges over, is the list of its entries in the order of the
      visit.
    - The functions of Go's standard library that the package calls
      (strings, encoding/json, path/filepath) are given as executable
      definitions of their documented behaviour.
    - A Go function returning [(v, err)] returns a pair whose second component
      is [option error]; [None] is the nil error.
    - What the package asks of the operating system (the ambient environment,
      temporary files, the working directory, the subprocess) is answered by a
      [Host] record of oracles, so that the functions stay executable.
    - Lines written to the console under [Debug] are not part of any returned
      value and are left out.
    - A function that can panic returns an [option]; [None] is the panic.
    - The git helper of the package, which is not among the sources, is
      answered by a [GitAnalyzer] record of oracles. *)

From Stdlib Require Import ZArith List String Ascii Bool Lia Permutation.
From Stdlib Require Import PrimFloat Uint63.
From Stdlib Require Import DecimalString.
From stdpp Require Import base option gmap strings.

Set Warnings "-inexact-float,-register-all".
Set Default Proof Using "Type".

(* ===================================================================== *)
(** * Bytes and the functions of Go's [strings] package that are used     *)
(* ===================================================================== *)

Definition byte_of (n : N) : ascii := ascii_of_N n.
Definition code (c : ascii) : N := N_of_ascii c.

(** [bytes l] is the string made of the bytes with the codes [l]. *)
Fixpoint bytes (l : list N) : string :=
  match l with
  | [] => EmptyString
  | n :: l' => String (byte_of n) (bytes l')
  end.

Definition LF : string := bytes [10%N].

Fixpoint rev_string_onto (s acc : string) : string :=
  match s with
  | EmptyString => acc
  | String c s' => rev_string_onto s' (String c acc)
  end.

Definition rev_string (s : string) : string := rev_string_onto s EmptyString.

Module GoStrings.

(** [stripPrefix p s] is what follows [p] in [s], when [s] starts with [p]. *)
Fixpoint stripPrefix (p s : string) : option string :=
  match p, s with
  | EmptyString, _ => Some s
  | String a p', String b s' =>
      if Ascii.eqb a b then stripPrefix p' s' else None
  | String _ _, EmptyString => None
  end.

(** strings.HasPrefix(s, prefix) *)
Definition HasPrefix (s prefix : string) : bool :=
  match stripPrefix prefix s with Some _ => true | None => false end.

(** strings.Contains(s, substr) *)
Fixpoint Contains (s substr : string) : bool :=
  HasPrefix s substr ||
  match s with
  | EmptyString => false
  | String _ s' => Contains s' substr
  end.

(** The UTF-8 encodings of the code points for which unicode.IsSpace
    holds: U+0009..U+000D, U+0020, U+0085, U+00A0, U+1680,
    U+2000..U+200A, U+2028, U+2029, U+202F, U+205F, U+3000. *)
Definition spaceRunes : list string :=
  map bytes
    [ [9]; [10]; [11]; [12]; [13]; [32];
      [194; 133]; [194; 160];
      [225; 154; 128];
      [226; 128; 128]; [226; 128; 129]; [226; 128; 130]; [226; 128; 131];
      [226; 128; 132]; [226; 128; 133]; [226; 128; 134]; [226; 128; 135];
      [226; 128; 136]; [226; 128; 137]; [226; 128; 138];
      [226; 128; 168]; [226; 128; 169]; [226; 128; 175];
      [226; 129; 159];
      [227; 128; 128] ]%N.

Fixpoint firstStrip (runes : list string) (s : string) : option string :=
  match runes with
  | [] => None
  | r :: runes' =>
      match stripPrefix r s with
      | Some s' => Some s'
      | None => firstStrip runes' s
      end
  end.

(** One white-space rune removed from the front of [s], if there is one. *)
Definition dropSpace (s : string) : option string :=
  firstStrip spaceRunes s.

(** One white-space rune removed from the front of a reversed string: the
    rune that ends the original string (utf8.DecodeLastRuneInString). *)
Definition dropSpaceRev (r : string) : option string :=
  firstStrip (map rev_string spaceRunes) r.

Fixpoint trimWith (drop : string -> option string) (fuel : nat) (s : string)
  : string :=
  match fuel with
  | O => s
  | S fuel' =>
      match drop s with
      | Some s' => trimWith drop fuel' s'
      | None => s
      end
  end.

Definition TrimLeftSpace (s : string) : string :=
  trimWith dropSpace (String.length s) s.

Definition TrimRightSpace (s : string) : string :=
  rev_string (trimWith dropSpaceRev (String.length s) (rev_string s)).

(** strings.TrimSpace(s): leading and trailing white space removed. *)
Definition TrimSpace (s : string) : string :=
  TrimRightSpace (TrimLeftSpace s).

(** strings.Split(s, sep) for a separator of one byte. *)
Fixpoint Split (s : string) (sep : ascii) : list string :=
  match s with
  | EmptyString => [EmptyString]
  | String c s' =>
      if Ascii.eqb c sep then EmptyString :: Split s' sep
      else match Split s' sep with
           | piece :: pieces => String c piece :: pieces
           | [] => [String c EmptyString]
           end
  end.

(** strings.Join(elems, sep) *)
Fixpoint Join (elems : list string) (sep : string) : string :=
  match elems with
  | [] => EmptyString
  | [x] => x
  | x :: rest => x +:+ sep +:+ Join rest sep
  end.

Definition isASCII (s : string) : bool :=
  forallb (fun c => (code c <? 128)%N) (list_ascii_of_string s).

Definition lowerByte (c : ascii) : ascii :=
  if ((65 <=? code c) && (code c <=? 90))%N then byte_of (code c + 32) else c.

Fixpoint mapBytes (f : ascii -> ascii) (s : string) : string :=
  match s with
  | EmptyString => EmptyString
  | String c s' => String (f c) (mapBytes f s')
  end.

Section ToLower.
(** strings.Map(unicode.ToLower, s), which Go applies to a string with a
    byte outside ASCII; the Unicode case tables are not spelled out. *)
Variable unicodeToLower : string -> string.

(** strings.ToLower(s) *)
Definition ToLower (s : string) : string :=
  if isASCII s then mapBytes lowerByte s else unicodeToLower s.
End ToLower.

End GoStrings.

Module Filepath.
(** filepath.IsAbs on a Unix host. *)
Definition IsAbs (path : string) : bool := GoStrings.HasPrefix path "/".
End Filepath.

(* ===================================================================== *)
(** * errors.go                                                           *)
(* ===================================================================== *)

(** The five sentinel errors of the package. *)
Inductive Sentinel : Set :=
| ErrPromptRequired
| ErrGeminiCLINotFound
| ErrCLIExecution
| ErrOutputParsing
| ErrTimeout.

Global Instance Sentinel_eq_dec : EqDecision Sentinel.
Proof. solve_decision. Defined.

(** The error value of [cmd.Run()]: an [*exec.ExitError] with its exit code
    (-1 when the process was ended by a signal), or any other error; both
    carry the text that [%v] prints. *)
Inductive RunError : Set :=
| ExitError (exitCode : Z) (text : string)
| OtherRunError (text : string).

(** What the decoder of encoding/json reports. *)
Inductive JsonError : Set :=
| SyntaxError
| UnmarshalTypeError (value : string).

(** What follows the wrapped sentinel in each [fmt.Errorf("%w...", ...)] of
    the package. *)
Inductive Detail : Set :=
| EmptyOutput                                  (* "%w: empty output" *)
| DecodeFailure (e : JsonError)                (* "%w: %v" *)
| RunFailure (e : RunError) (stderr : string)  (* "%w: %v (stderr: %s)" *)
| ApiFailure (type message : string).          (* "%w: %s - %s" *)

Inductive error : Set :=
| Plain (s : Sentinel)
| Wrapped (s : Sentinel) (d : Detail).

(** errors.Is(e, target) for a sentinel target. *)
Definition errors_Is (e : error) (target : Sentinel) : bool :=
  match e with
  | Plain s | Wrapped s _ => bool_decide (s = target)
  end.

Definition Sentinel_text (s : Sentinel) : string :=
  match s with
  | ErrPromptRequired => "prompt is required: set PLUGIN_PROMPT"
  | ErrGeminiCLINotFound =>
      "gemini CLI not found: ensure gemini is installed and in PATH"
  | ErrCLIExecution => "gemini CLI execution failed"
  | ErrOutputParsing => "failed to parse gemini CLI output"
  | ErrTimeout => "gemini CLI execution timed out"
  end.

(* ===================================================================== *)
(** * config.go                                                           *)
(* ===================================================================== *)

Inductive AuthMode : Set :=
| AuthModeNone
| AuthModeGeminiAPIKey
| AuthModeVertexAI.

Global Instance AuthMode_eq_dec : EqDecision AuthMode.
Proof. solve_decision. Defined.

Module Config.

Record t : Set := mk {
  Prompt : string;
  Target : string;
  Model : string;
  OutputFormat : string;
  Yolo : bool;
  ApprovalMode : string;
  IncludeDirs : string;
  Debug : bool;
  Timeout : Z;
  GitDiff : bool;
  GitCommitSHA : string;
  StdinInput : string;
  APIKey : string;
  GCPProject : string;
  GCPLocation : string;
  GCPCredentials : string
}.

(** The zero value [Config{}]. *)
Definition zero : t :=
  mk "" "" "" "" false "" "" false 0 false "" "" "" "" "" "".

Definition DetectAuthMode (c : t) : AuthMode :=
  (* Option 1: Vertex AI with API Key *)
  if decide (c.(APIKey) ≠ "" ∧ c.(GCPProject) ≠ "") then AuthModeVertexAI
  (* Option 2: Vertex AI with Service Account *)
  else if decide (c.(GCPCredentials) ≠ "" ∧ c.(GCPProject) ≠ "")
  then AuthModeVertexAI
  (* Option 3: Gemini API Key (Google AI Studio) *)
  else if decide (c.(APIKey) ≠ "") then AuthModeGeminiAPIKey
  else AuthModeNone.

Definition Validate (c : t) : option error :=
  if decide (c.(Prompt) = "") then Some (Plain ErrPromptRequired) else None.

End Config.

(* ===================================================================== *)
(** * encoding/json: documents                                            *)
(* ===================================================================== *)

(** The package decodes with [json.Unmarshal].  This module gives the
    documents that Go's scanner accepts (RFC 8259, nesting at most 10000
    deep) and their string literals unquoted the way Go unquotes them. *)
Module Json.

Inductive value : Set :=
| Null
| Bool (b : bool)
| Number (literal : string)
| Str (s : string)
| Array (elems : list value)
| Object (members : list (string * value)).

(** Outcome of reading a prefix of the input. *)
Inductive parse (A : Type) : Type :=
| Parsed (a : A) (rest : string)
| Invalid
| OutOfFuel.
Arguments Parsed {A} a rest.
Arguments Invalid {A}.
Arguments OutOfFuel {A}.

Definition parse_map {A B} (f : A -> B) (p : parse A) : parse B :=
  match p with
  | Parsed a rest => Parsed (f a) rest
  | Invalid => Invalid
  | OutOfFuel => OutOfFuel
  end.

Definition maxNestingDepth : N := 10000.

Definition isJsonSpace (c : ascii) : bool :=
  let n := code c in ((n =? 32) || (n =? 9) || (n =? 13) || (n =? 10))%N.

Fixpoint skipSpace (s : string) : string :=
  match s with
  | EmptyString => s
  | String c s' => if isJsonSpace c then skipSpace s' else s
  end.

Definition isDigit (c : ascii) : bool :=
  ((48 <=? code c) && (code c <=? 57))%N.

(** The longest prefix of digits, and what follows it. *)
Fixpoint takeDigits (s : string) : string * string :=
  match s with
  | EmptyString => (EmptyString, EmptyString)
  | String c s' =>
      if isDigit c
      then let '(ds, rest) := takeDigits s' in (String c ds, rest)
      else (EmptyString, s)
  end.

Definition hexVal (c : ascii) : option N :=
  let n := code c in
  if ((48 <=? n) && (n <=? 57))%N then Some (n - 48)%N
  else if ((97 <=? n) && (n <=? 102))%N then Some (n - 87)%N
  else if ((65 <=? n) && (n <=? 70))%N then Some (n - 55)%N
  else None.

Definition hex4 (a b c d : ascii) : option N :=
  match hexVal a, hexVal b, hexVal c, hexVal d with
  | Some x, Some y, Some z, Some w => Some (((x * 16 + y) * 16 + z) * 16 + w)%N
  | _, _, _, _ => None
  end.

(** The byte a one-letter escape stands for. *)
Definition escChar (c : ascii) : option ascii :=
  let n := code c in
  if (n =? 34)%N then Some c                   (* quote *)
  else if (n =? 92)%N then Some c              (* backslash *)
  else if (n =? 47)%N then Some c              (* slash *)
  else if (n =? 98)%N then Some (byte_of 8)    (* b: backspace *)
  else if (n =? 102)%N then Some (byte_of 12)  (* f: form feed *)
  else if (n =? 110)%N then Some (byte_of 10)  (* n: line feed *)
  else if (n =? 114)%N then Some (byte_of 13)  (* r: carriage return *)
  else if (n =? 116)%N then Some (byte_of 9)   (* t: tab *)
  else None.

(** The pieces of a string literal: a byte as written, a one-letter
    escape, or a [\uXXXX] escape. *)
Inductive piece : Set :=
| Raw (c : ascii)
| Esc (c : ascii)
| U16 (n : N).

(** Reads a string literal after its opening quote, up to and including the
    closing quote. *)
Fixpoint scanString (s : string) : parse (list piece) :=
  match s with
  | EmptyString => Invalid
  | String c r =>
      if (code c =? 34)%N then Parsed [] r
      else if (code c =? 92)%N then
        match r with
        | EmptyString => Invalid
        | String e r1 =>
            if (code e =? 117)%N then
              match r1 with
              | String h1 (String h2 (String h3 (String h4 r2))) =>
                  match hex4 h1 h2 h3 h4 with
                  | Some n => parse_map (cons (U16 n)) (scanString r2)
                  | None => Invalid
                  end
              | _ => Invalid
              end
            else
              match escChar e with
              | Some d => parse_map (cons (Esc d)) (scanString r1)
              | None => Invalid
              end
        end
      else if (code c <? 32)%N then Invalid
      else parse_map (cons (Raw c)) (scanString r)
  end.

(** utf8.EncodeRune *)
Definition encodeRune (n : N) : string :=
  (if n <? 128 then bytes [n]
   else if n <? 2048 then bytes [192 + n / 64; 128 + n mod 64]
   else if n <? 65536 then
     bytes [224 + n / 4096; 128 + (n / 64) mod 64; 128 + n mod 64]
   else
     bytes [240 + n / 262144; 128 + (n / 4096) mod 64;
            128 + (n / 64) mod 64; 128 + n mod 64])%N.

(** U+FFFD in UTF-8. *)
Definition replacement : string := bytes [239; 191; 189]%N.

Definition rawCode (o : option piece) : N :=
  match o with
  | Some (Raw c) => code c
  | _ => 0%N
  end.

Definition within (lo hi x : N) : bool := ((lo <=? x) && (x <=? hi))%N.

(** The length of the well-formed UTF-8 sequence that the raw bytes at the
    head of [ps] start with, 0 when there is none (utf8.DecodeRune). *)
Definition utf8Width (ps : list piece) : nat :=
  let b0 := rawCode (ps !! 0%nat) in
  let b1 := rawCode (ps !! 1%nat) in
  let b2 := rawCode (ps !! 2%nat) in
  let b3 := rawCode (ps !! 3%nat) in
  let cont := within 128 191 in
  if within 194 223 b0 then (if cont b1 then 2 else 0)
  else if (b0 =? 224)%N then
    (if within 160 191 b1 && cont b2 then 3 else 0)
  else if within 225 236 b0 || within 238 239 b0 then
    (if cont b1 && cont b2 then 3 else 0)
  else if (b0 =? 237)%N then
    (if within 128 159 b1 && cont b2 then 3 else 0)
  else if (b0 =? 240)%N then
    (if within 144 191 b1 && cont b2 && cont b3 then 4 else 0)
  else if within 241 243 b0 then
    (if cont b1 && cont b2 && cont b3 then 4 else 0)
  else if (b0 =? 244)%N then
    (if within 128 143 b1 && cont b2 && cont b3 then 4 else 0)
  else 0.

Definition isHighSurrogate (n : N) : bool := within 55296 56319 n.
Definition isLowSurrogate (n : N) : bool := within 56320 57343 n.

(** utf16.DecodeRune on a well-formed pair. *)
Definition joinSurrogates (hi lo : N) : N :=
  ((hi - 55296) * 1024 + (lo - 56320) + 65536)%N.

(** The bytes a string literal denotes: escapes replaced, a surrogate
    pair joined, and every byte that is not part of well-formed UTF-8, like
    every lone surrogate, replaced by U+FFFD.  [copy] counts the
    continuation bytes of the current sequence still to be copied. *)
Fixpoint unquote (copy : nat) (ps : list piece) : string :=
  match ps with
  | [] => EmptyString
  | Raw c :: rest =>
      match copy with
      | S k => String c (unquote k rest)
      | O =>
          if (code c <? 128)%N then String c (unquote 0 rest)
          else match utf8Width ps with
               | O => replacement +:+ unquote 0 rest
               | S k => String c (unquote k rest)
               end
      end
  | Esc c :: rest => String c (unquote 0 rest)
  | U16 n :: rest =>
      if isHighSurrogate n || isLowSurrogate n then
        match rest with
        | U16 m :: rest' =>
            if isHighSurrogate n && isLowSurrogate m
            then encodeRune (joinSurrogates n m) +:+ unquote 0 rest'
            else replacement +:+ unquote 0 rest
        | _ => replacement +:+ unquote 0 rest
        end
      else encodeRune n +:+ unquote 0 rest
  end.

Definition stringLit (s : string) : parse string :=
  parse_map (unquote 0) (scanString s).

(** The parts of a number literal: an optional minus sign; then 0, or a
    digit from 1 to 9 followed by digits; then optionally a point and at
    least one digit; then optionally e or E, an optional sign and at least
    one digit.  Each part is returned with what follows it. *)
Definition signPart (s : string) : string * string :=
  match s with
  | String c r => if (code c =? 45)%N then ("-", r) else ("", s)
  | EmptyString => ("", s)
  end.

Definition intPart (s : string) : option (string * string) :=
  match s with
  | String c r =>
      if (code c =? 48)%N then Some ("0", r)
      else if isDigit c then Some (takeDigits s)
      else None
  | EmptyString => None
  end.

Definition fracPart (s : string) : option (string * string) :=
  match s with
  | String c r =>
      if (code c =? 46)%N then
        match takeDigits r with
        | (EmptyString, _) => None
        | (ds, r') => Some (String c ds, r')
        end
      else Some ("", s)
  | EmptyString => Some ("", s)
  end.

Definition expPart (s : string) : option (string * string) :=
  match s with
  | String c r =>
      if ((code c =? 101) || (code c =? 69))%N then
        let '(sg, r1) :=
          match r with
          | String d r' =>
              if ((code d =? 43) || (code d =? 45))%N
              then (String d "", r') else ("", r)
          | EmptyString => ("", r)
          end in
        match takeDigits r1 with
        | (EmptyString, _) => None
        | (ds, r2) => Some (String c sg +:+ ds, r2)
        end
      else Some ("", s)
  | EmptyString => Some ("", s)
  end.

(** A number literal at the head of [s]. *)
Definition numberLit (s : string) : parse string :=
  let '(sign, s1) := signPart s in
  match intPart s1 with
  | None => Invalid
  | Some (ip, s2) =>
      match fracPart s2 with
      | None => Invalid
      | Some (fp, s3) =>
          match expPart s3 with
          | None => Invalid
          | Some (ep, s4) => Parsed (sign +:+ ip +:+ fp +:+ ep) s4
          end
      end
  end.

Definition keyword (kw : string) (v : value) (s : string) : parse value :=
  match GoStrings.stripPrefix kw s with
  | Some rest => Parsed v rest
  | None => Invalid
  end.

(** Recursive descent over the input; [depth] counts the enclosing arrays
    and objects.  [parseElems] and [parseMembers] read what follows an
    opening bracket or a comma, up to and including the closing bracket. *)
Fixpoint parseValue (fuel : nat) (depth : N) (s : string) : parse value :=
  match fuel with
  | O => OutOfFuel
  | S fuel' =>
      match s with
      | EmptyString => Invalid
      | String c r =>
          let n := code c in
          if (n =? 123)%N then                         (* { *)
            if (maxNestingDepth <? depth + 1)%N then Invalid
            else match skipSpace r with
                 | String d r' =>
                     if (code d =? 125)%N then Parsed (Object []) r'
                     else parse_map Object
                            (parseMembers fuel' (depth + 1)%N (skipSpace r))
                 | EmptyString => Invalid
                 end
          else if (n =? 91)%N then                     (* [ *)
            if (maxNestingDepth <? depth + 1)%N then Invalid
            else match skipSpace r with
                 | String d r' =>
                     if (code d =? 93)%N then Parsed (Array []) r'
                     else parse_map Array
                            (parseElems fuel' (depth + 1)%N (skipSpace r))
                 | EmptyString => Invalid
                 end
          else if (n =? 34)%N then parse_map Str (stringLit r)
          else if (n =? 116)%N then keyword "true" (Bool true) s
          else if (n =? 102)%N then keyword "false" (Bool false) s
          else if (n =? 110)%N then keyword "null" Null s
          else parse_map Number (numberLit s)
      end
  end

with parseElems (fuel : nat) (depth : N) (s : string)
  : parse (list value) :=
  match fuel with
  | O => OutOfFuel
  | S fuel' =>
      match parseValue fuel' depth s with
      | Parsed v rest =>
          match skipSpace rest with
          | String c r =>
              if (code c =? 44)%N then
                parse_map (cons v) (parseElems fuel' depth (skipSpace r))
              else if (code c =? 93)%N then Parsed [v] r
              else Invalid
          | EmptyString => Invalid
          end
      | Invalid => Invalid
      | OutOfFuel => OutOfFuel
      end
  end

with parseMembers (fuel : nat) (depth : N) (s : string)
  : parse (list (string * value)) :=
  match fuel with
  | O => OutOfFuel
  | S fuel' =>
      match s with
      | String q r0 =>
          if (code q =? 34)%N then
            match stringLit r0 with
            | Parsed key rest =>
                match skipSpace rest with
                | String c r =>
                    if (code c =? 58)%N then
                      match parseValue fuel' depth (skipSpace r) with
                      | Parsed v rest' =>
                          match skipSpace rest' with
                          | String c' r' =>
                              if (code c' =? 44)%N then
                                parse_map (cons (key, v))
                                  (parseMembers fuel' depth (skipSpace r'))
                              else if (code c' =? 125)%N
                              then Parsed [(key, v)] r'
                              else Invalid
                          | EmptyString => Invalid
                          end
                      | Invalid => Invalid
                      | OutOfFuel => OutOfFuel
                      end
                    else Invalid
                | EmptyString => Invalid
                end
            | Invalid => Invalid
            | OutOfFuel => OutOfFuel
            end
          else Invalid
      | EmptyString => Invalid
      end
  end.

(** A whole document: one value between optional white space.  [None] is
    Go's [*json.SyntaxError]. *)
Definition document (data : string) : option value :=
  match parseValue (S (2 * String.length data)) 0 (skipSpace data) with
  | Parsed v rest =>
      match skipSpace rest with
      | EmptyString => Some v
      | String _ _ => None
      end
  | Invalid | OutOfFuel => None
  end.

End Json.


(* ===================================================================== *)
(** * output_parser.go: the data model                                    *)
(* ===================================================================== *)

Module APIStats.
Record t : Set := mk {
  TotalRequests : Z;
  TotalErrors : Z;
  TotalLatencyMs : Z
}.
Definition zero : t := mk 0 0 0.
End APIStats.

Module TokenStats.
Record t : Set := mk {
  Prompt : Z;
  Candidates : Z;
  Total : Z;
  Cached : Z;
  Thoughts : Z;
  Tool : Z
}.
Definition zero : t := mk 0 0 0 0 0 0.
End TokenStats.

Module ModelStats.
Record t : Set := mk {
  API : APIStats.t;
  Tokens : TokenStats.t
}.
Definition zero : t := mk APIStats.zero TokenStats.zero.
End ModelStats.

Module ToolDecisions.
Record t : Set := mk {
  Accept : Z;
  Reject : Z;
  Modify : Z;
  AutoAccept : Z
}.
Definition zero : t := mk 0 0 0 0.
End ToolDecisions.

Module ToolDetail.
Record t : Set := mk {
  Count : Z;
  Success : Z;
  Fail : Z;
  DurationMs : Z;
  Decisions : ToolDecisions.t
}.
Definition zero : t := mk 0 0 0 0 ToolDecisions.zero.
End ToolDetail.

Module ToolStats.
Record t : Type := mk {
  TotalCalls : Z;
  TotalSuccess : Z;
  TotalFail : Z;
  TotalDurationMs : Z;
  TotalDecisions : ToolDecisions.t;
  ByName : gmap string ToolDetail.t
}.
Definition zero : t := mk 0 0 0 0 ToolDecisions.zero ∅.
End ToolStats.

Module FileStats.
Record t : Set := mk {
  TotalLinesAdded : Z;
  TotalLinesRemoved : Z
}.
Definition zero : t := mk 0 0.
End FileStats.

Module CLIStats.
Record t : Type := mk {
  Models : gmap string ModelStats.t;
  Tools : ToolStats.t;
  Files : FileStats.t
}.
Definition zero : t := mk ∅ ToolStats.zero FileStats.zero.
End CLIStats.

Module CLIError.
Record t : Set := mk {
  Type_ : string;
  Message : string;
  Code : Z
}.
Definition zero : t := mk "" "" 0.
End CLIError.

Module CLIResponse.
Record t : Type := mk {
  Response : string;
  Stats : option CLIStats.t;
  Error : option CLIError.t
}.
(** [CLIResponse{}] *)
Definition zero : t := mk "" None None.
End CLIResponse.

Module StreamEvent.
Record t : Type := mk {
  Type_ : string;       (* init, message, tool_use, tool_result, error, result *)
  Timestamp : string;
  (* init event fields *)
  SessionID : string;
  Model : string;
  (* message event fields *)
  Role : string;
  Content : string;
  Delta : bool;
  (* tool_use event fields *)
  ToolName : string;
  ToolID : string;
  Parameters : gmap string Json.value;   (* each value as the document has it *)
  (* tool_result event fields *)
  Status : string;
  Output : string;
  (* result event fields *)
  Stats : option CLIStats.t
}.
Definition zero : t := mk "" "" "" "" "" "" false "" "" ∅ "" "" None.
End StreamEvent.

(* ===================================================================== *)
(** * encoding/json: decoding into the structs above                      *)
(* ===================================================================== *)

(** [json.Unmarshal] walks the document and stores into the fields whose
    [json] tag matches a key.  A value of the wrong kind is recorded as an
    [UnmarshalTypeError] and returned at the end; since every caller in the
    package drops the destination when an error is returned, decoding stops
    here at the first such value. *)
Module Decode.

Inductive result (A : Type) : Type :=
| Ok (a : A)
| Err (e : JsonError).
Arguments Ok {A} a.
Arguments Err {A} e.

Definition bind {A B} (r : result A) (f : A -> result B) : result B :=
  match r with
  | Ok a => f a
  | Err e => Err e
  end.

Fixpoint foldM {A B} (f : B -> A -> result B) (l : list A) (b : B) : result B :=
  match l with
  | [] => Ok b
  | a :: l' => bind (f b a) (foldM f l')
  end.

(** What an [UnmarshalTypeError] calls the offending value. *)
Definition kindName (j : Json.value) : string :=
  match j with
  | Json.Null => "null"
  | Json.Bool _ => "bool"
  | Json.Number _ => "number"
  | Json.Str _ => "string"
  | Json.Array _ => "array"
  | Json.Object _ => "object"
  end.

Definition mismatch {A} (j : Json.value) : result A :=
  Err (UnmarshalTypeError (kindName j)).

Definition upperByte (c : ascii) : ascii :=
  if ((97 <=? code c) && (code c <=? 122))%N then byte_of (code c - 32) else c.

(** The folded form under which a key is compared with the field names:
    ASCII letters in upper case, U+017F (long s) as S and U+212A (Kelvin
    sign) as K.  Other runes outside ASCII, which no field name of the package
    contains, are left as they are. *)
Fixpoint foldName (s : string) : string :=
  match s with
  | EmptyString => EmptyString
  | String c r =>
      match r with
      | String d r1 =>
          if ((code c =? 197) && (code d =? 191))%N
          then String (byte_of 83) (foldName r1)
          else
            match r1 with
            | String e r2 =>
                if ((code c =? 226) && (code d =? 132) && (code e =? 170))%N
                then String (byte_of 75) (foldName r2)
                else String (upperByte c) (foldName r)
            | EmptyString => String (upperByte c) (foldName r)
            end
      | EmptyString => String (upperByte c) EmptyString
      end
  end.

(** The field a key selects: the one with exactly that name, else the one
    with the same folded name. *)
Definition findField {D} (fields : list (string * D)) (key : string)
  : option D :=
  match find (fun f => String.eqb (fst f) key) fields with
  | Some f => Some (snd f)
  | None =>
      match find (fun f => String.eqb (foldName (fst f)) (foldName key)) fields
      with
      | Some f => Some (snd f)
      | None => None
      end
  end.

(** A decoder updates the current value of its destination. *)
Definition decoder (T : Type) : Type := Json.value -> T -> result T.

(** Decoding into a struct: [null] leaves it as it is, an object stores its
    members one after the other (a key that selects no field is skipped),
    anything else is of the wrong kind. *)
Definition structOf {T} (fields : list (string * decoder T)) : decoder T :=
  fun j cur =>
    match j with
    | Json.Null => Ok cur
    | Json.Object members =>
        foldM (fun acc m =>
                 match findField fields (fst m) with
                 | Some dec => dec (snd m) acc
                 | None => Ok acc
                 end) members cur
    | _ => mismatch j
    end.

Definition digitVal (c : ascii) : Z := Z.of_N (code c - 48).

Fixpoint digitsValue (acc : Z) (s : string) : Z :=
  match s with
  | EmptyString => acc
  | String c s' => digitsValue (10 * acc + digitVal c) s'
  end.

(** strconv.ParseInt(literal, 10, 64) on a number literal: its value when
    it is written without fraction and exponent and fits 64 bits. *)
Definition parseInt (literal : string) : option Z :=
  let '(neg, body) :=
    match literal with
    | String c r => if (code c =? 45)%N then (true, r) else (false, literal)
    | EmptyString => (false, literal)
    end in
  match Json.takeDigits body with
  | (ds, EmptyString) =>
      let v := if neg then (- digitsValue 0 ds)%Z else digitsValue 0 ds in
      if ((- 2 ^ 63 <=? v) && (v <? 2 ^ 63))%Z then Some v else None
  | (_, String _ _) => None
  end.

(** The digits [d] and the exponent [e] with which the magnitude of a number
    literal is [d * 10 ^ e]. *)
Definition decimalParts (literal : string) : Z * Z :=
  let body :=
    match literal with
    | String c r => if (code c =? 45)%N then r else literal
    | EmptyString => literal
    end in
  let '(ip, s2) := Json.takeDigits body in
  let '(fp, s3) :=
    match s2 with
    | String c r => if (code c =? 46)%N then Json.takeDigits r else ("", s2)
    | EmptyString => ("", s2)
    end in
  let ex : Z :=
    match s3 with
    | String _ (String d r') =>
        if (code d =? 45)%N then (- digitsValue 0 r')%Z
        else if (code d =? 43)%N then digitsValue 0 r'
        else digitsValue 0 (String d r')
    | _ => 0%Z
    end in
  (digitsValue 0 (ip +:+ fp), (ex - Z.of_nat (String.length fp))%Z).

(** strconv.ParseFloat(literal, 64) reports a range error exactly when the
    magnitude rounds to infinity, that is from [2^1024 - 2^970] on. *)
Definition float64Overflows (literal : string) : bool :=
  let '(d, e) := decimalParts literal in
  let bound := (2 ^ 1024 - 2 ^ 970)%Z in
  if (0 <=? e)%Z then (bound <=? d * 10 ^ e)%Z
  else (bound * 10 ^ (- e) <=? d)%Z.

(** The first number of a value, in document order, that does not fit a
    float64: what stops the decoding into an [interface{}]. *)
Fixpoint firstOverflow (j : Json.value) : option string :=
  match j with
  | Json.Number literal =>
      if float64Overflows literal then Some literal else None
  | Json.Array elems =>
      (fix go (l : list Json.value) : option string :=
         match l with
         | [] => None
         | x :: l' =>
             match firstOverflow x with
             | Some n => Some n
             | None => go l'
             end
         end) elems
  | Json.Object members =>
      (fix go (l : list (string * Json.value)) : option string :=
         match l with
         | [] => None
         | (_, x) :: l' =>
             match firstOverflow x with
             | Some n => Some n
             | None => go l'
             end
         end) members
  | _ => None
  end.

Section Fields.
Context {T : Type}.

(** A field of type [string]. *)
Definition stringField (set : string -> T -> T) : decoder T :=
  fun j cur =>
    match j with
    | Json.Str s => Ok (set s cur)
    | Json.Null => Ok cur
    | _ => mismatch j
    end.

(** A field of type [int]. *)
Definition intField (set : Z -> T -> T) : decoder T :=
  fun j cur =>
    match j with
    | Json.Number literal =>
        match parseInt literal with
        | Some v => Ok (set v cur)
        | None => Err (UnmarshalTypeError ("number " +:+ literal))
        end
    | Json.Null => Ok cur
    | _ => mismatch j
    end.

(** A field of type [bool]. *)
Definition boolField (set : bool -> T -> T) : decoder T :=
  fun j cur =>
    match j with
    | Json.Bool b => Ok (set b cur)
    | Json.Null => Ok cur
    | _ => mismatch j
    end.

(** A field that is itself a struct: decoded in place. *)
Definition structField {U} (get : T -> U) (set : U -> T -> T)
    (dec : decoder U) : decoder T :=
  fun j cur => bind (dec j (get cur)) (fun u => Ok (set u cur)).

(** A field that points to a struct: [null] makes it nil, anything else is
    decoded into the struct it points to, allocated when it was nil. *)
Definition pointerField {U} (get : T -> option U) (set : option U -> T -> T)
    (zero : U) (dec : decoder U) : decoder T :=
  fun j cur =>
    match j with
    | Json.Null => Ok (set None cur)
    | _ => bind (dec j (default zero (get cur)))
                (fun u => Ok (set (Some u) cur))
    end.

(** A field of type [map[string]U]: [null] makes it nil, an object stores
    each member, decoded into a fresh element, under its key. *)
Definition mapField {U} (get : T -> gmap string U)
    (set : gmap string U -> T -> T) (zero : U) (dec : decoder U) : decoder T :=
  fun j cur =>
    match j with
    | Json.Null => Ok (set ∅ cur)
    | Json.Object members =>
        bind (foldM (fun (m : gmap string U) kv =>
                       bind (dec (snd kv) zero)
                            (fun u => Ok (<[fst kv := u]> m)))
                    members (get cur))
             (fun m => Ok (set m cur))
    | _ => mismatch j
    end.

End Fields.

(** An element of a [map[string]interface{}]: any value whose numbers fit
    a float64; the value is kept as the document has it. *)
Definition anyValue : decoder Json.value :=
  fun j _ =>
    match firstOverflow j with
    | Some literal => Err (UnmarshalTypeError ("number " +:+ literal))
    | None => Ok j
    end.

Definition APIStats_fields : list (string * decoder APIStats.t) :=
  [ ("totalRequests", intField (fun x s =>
       APIStats.mk x s.(APIStats.TotalErrors) s.(APIStats.TotalLatencyMs)));
    ("totalErrors", intField (fun x s =>
       APIStats.mk s.(APIStats.TotalRequests) x s.(APIStats.TotalLatencyMs)));
    ("totalLatencyMs", intField (fun x s =>
       APIStats.mk s.(APIStats.TotalRequests) s.(APIStats.TotalErrors) x)) ].

Definition TokenStats_fields : list (string * decoder TokenStats.t) :=
  let '(p, c, t, ca, th, tl) :=
    (TokenStats.Prompt, TokenStats.Candidates, TokenStats.Total,
     TokenStats.Cached, TokenStats.Thoughts, TokenStats.Tool) in
  [ ("prompt", intField (fun x s =>
       TokenStats.mk x (c s) (t s) (ca s) (th s) (tl s)));
    ("candidates", intField (fun x s =>
       TokenStats.mk (p s) x (t s) (ca s) (th s) (tl s)));
    ("total", intField (fun x s =>
       TokenStats.mk (p s) (c s) x (ca s) (th s) (tl s)));
    ("cached", intField (fun x s =>
       TokenStats.mk (p s) (c s) (t s) x (th s) (tl s)));
    ("thoughts", intField (fun x s =>
       TokenStats.mk (p s) (c s) (t s) (ca s) x (tl s)));
    ("tool", intField (fun x s =>
       TokenStats.mk (p s) (c s) (t s) (ca s) (th s) x)) ].

Definition ModelStats_fields : list (string * decoder ModelStats.t) :=
  [ ("api", structField ModelStats.API
       (fun x s => ModelStats.mk x s.(ModelStats.Tokens))
       (structOf APIStats_fields));
    ("tokens", structField ModelStats.Tokens
       (fun x s => ModelStats.mk s.(ModelStats.API) x)
       (structOf TokenStats_fields)) ].

Definition ToolDecisions_fields : list (string * decoder ToolDecisions.t) :=
  let '(a, r, m, aa) :=
    (ToolDecisions.Accept, ToolDecisions.Reject, ToolDecisions.Modify,
     ToolDecisions.AutoAccept) in
  [ ("accept", intField (fun x s => ToolDecisions.mk x (r s) (m s) (aa s)));
    ("reject", intField (fun x s => ToolDecisions.mk (a s) x (m s) (aa s)));
    ("modify", intField (fun x s => ToolDecisions.mk (a s) (r s) x (aa s)));
    ("auto_accept", intField (fun x s =>
       ToolDecisions.mk (a s) (r s) (m s) x)) ].

Definition ToolDetail_fields : list (string * decoder ToolDetail.t) :=
  let '(c, su, f, d, de) :=
    (ToolDetail.Count, ToolDetail.Success, ToolDetail.Fail,
     ToolDetail.DurationMs, ToolDetail.Decisions) in
  [ ("count", intField (fun x s => ToolDetail.mk x (su s) (f s) (d s) (de s)));
    ("success", intField (fun x s => ToolDetail.mk (c s) x (f s) (d s) (de s)));
    ("fail", intField (fun x s => ToolDetail.mk (c s) (su s) x (d s) (de s)));
    ("durationMs", intField (fun x s =>
       ToolDetail.mk (c s) (su s) (f s) x (de s)));
    ("decisions", structField ToolDetail.Decisions
       (fun x s => ToolDetail.mk (c s) (su s) (f s) (d s) x)
       (structOf ToolDecisions_fields)) ].

Definition ToolStats_fields : list (string * decoder ToolStats.t) :=
  let '(c, su, f, d, de, bn) :=
    (ToolStats.TotalCalls, ToolStats.TotalSuccess, ToolStats.TotalFail,
     ToolStats.TotalDurationMs, ToolStats.TotalDecisions, ToolStats.ByName) in
  [ ("totalCalls", intField (fun x s =>
       ToolStats.mk x (su s) (f s) (d s) (de s) (bn s)));
    ("totalSuccess", intField (fun x s =>
       ToolStats.mk (c s) x (f s) (d s) (de s) (bn s)));
    ("totalFail", intField (fun x s =>
       ToolStats.mk (c s) (su s) x (d s) (de s) (bn s)));
    ("totalDurationMs", intField (fun x s =>
       ToolStats.mk (c s) (su s) (f s) x (de s) (bn s)));
    ("totalDecisions", structField ToolStats.TotalDecisions
       (fun x s => ToolStats.mk (c s) (su s) (f s) (d s) x (bn s))
       (structOf ToolDecisions_fields));
    ("byName", mapField ToolStats.ByName
       (fun x s => ToolStats.mk (c s) (su s) (f s) (d s) (de s) x)
       ToolDetail.zero (structOf ToolDetail_fields)) ].

Definition FileStats_fields : list (string * decoder FileStats.t) :=
  [ ("totalLinesAdded", intField (fun x s =>
       FileStats.mk x s.(FileStats.TotalLinesRemoved)));
    ("totalLinesRemoved", intField (fun x s =>
       FileStats.mk s.(FileStats.TotalLinesAdded) x)) ].

Definition CLIStats_fields : list (string * decoder CLIStats.t) :=
  [ ("models", mapField CLIStats.Models
       (fun x s => CLIStats.mk x s.(CLIStats.Tools) s.(CLIStats.Files))
       ModelStats.zero (structOf ModelStats_fields));
    ("tools", structField CLIStats.Tools
       (fun x s => CLIStats.mk s.(CLIStats.Models) x s.(CLIStats.Files))
       (structOf ToolStats_fields));
    ("files", structField CLIStats.Files
       (fun x s => CLIStats.mk s.(CLIStats.Models) s.(CLIStats.Tools) x)
       (structOf FileStats_fields)) ].

Definition CLIError_fields : list (string * decoder CLIError.t) :=
  [ ("type", stringField (fun x s =>
       CLIError.mk x s.(CLIError.Message) s.(CLIError.Code)));
    ("message", stringField (fun x s =>
       CLIError.mk s.(CLIError.Type_) x s.(CLIError.Code)));
    ("code", intField (fun x s =>
       CLIError.mk s.(CLIError.Type_) s.(CLIError.Message) x)) ].

Definition CLIResponse_fields : list (string * decoder CLIResponse.t) :=
  [ ("response", stringField (fun x s =>
       CLIResponse.mk x s.(CLIResponse.Stats) s.(CLIResponse.Error)));
    ("stats", pointerField CLIResponse.Stats
       (fun x s => CLIResponse.mk s.(CLIResponse.Response) x
                     s.(CLIResponse.Error))
       CLIStats.zero (structOf CLIStats_fields));
    ("error", pointerField CLIResponse.Error
       (fun x s => CLIResponse.mk s.(CLIResponse.Response)
                     s.(CLIResponse.Stats) x)
       CLIError.zero (structOf CLIError_fields)) ].

Definition StreamEvent_fields : list (string * decoder StreamEvent.t) :=
  let '(ty, ts, si, mo, ro, co, de) :=
    (StreamEvent.Type_, StreamEvent.Timestamp, StreamEvent.SessionID,
     StreamEvent.Model, StreamEvent.Role, StreamEvent.Content,
     StreamEvent.Delta) in
  let '(tn, ti, pa, st, ou, sa) :=
    (StreamEvent.ToolName, StreamEvent.ToolID, StreamEvent.Parameters,
     StreamEvent.Status, StreamEvent.Output, StreamEvent.Stats) in
  let mk := StreamEvent.mk in
  [ ("type", stringField (fun x s =>
       mk x (ts s) (si s) (mo s) (ro s) (co s) (de s) (tn s) (ti s) (pa s)
          (st s) (ou s) (sa s)));
    ("timestamp", stringField (fun x s =>
       mk (ty s) x (si s) (mo s) (ro s) (co s) (de s) (tn s) (ti s) (pa s)
          (st s) (ou s) (sa s)));
    ("session_id", stringField (fun x s =>
       mk (ty s) (ts s) x (mo s) (ro s) (co s) (de s) (tn s) (ti s) (pa s)
          (st s) (ou s) (sa s)));
    ("model", stringField (fun x s =>
       mk (ty s) (ts s) (si s) x (ro s) (co s) (de s) (tn s) (ti s) (pa s)
          (st s) (ou s) (sa s)));
    ("role", stringField (fun x s =>
       mk (ty s) (ts s) (si s) (mo s) x (co s) (de s) (tn s) (ti s) (pa s)
          (st s) (ou s) (sa s)));
    ("content", stringField (fun x s =>
       mk (ty s) (ts s) (si s) (mo s) (ro s) x (de s) (tn s) (ti s) (pa s)
          (st s) (ou s) (sa s)));
    ("delta", boolField (fun x s =>
       mk (ty s) (ts s) (si s) (mo s) (ro s) (co s) x (tn s) (ti s) (pa s)
          (st s) (ou s) (sa s)));
    ("tool_name", stringField (fun x s =>
       mk (ty s) (ts s) (si s) (mo s) (ro s) (co s) (de s) x (ti s) (pa s)
          (st s) (ou s) (sa s)));
    ("tool_id", stringField (fun x s =>
       mk (ty s) (ts s) (si s) (mo s) (ro s) (co s) (de s) (tn s) x (pa s)
          (st s) (ou s) (sa s)));
    ("parameters", mapField pa (fun x s =>
       mk (ty s) (ts s) (si s) (mo s) (ro s) (co s) (de s) (tn s) (ti s) x
          (st s) (ou s) (sa s))
       Json.Null anyValue);
    ("status", stringField (fun x s =>
       mk (ty s) (ts s) (si s) (mo s) (ro s) (co s) (de s) (tn s) (ti s) (pa s)
          x (ou s) (sa s)));
    ("output", stringField (fun x s =>
       mk (ty s) (ts s) (si s) (mo s) (ro s) (co s) (de s) (tn s) (ti s) (pa s)
          (st s) x (sa s)));
    ("stats", pointerField sa (fun x s =>
       mk (ty s) (ts s) (si s) (mo s) (ro s) (co s) (de s) (tn s) (ti s) (pa s)
          (st s) (ou s) x)
       CLIStats.zero (structOf CLIStats_fields)) ].

(** json.Unmarshal(data, &v): a syntax error when [data] is not one
    document, else the document decoded into [v]. *)
Definition Unmarshal {T} (dec : decoder T) (data : string) (v : T) : result T :=
  match Json.document data with
  | None => Err SyntaxError
  | Some j => dec j v
  end.

End Decode.


(* ===================================================================== *)
(** * output_parser.go: the parsers                                       *)
(* ===================================================================== *)

Module OutputParser.

Record t : Set := mk { debug : bool }.

Definition NewOutputParser (debug : bool) : t := mk debug.

(** ParseJSON parses JSON format output from gemini CLI *)
Definition ParseJSON (p : t) (output : string)
  : option CLIResponse.t * option error :=
  let output := GoStrings.TrimSpace output in
  if decide (output = "") then
    (None, Some (Wrapped ErrOutputParsing EmptyOutput))
  else
    match Decode.Unmarshal (Decode.structOf Decode.CLIResponse_fields)
            output CLIResponse.zero with
    | Decode.Err err => (None, Some (Wrapped ErrOutputParsing (DecodeFailure err)))
    | Decode.Ok response => (Some response, None)
    end.

(** The body of the loop of ParseStreamJSON: the events collected and the
    response reconstructed so far, after one more line. *)
Definition streamLine (st : list StreamEvent.t * option CLIResponse.t)
    (line : string) : list StreamEvent.t * option CLIResponse.t :=
  let '(events, finalResponse) := st in
  let line := GoStrings.TrimSpace line in
  if decide (line = "") then st
  else
    match Decode.Unmarshal (Decode.structOf Decode.StreamEvent_fields)
            line StreamEvent.zero with
    | Decode.Err _ => st
    | Decode.Ok event =>
        let events := events ++ [event] in
        (* Extract final result *)
        let finalResponse :=
          if decide (event.(StreamEvent.Type_) = "result")
          then Some (CLIResponse.mk "" event.(StreamEvent.Stats) None)
          else finalResponse in
        (* Extract final message content *)
        let finalResponse :=
          if decide (event.(StreamEvent.Type_) = "message"
                     ∧ event.(StreamEvent.Role) = "assistant"
                     ∧ event.(StreamEvent.Delta) = false)
          then
            let r := default CLIResponse.zero finalResponse in
            Some (CLIResponse.mk event.(StreamEvent.Content)
                    r.(CLIResponse.Stats) r.(CLIResponse.Error))
          else finalResponse in
        (events, finalResponse)
    end.

(** ParseStreamJSON parses stream-json format output (JSONL) *)
Definition ParseStreamJSON (p : t) (output : string)
  : list StreamEvent.t * option CLIResponse.t * option error :=
  let lines := GoStrings.Split (GoStrings.TrimSpace output) (byte_of 10) in
  let '(events, finalResponse) := fold_left streamLine lines ([], None) in
  (events, finalResponse, None).

(** ParseText handles text format output (returns as-is) *)
Definition ParseText (p : t) (output : string) : CLIResponse.t :=
  CLIResponse.mk (GoStrings.TrimSpace output) None None.

End OutputParser.

(* ===================================================================== *)
(** * cli_executor.go                                                     *)
(* ===================================================================== *)

Module ExecutionResult.
Record t : Type := mk {
  RawOutput : string;
  Response : option CLIResponse.t;
  ExitCode : Z
}.
End ExecutionResult.

(** The command handed to os/exec. *)
Module Cmd.
Record t : Set := mk {
  Path : string;
  Args : list string;
  Dir : string;
  Stdin : option string;
  Env : list string
}.
End Cmd.

(** What is known once [cmd.Run()] has returned: the two captured streams,
    the error of [Run], and whether [ctx.Err()] is context.DeadlineExceeded. *)
Module RunOutcome.
Record t : Set := mk {
  Stdout : string;
  Stderr : string;
  Err : option RunError;
  DeadlineExceeded : bool
}.
End RunOutcome.

(** The operating system as the package sees it. *)
Module Host.
Record t : Type := mk {
  (** os.Environ() *)
  Environ : list string;
  (** os.CreateTemp(dir, pattern): the name of the new file, [None] on error *)
  CreateTemp : string -> string -> option string;
  (** what the new file of that name holds once WriteString(data) and
      Close() have returned: the data when both succeed.  The package
      discards the errors of both, so it never learns of anything else. *)
  Written : string -> string -> string;
  (** filepath.Abs(path), [None] on error *)
  Abs : string -> option string;
  (** whether [gemini --version] runs without error *)
  VersionRuns : bool;
  (** the command run under a deadline of so many seconds, the temporary
      files created before it being in place *)
  Run : Z -> Cmd.t -> list (string * string) -> RunOutcome.t
}.
End Host.

Module CLIExecutor.

Record t : Set := mk { config : Config.t }.

Definition NewCLIExecutor (config : Config.t) : t := mk config.

(** CheckGeminiCLI verifies that gemini CLI is installed *)
Definition CheckGeminiCLI (h : Host.t) (e : t) : option error :=
  if h.(Host.VersionRuns) then None else Some (Plain ErrGeminiCLINotFound).

(** buildArgs constructs command line arguments based on configuration *)
Definition buildArgs (e : t) (prompt : string) : list string :=
  let c := e.(config) in
  let args : list string := [] in
  (* Required: prompt *)
  let args := args ++ ["--prompt"; prompt] in
  (* Output format *)
  let args :=
    if decide (c.(Config.OutputFormat) ≠ "")
    then args ++ ["--output-format"; c.(Config.OutputFormat)] else args in
  (* Model selection *)
  let args :=
    if decide (c.(Config.Model) ≠ "")
    then args ++ ["--model"; c.(Config.Model)] else args in
  (* YOLO mode (auto-approve all actions) *)
  let args := if c.(Config.Yolo) then args ++ ["--yolo"] else args in
  (* Approval mode *)
  let args :=
    if decide (c.(Config.ApprovalMode) ≠ "")
    then args ++ ["--approval-mode"; c.(Config.ApprovalMode)] else args in
  (* Include directories *)
  let args :=
    if decide (c.(Config.IncludeDirs) ≠ "")
    then args ++ ["--include-directories"; c.(Config.IncludeDirs)]
    else args in
  (* Debug mode *)
  let args := if c.(Config.Debug) then args ++ ["--debug"] else args in
  args.

(** The path given to GOOGLE_APPLICATION_CREDENTIALS, and the temporary
    file created for it when the credentials are JSON content, with what
    the write of the credentials left in it. *)
Definition credentialsPath (h : Host.t) (credentials : string)
  : string * list (string * string) :=
  let '(credPath, written) :=
    (* Check if it's JSON content rather than a path *)
    if GoStrings.HasPrefix (GoStrings.TrimSpace credentials) "{" then
      match h.(Host.CreateTemp) "" "gcp-credentials-*.json" with
      | Some name => (name, [(name, h.(Host.Written) name credentials)])
      | None => (credentials, [])
      end
    else (credentials, []) in
  (* Make path absolute if needed *)
  let credPath :=
    if negb (Filepath.IsAbs credPath) then
      match h.(Host.Abs) credPath with
      | Some absPath => absPath
      | None => credPath
      end
    else credPath in
  (credPath, written).

(** buildEnv constructs environment variables including authentication.
    The second component lists the temporary files created on the way, each
    with its content. *)
Definition buildEnv (h : Host.t) (e : t)
  : list string * list (string * string) :=
  let c := e.(config) in
  (* Start with current environment *)
  let env := h.(Host.Environ) in
  match Config.DetectAuthMode c with
  | AuthModeGeminiAPIKey =>
      (env ++ ["GEMINI_API_KEY=" +:+ c.(Config.APIKey)], [])
  | AuthModeVertexAI =>
      let env := env ++ ["GOOGLE_GENAI_USE_VERTEXAI=true"] in
      (* Set project and location *)
      let env :=
        if decide (c.(Config.GCPProject) ≠ "")
        then env ++ ["GOOGLE_CLOUD_PROJECT=" +:+ c.(Config.GCPProject)]
        else env in
      let env :=
        if decide (c.(Config.GCPLocation) ≠ "")
        then env ++ ["GOOGLE_CLOUD_LOCATION=" +:+ c.(Config.GCPLocation)]
        else env in
      (* Use APIKey as GOOGLE_API_KEY for Vertex AI *)
      let env :=
        if decide (c.(Config.APIKey) ≠ "")
        then env ++ ["GOOGLE_API_KEY=" +:+ c.(Config.APIKey)]
        else env in
      (* Service Account credentials (alternative to API Key) *)
      if decide (c.(Config.GCPCredentials) ≠ "") then
        let '(credPath, written) :=
          credentialsPath h c.(Config.GCPCredentials) in
        (env ++ ["GOOGLE_APPLICATION_CREDENTIALS=" +:+ credPath], written)
      else (env, [])
  | AuthModeNone => (env, [])
  end.

(** The switch of Execute on the output format: the parsed response and
    the parse error. *)
Definition parseOutput (e : t) (raw : string)
  : option CLIResponse.t * option error :=
  let c := e.(config) in
  let parser := OutputParser.NewOutputParser c.(Config.Debug) in
  if decide (c.(Config.OutputFormat) = "json") then
    OutputParser.ParseJSON parser raw
  else if decide (c.(Config.OutputFormat) = "stream-json") then
    let '(_, response, parseErr) := OutputParser.ParseStreamJSON parser raw in
    (response, parseErr)
  else (* text *)
    (Some (OutputParser.ParseText parser raw), None).

(** Execute from the parsing of the output to its end. *)
Definition interpret (e : t) (result : ExecutionResult.t)
  : option ExecutionResult.t * option error :=
  let raw := result.(ExecutionResult.RawOutput) in
  match parseOutput e raw with
  | (_, Some parseErr) => (Some result, Some parseErr)
  | (response, None) =>
      let result :=
        ExecutionResult.mk raw response result.(ExecutionResult.ExitCode) in
      (* Check for API errors in response *)
      match response with
      | Some r =>
          match r.(CLIResponse.Error) with
          | Some apiErr =>
              (Some result,
               Some (Wrapped ErrCLIExecution
                       (ApiFailure apiErr.(CLIError.Type_)
                                   apiErr.(CLIError.Message))))
          | None => (Some result, None)
          end
      | None => (Some result, None)
      end
  end.

(** The command Execute starts. *)
Definition command (h : Host.t) (e : t) (prompt stdinInput : string)
  : Cmd.t * list (string * string) :=
  let c := e.(config) in
  let args := buildArgs e prompt in
  let '(env, written) := buildEnv h e in
  (Cmd.mk "gemini" args c.(Config.Target)
     (if decide (stdinInput ≠ "") then Some stdinInput else None) env,
   written).

(** Execute once the command has returned ("Handle errors"): the result
    that goes on to be parsed, or the error Execute returns at once. *)
Definition afterRun (out : RunOutcome.t) : ExecutionResult.t + error :=
  let result := ExecutionResult.mk out.(RunOutcome.Stdout) None 0 in
  match out.(RunOutcome.Err) with
  | Some err =>
      if out.(RunOutcome.DeadlineExceeded) then inr (Plain ErrTimeout)
      else
        let result :=
          match err with
          | ExitError exitCode _ =>
              ExecutionResult.mk out.(RunOutcome.Stdout) None exitCode
          | OtherRunError _ => result
          end in
        (* If we got some output, try to parse it *)
        if (0 <? String.length out.(RunOutcome.Stdout))%nat then inl result
        else inr (Wrapped ErrCLIExecution
                    (RunFailure err out.(RunOutcome.Stderr)))
  | None => inl result
  end.

(** Execute runs the gemini CLI with the configured options *)
Definition Execute (h : Host.t) (e : t) (prompt stdinInput : string)
  : option ExecutionResult.t * option error :=
  let c := e.(config) in
  let '(cmd, written) := command h e prompt stdinInput in
  (* Execute *)
  let out := h.(Host.Run) c.(Config.Timeout) cmd written in
  (* Handle errors *)
  match afterRun out with
  | inr err => (None, Some err)
  | inl result => interpret e result
  end.

End CLIExecutor.

(* ===================================================================== *)
(** * plugin.go: pricing                                                  *)
(* ===================================================================== *)

Module ModelPricing.
Record t : Set := mk {
  Name : string;
  InputPriceShort : float;       (* per 1M tokens (context <= 200K) *)
  InputPriceLong : float;        (* per 1M tokens (context > 200K) *)
  OutputPriceShort : float;      (* per 1M tokens *)
  OutputPriceLong : float;       (* per 1M tokens *)
  LongContextThreshold : Z       (* tokens, 0 means no long context pricing *)
}.
Definition zero : t := mk "" 0 0 0 0 0.
End ModelPricing.

(** PricingTable contains pricing for all supported models.  The entries of
    the Go map, in the order of the source text. *)
Definition PricingTable : list (string * ModelPricing.t) :=
  [ (* Gemini 3.0 Series (Preview) *)
    ("gemini-3-pro-preview",
     ModelPricing.mk "Gemini 3 Pro" 4.00 4.00 12.00 12.00 0);
    ("gemini-3-flash-preview",
     ModelPricing.mk "Gemini 3 Flash" 0.50 0.50 3.00 3.00 0);
    (* Gemini 2.5 Series (Production) *)
    ("gemini-2.5-pro",
     ModelPricing.mk "Gemini 2.5 Pro" 1.25 2.50 10.00 15.00 200000);
    ("gemini-2.5-flash",
     ModelPricing.mk "Gemini 2.5 Flash" 0.30 0.30 2.50 2.50 0);
    ("gemini-2.5-flash-lite",
     ModelPricing.mk "Gemini 2.5 Flash-Lite" 0.10 0.10 0.40 0.40 0);
    (* Gemini 2.0 Series *)
    ("gemini-2.0-flash",
     ModelPricing.mk "Gemini 2.0 Flash" 0.15 0.15 0.60 0.60 0);
    ("gemini-2.0-flash-exp",
     ModelPricing.mk "Gemini 2.0 Flash (Exp)" 0.15 0.15 0.60 0.60 0);
    ("gemini-2.0-flash-lite",
     ModelPricing.mk "Gemini 2.0 Flash-Lite" 0.075 0.075 0.30 0.30 0);
    (* Gemini 1.5 Series (legacy) *)
    ("gemini-1.5-pro",
     ModelPricing.mk "Gemini 1.5 Pro" 1.25 1.25 5.00 5.00 0);
    ("gemini-1.5-flash",
     ModelPricing.mk "Gemini 1.5 Flash" 0.075 0.075 0.30 0.30 0) ]%float.

(** The conversion [float64(n)] of a Go [int], rounding to nearest even. *)
Definition float64_of_int (n : Z) : float :=
  if (n =? - 2 ^ 63)%Z then (- (of_uint63 (Uint63.of_Z (2 ^ 62)) * 2))%float
  else if (n <? 0)%Z then (- of_uint63 (Uint63.of_Z (- n)))%float
  else of_uint63 (Uint63.of_Z n).

(** [table[key]]: the value stored under the key, if any. *)
Definition mapLookup {V} (table : list (string * V)) (key : string)
  : option V :=
  match find (fun entry => String.eqb (fst entry) key) table with
  | Some entry => Some (snd entry)
  | None => None
  end.

Section Cost.
Variable unicodeToLower : string -> string.

(** calculateModelCost calculates the cost for a model's token usage.
    [table] holds the entries of the global PricingTable in the order in
    which this call's [range] visits them, which Go leaves unspecified.
    Every operation rounds to binary64 on its own (no fused multiply-add,
    as in a build for amd64). *)
Definition calculateModelCost (table : list (string * ModelPricing.t))
    (modelName : string) (tokens : TokenStats.t) : float :=
  let '(pricing, ok) :=
    match mapLookup table modelName with
    | Some p => (p, true)
    | None => (ModelPricing.zero, false)
    end in
  let '(pricing, ok) :=
    if negb ok then
      (* Try partial match *)
      match find (fun entry =>
                    GoStrings.Contains
                      (GoStrings.ToLower unicodeToLower modelName)
                      (GoStrings.ToLower unicodeToLower (fst entry))) table
      with
      | Some entry => (snd entry, true)
      | None => (pricing, ok)
      end
    else (pricing, ok) in
  let pricing :=
    if negb ok then
      (* Default pricing *)
      ModelPricing.mk "" 1.00 0 5.00 0 0
    else pricing in
  let inputCost :=
    (float64_of_int tokens.(TokenStats.Prompt) / 1000000
     * pricing.(ModelPricing.InputPriceShort))%float in
  let outputCost :=
    (float64_of_int tokens.(TokenStats.Candidates) / 1000000
     * pricing.(ModelPricing.OutputPriceShort))%float in
  let thoughtsCost :=
    (float64_of_int tokens.(TokenStats.Thoughts) / 1000000
     * pricing.(ModelPricing.OutputPriceShort))%float in
  (inputCost + outputCost + thoughtsCost)%float.

End Cost.

(* ===================================================================== *)
(** * plugin.go: the plugin                                               *)
(* ===================================================================== *)

(** strings.Index(s, substr) for a substring of one byte; [None] is -1. *)
Fixpoint stringsIndex (s : string) (sep : ascii) : option nat :=
  match s with
  | EmptyString => None
  | String c s' =>
      if Ascii.eqb c sep then Some O
      else match stringsIndex s' sep with
           | Some i => Some (S i)
           | None => None
           end
  end.

(** The first [n] bytes of [s]. *)
Fixpoint takeBytes (n : nat) (s : string) : string :=
  match n, s with
  | S n', String c s' => String c (takeBytes n' s')
  | _, _ => EmptyString
  end.

(** The slice expression [s[:n]]; [None] is the run-time panic for an index
    that is negative or beyond the length. *)
Definition sliceTo (s : string) (n : Z) : option string :=
  if ((0 <=? n) && (n <=? Z.of_nat (String.length s)))%Z
  then Some (takeBytes (Z.to_nat n) s) else None.

(** truncateString truncates a string to max length with ellipsis.  [None]
    is a panic.  The index maxLen-3 is computed without wrap-around: where
    it would wrap, at the three smallest values of an int, the wrapped index
    is beyond every length and the slice panics just the same. *)
Definition truncateString (s : string) (maxLen : Z) : option string :=
  let cut (n : Z) : option string :=
    match sliceTo s n with
    | Some head => Some (head +:+ "...")
    | None => None
    end in
  let whole : option string :=
    if (Z.of_nat (String.length s) <=? maxLen)%Z then Some s
    else cut (maxLen - 3)%Z in
  (* Handle multi-line strings *)
  match stringsIndex s (byte_of 10) with
  | Some idx => if (Z.of_nat idx <? maxLen)%Z then cut (Z.of_nat idx) else whole
  | None => whole
  end.

(** The verb [%d] of fmt on an [int]. *)
Definition formatInt (n : Z) : string := NilZero.string_of_int (Z.to_int n).

(** The analyzer of the git helper, which is not among the sources: whether
    the target is a git repository, the commit to analyse (empty when none
    is found) and the context built for a commit ([None] when that fails). *)
Module GitAnalyzer.
Record t : Type := mk {
  IsGitRepository : bool;
  DetectCommitSHA : string -> string;
  BuildGitContext : string -> option string
}.
End GitAnalyzer.

Module Plugin.

Record t : Set := mk { config : Config.t }.

(** New creates a new plugin instance *)
Definition New (cfg : Config.t) : t := mk cfg.

Section WithGit.
(** NewGitAnalyzer(target, debug) *)
Variable NewGitAnalyzer : string -> bool -> GitAnalyzer.t.

(** buildGitContext builds git context for the prompt; [None] stands for
    each of its errors, which Exec only prints. *)
Definition buildGitContext (p : t) : option string :=
  let c := p.(config) in
  let analyzer := NewGitAnalyzer c.(Config.Target) c.(Config.Debug) in
  if negb analyzer.(GitAnalyzer.IsGitRepository) then None
  else
    let sha := analyzer.(GitAnalyzer.DetectCommitSHA) c.(Config.GitCommitSHA) in
    if decide (sha = "") then None
    else analyzer.(GitAnalyzer.BuildGitContext) sha.

(** The stdin payload Exec hands to Execute. *)
Definition stdinPayload (p : t) : string :=
  let c := p.(config) in
  let stdinInput := c.(Config.StdinInput) in
  (* If git diff mode is enabled, add git context *)
  if c.(Config.GitDiff) then
    match buildGitContext p with
    | None => stdinInput
    | Some gitContext =>
        (* Append git context to stdin input *)
        if decide (stdinInput ≠ "")
        then stdinInput +:+ LF +:+ LF +:+ gitContext
        else gitContext
    end
  else stdinInput.

(** Exec runs the plugin and returns any error encountered.  What it
    prints on the way is left out: displayConfig, whose text is given
    below, and displayResult, which only formats the result. *)
Definition Exec (h : Host.t) (p : t) : option error :=
  (* Validate configuration *)
  match Config.Validate p.(config) with
  | Some err => Some err
  | None =>
      (* Create CLI executor *)
      let executor := CLIExecutor.NewCLIExecutor p.(config) in
      (* Check if gemini CLI is available *)
      match CLIExecutor.CheckGeminiCLI h executor with
      | Some err => Some err
      | None =>
          (* Build prompt with optional git context *)
          let prompt := p.(config).(Config.Prompt) in
          let stdinInput := stdinPayload p in
          (* Execute CLI *)
          match CLIExecutor.Execute h executor prompt stdinInput with
          | (_, Some err) => Some err
          | (_, None) => None
          end
      end
  end.

End WithGit.

(** displayConfig shows the current configuration: the text it prints.
    [None] is a panic of truncateString. *)
Definition displayConfig (p : t) : option string :=
  let c := p.(config) in
  match truncateString c.(Config.Prompt) 100 with
  | None => None
  | Some prompt =>
      Some (LF
        +:+ "--- Configuration ---" +:+ LF
        +:+ "Target: " +:+ c.(Config.Target) +:+ LF
        +:+ "Model: " +:+ c.(Config.Model) +:+ LF
        +:+ "Prompt: " +:+ prompt +:+ LF
        +:+ "Output Format: " +:+ c.(Config.OutputFormat) +:+ LF
        +:+ "Timeout: " +:+ formatInt c.(Config.Timeout) +:+ "s" +:+ LF
        (* Display authentication mode *)
        +:+ match Config.DetectAuthMode c with
            | AuthModeGeminiAPIKey =>
                "Auth: Gemini API Key (Google AI Studio)" +:+ LF
            | AuthModeVertexAI =>
                "Auth: Vertex AI (Project: " +:+ c.(Config.GCPProject)
                +:+ ", Location: " +:+ c.(Config.GCPLocation) +:+ ")" +:+ LF
            | AuthModeNone => "Auth: None (using existing credentials)" +:+ LF
            end
        +:+ (if c.(Config.Yolo) then "YOLO Mode: enabled ⚡" +:+ LF else "")
        +:+ (if decide (c.(Config.ApprovalMode) ≠ "")
             then "Approval Mode: " +:+ c.(Config.ApprovalMode) +:+ LF else "")
        +:+ (if decide (c.(Config.IncludeDirs) ≠ "")
             then "Include Dirs: " +:+ c.(Config.IncludeDirs) +:+ LF else "")
        +:+ (if c.(Config.GitDiff) then "Git Diff: enabled" +:+ LF else "")
        +:+ (if c.(Config.Debug) then "Debug: enabled" +:+ LF else "")
        +:+ LF)
  end.

End Plugin.


(* ===================================================================== *)
(** * Vocabulary of the statements                                        *)
(* ===================================================================== *)

(** A flag followed by its value, emitted only for a non-empty value. *)
Definition optArg (flag value : string) : list string :=
  if decide (value ≠ "") then [flag; value] else [].

(** A flag without value, emitted only when switched on. *)
Definition switchArg (flag : string) (on : bool) : list string :=
  if on then [flag] else [].

(** One assignment [NAME=value], emitted only for a non-empty value. *)
Definition optVar (name value : string) : list string :=
  if decide (value ≠ "") then [name +:+ "=" +:+ value] else [].

(** Whether an environment assigns the variable [name]. *)
Definition hasVar (name : string) (env : list string) : bool :=
  existsb (fun kv => GoStrings.HasPrefix kv (name +:+ "=")) env.

(** The overrides of buildEnv: what it adds after the ambient environment. *)
Definition overrides (h : Host.t) (e : CLIExecutor.t) : list string :=
  drop (length h.(Host.Environ)) (CLIExecutor.buildEnv h e).1.

(** A host with an empty environment, on which temporary files are named
    /tmp/gcp-credentials-1.json and take what is written to them, the
    working directory is /drone/src and every run produces [out]. *)
Definition hostReturning (out : RunOutcome.t) : Host.t :=
  Host.mk [] (fun _ _ => Some "/tmp/gcp-credentials-1.json")
    (fun _ data => data)
    (fun p => Some ("/drone/src/" +:+ p)) true (fun _ _ _ => out).

Definition quietHost : Host.t := hostReturning (RunOutcome.mk "" "" None false).

(** A configuration with the given credential fields, the other fields as
    the plugin's defaults. *)
Definition withAuth (apiKey project location credentials : string)
  : Config.t :=
  Config.mk "Review this code" "." "gemini-2.5-pro" "json" false "" ""
    false 300 false "" "" apiKey project location credentials.

(** API key and service-account file, but no project. *)
Definition keyAndCredentials : Config.t := withAuth "test-api-key" "" "" "sa.json".

(** Service-account file alone ("credentials without project" of
    config_test.go). *)
Definition credentialsOnly : Config.t := withAuth "" "" "" "sa.json".

(** Project, API key and service-account file all set. *)
Definition vertexBoth : Config.t :=
  withAuth "test-api-key" "my-project" "us-central1" "/secrets/sa.json".

(** Vertex AI by API key, the location left empty. *)
Definition vertexNoLocation : Config.t :=
  withAuth "test-api-key" "my-project" "" "".

(** Every optional setting of the argument builder switched on. *)
Definition allFlags : Config.t :=
  Config.mk "Review this code" "." "gemini-2.5-pro" "json" true "auto_edit"
    "src,docs" true 300 false "" "" "" "" "" "".

(** JSON text written with an apostrophe wherever the document has a
    double quote. *)
Definition jsonText (s : string) : string :=
  GoStrings.mapBytes
    (fun c => if (code c =? 39)%N then byte_of 34 else c) s.

Definition theParser : OutputParser.t := OutputParser.NewOutputParser false.

(** The four lines of TestParseStreamJSON. *)
Definition initLine : string :=
  jsonText "{'type':'init','timestamp':'2025-01-01T00:00:00Z','session_id':'abc123','model':'gemini-2.5-pro'}".
Definition userLine : string :=
  jsonText "{'type':'message','role':'user','content':'Hello','timestamp':'2025-01-01T00:00:01Z'}".
Definition assistantLine : string :=
  jsonText "{'type':'message','role':'assistant','content':'Hi there!','timestamp':'2025-01-01T00:00:02Z'}".
Definition resultLine : string :=
  jsonText "{'type':'result','status':'success','stats':{'models':{},'tools':{'totalCalls':0},'files':{}},'timestamp':'2025-01-01T00:00:03Z'}".

Definition testTranscript : string :=
  GoStrings.Join [initLine; userLine; assistantLine; resultLine] LF.

(** The events the four lines decode to. *)
Definition event (type timestamp session model role content status : string)
    (stats : option CLIStats.t) : StreamEvent.t :=
  StreamEvent.mk type timestamp session model role content false "" "" ∅
    status "" stats.

Definition initEvent : StreamEvent.t :=
  event "init" "2025-01-01T00:00:00Z" "abc123" "gemini-2.5-pro" "" "" "" None.
Definition userEvent : StreamEvent.t :=
  event "message" "2025-01-01T00:00:01Z" "" "" "user" "Hello" "" None.
Definition assistantEvent : StreamEvent.t :=
  event "message" "2025-01-01T00:00:02Z" "" "" "assistant" "Hi there!" "" None.
Definition resultEvent : StreamEvent.t :=
  event "result" "2025-01-01T00:00:03Z" "" "" "" "" "success"
    (Some CLIStats.zero).

(** The in-band error of the test "response with error". *)
Definition authErrorOutput : string :=
  jsonText "{'response':'','error':{'type':'AuthError','message':'Invalid API key','code':401}}".

Definition helloOutput : string :=
  jsonText "{'response':'Hello, World!','stats':null}".

(** Three spaces, a line feed, a tab, two spaces. *)
Definition blankOutput : string := bytes [32; 32; 32; 10; 9; 32; 32]%N.

(** A line is skipped when it is blank or does not decode as an event. *)
Definition skipped (line : string) : Prop :=
  GoStrings.TrimSpace line = ""
  ∨ ∃ e, Decode.Unmarshal (Decode.structOf Decode.StreamEvent_fields)
           (GoStrings.TrimSpace line) StreamEvent.zero = Decode.Err e.

(** The outcome of the run that Execute starts. *)
Definition outcome (h : Host.t) (e : CLIExecutor.t)
    (prompt stdinInput : string) : RunOutcome.t :=
  let '(cmd, written) := CLIExecutor.command h e prompt stdinInput in
  h.(Host.Run) e.(CLIExecutor.config).(Config.Timeout) cmd written.

(** The exit code Execute records for the error of a run. *)
Definition exitCodeOf (err : option RunError) : Z :=
  match err with
  | Some (ExitError exitCode _) => exitCode
  | Some (OtherRunError _) | None => 0
  end.

(** The executor of the default configuration (JSON output, no credentials). *)
Definition jsonExecutor : CLIExecutor.t :=
  CLIExecutor.mk (withAuth "" "" "" "").

(** The tool exits with status 1 after printing an in-band error. *)
Definition authErrorRun : RunOutcome.t :=
  RunOutcome.mk authErrorOutput "" (Some (ExitError 1 "exit status 1")) false.

(** The tool exits with status 1 and prints only to stderr. *)
Definition silentFailure : RunOutcome.t :=
  RunOutcome.mk "" "quota exceeded" (Some (ExitError 1 "exit status 1")) false.

(** Stands for the Unicode part of strings.ToLower where it is not
    reached: on model names without a byte outside ASCII. *)
Definition asciiNames : string -> string := fun s => s.

(** The prices used when no entry of the table is selected. *)
Definition defaultPricing : ModelPricing.t := ModelPricing.mk "" 1.00 0 5.00 0 0.

(** The entry calculateModelCost selects for a model name: the one stored
    under the name, else the first one visited whose key the name contains
    (case-insensitively). *)
Definition selectedEntry (unicodeToLower : string -> string)
    (table : list (string * ModelPricing.t)) (modelName : string)
  : option ModelPricing.t :=
  match mapLookup table modelName with
  | Some p => Some p
  | None =>
      match find (fun entry =>
                    GoStrings.Contains
                      (GoStrings.ToLower unicodeToLower modelName)
                      (GoStrings.ToLower unicodeToLower (fst entry))) table
      with
      | Some entry => Some (snd entry)
      | None => None
      end
  end.

(** The cost formula on an input price and an output price, each operation
    rounded to binary64. *)
Definition costAt (inputPrice outputPrice : float) (tokens : TokenStats.t)
  : float :=
  (float64_of_int tokens.(TokenStats.Prompt) / 1000000 * inputPrice
   + float64_of_int tokens.(TokenStats.Candidates) / 1000000 * outputPrice
   + float64_of_int tokens.(TokenStats.Thoughts) / 1000000 * outputPrice)%float.

(** Two pricing entries with the same short-context prices. *)
Definition sameShort (p p' : ModelPricing.t) : Prop :=
  p.(ModelPricing.InputPriceShort) = p'.(ModelPricing.InputPriceShort)
  ∧ p.(ModelPricing.OutputPriceShort) = p'.(ModelPricing.OutputPriceShort).

(** Two tables with the same keys in the same order and, under each key, the
    same short-context prices: they differ at most in the names, the
    long-context prices and the thresholds. *)
Definition sameShortPrices (table table' : list (string * ModelPricing.t))
  : Prop :=
  Forall2 (fun a b => a.1 = b.1 ∧ sameShort a.2 b.2) table table'.

(** PricingTable with the long-context prices of every entry doubled and
    every threshold set to one token. *)
Definition longPricesChanged : list (string * ModelPricing.t) :=
  map (fun entry =>
         (entry.1,
          ModelPricing.mk entry.2.(ModelPricing.Name)
            entry.2.(ModelPricing.InputPriceShort)
            (entry.2.(ModelPricing.InputPriceLong) * 2)%float
            entry.2.(ModelPricing.OutputPriceShort)
            (entry.2.(ModelPricing.OutputPriceLong) * 2)%float
            1)) PricingTable.

(** The token counts of TestStatsFormatting. *)
Definition exampleTokens : TokenStats.t := TokenStats.mk 1000 500 1500 200 100 50.

(** A prompt above the long-context threshold of gemini-2.5-pro. *)
Definition longPrompt : TokenStats.t := TokenStats.mk 300000 0 300000 0 0 0.

(** A parse that did not run out of fuel and, when it succeeded, consumed
    at least one byte of [s]. *)
Definition consumes {A} (p : Json.parse A) (s : string) : Prop :=
  match p with
  | Json.Parsed _ rest => (String.length rest < String.length s)%nat
  | Json.Invalid => True
  | Json.OutOfFuel => False
  end.

(** The tool exits with status 1, having printed nothing, as the deadline
    passes. *)
Definition failureAtDeadline : RunOutcome.t :=
  RunOutcome.mk "" "quota exceeded" (Some (ExitError 1 "exit status 1")) true.

(** The tool is killed at the deadline, having printed nothing. *)
Definition killedAtDeadline : RunOutcome.t :=
  RunOutcome.mk "" "" (Some (ExitError (-1) "signal: killed")) true.

(** A vertical tab followed by an empty object: not a JSON document, since
    JSON knows no vertical tab, but white space for strings.TrimSpace. *)
Definition tabbedObject : string := bytes [11; 123; 125]%N.

(** The pattern of the temporary file that receives inline credentials. *)
Definition credentialsPattern : string := "gcp-credentials-*.json".

(** The temporary file created for inline credentials, if they are inline
    and the file can be created. *)
Definition tempFileFor (h : Host.t) (credentials : string) : option string :=
  if GoStrings.HasPrefix (GoStrings.TrimSpace credentials) "{"
  then h.(Host.CreateTemp) "" credentialsPattern else None.

(** A path made absolute where the host can do so. *)
Definition absolute (h : Host.t) (path : string) : string :=
  if Filepath.IsAbs path then path else default path (h.(Host.Abs) path).

(** Vertex AI with service-account credentials given inline, as JSON. *)
Definition inlineCredentials : Config.t :=
  withAuth "" "my-project" "us-central1"
    (jsonText "{'type':'service_account'}").

(** Vertex AI with service-account credentials given as a relative path. *)
Definition relativeCredentials : Config.t :=
  withAuth "" "my-project" "" "sa.json".

(** A host like [quietHost] on which no temporary file can be created. *)
Definition fullDisk : Host.t :=
  Host.mk [] (fun _ _ => None) (fun _ data => data)
    (fun p => Some ("/drone/src/" +:+ p)) true
    (fun _ _ _ => RunOutcome.mk "" "" None false).

(** A host like [quietHost] on which a temporary file can be created but
    every write to it fails, leaving it empty. *)
Definition failedWrite : Host.t :=
  Host.mk [] (fun _ _ => Some "/tmp/gcp-credentials-1.json")
    (fun _ _ => "")
    (fun p => Some ("/drone/src/" +:+ p)) true
    (fun _ _ _ => RunOutcome.mk "" "" None false).

(** The run ended in a way that lets Execute go on to parse the output: no
    error, or an error before the deadline with something on stdout. *)
Definition parseable (out : RunOutcome.t) : Prop :=
  out.(RunOutcome.Err) = None
  ∨ (out.(RunOutcome.DeadlineExceeded) = false
     ∧ out.(RunOutcome.Stdout) ≠ "").

(** The executor of the default configuration with another output format. *)
Definition executorFor (format : string) : CLIExecutor.t :=
  CLIExecutor.mk
    (Config.mk "Review this code" "." "gemini-2.5-pro" format false "" ""
       false 300 false "" "" "" "" "" "").

(** The tool prints an answer and exits with status 2. *)
Definition noisyFailure : RunOutcome.t :=
  RunOutcome.mk " partial answer " "boom" (Some (ExitError 2 "exit status 2"))
    false.

(** The tool prints the hello document and exits with status 0. *)
Definition helloRun : RunOutcome.t := RunOutcome.mk helloOutput "" None false.

(** The tool prints a line feed and exits with status 0. *)
Definition blankRun : RunOutcome.t := RunOutcome.mk LF "" None false.

(** The event a line of the stream decodes to, if it decodes. *)
Definition decodeLine (line : string) : option StreamEvent.t :=
  match Decode.Unmarshal (Decode.structOf Decode.StreamEvent_fields)
          (GoStrings.TrimSpace line) StreamEvent.zero with
  | Decode.Ok ev => Some ev
  | Decode.Err _ => None
  end.

(** The two kinds of event ParseStreamJSON looks at: the result event and
    the complete (non-delta) message of the assistant. *)
Definition isResult (ev : StreamEvent.t) : bool :=
  bool_decide (ev.(StreamEvent.Type_) = "result").

Definition isFinalMessage (ev : StreamEvent.t) : bool :=
  bool_decide (ev.(StreamEvent.Type_) = "message"
               ∧ ev.(StreamEvent.Role) = "assistant"
               ∧ ev.(StreamEvent.Delta) = false).

Definition relevant (ev : StreamEvent.t) : bool :=
  isResult ev || isFinalMessage ev.

(** What one decoded event does to the response under reconstruction. *)
Definition absorb (r : option CLIResponse.t) (ev : StreamEvent.t)
  : option CLIResponse.t :=
  if isFinalMessage ev
  then Some (CLIResponse.mk ev.(StreamEvent.Content)
               (default CLIResponse.zero r).(CLIResponse.Stats)
               (default CLIResponse.zero r).(CLIResponse.Error))
  else if isResult ev
  then Some (CLIResponse.mk "" ev.(StreamEvent.Stats) None)
  else r.

(** The statistics of the last result event, starting from [stats]. *)
Definition statsAfter (stats : option CLIStats.t)
    (events : list StreamEvent.t) : option CLIStats.t :=
  fold_left (fun acc ev =>
               if isFinalMessage ev then acc
               else if isResult ev then ev.(StreamEvent.Stats) else acc)
    events stats.

(** The content of the last complete assistant message that no result
    event follows, starting from [text]; a result event empties it. *)
Definition textAfter (text : string) (events : list StreamEvent.t) : string :=
  fold_left (fun acc ev =>
               if isFinalMessage ev then ev.(StreamEvent.Content)
               else if isResult ev then "" else acc)
    events text.

(** The four lines of the test with the result before the answer. *)
Definition resultFirstTranscript : string :=
  GoStrings.Join [initLine; userLine; resultLine; assistantLine] LF.

(** A configuration with its two secrets, the API key and the credentials,
    blanked. *)
Definition withoutSecrets (c : Config.t) : Config.t :=
  Config.mk c.(Config.Prompt) c.(Config.Target) c.(Config.Model)
    c.(Config.OutputFormat) c.(Config.Yolo) c.(Config.ApprovalMode)
    c.(Config.IncludeDirs) c.(Config.Debug) c.(Config.Timeout)
    c.(Config.GitDiff) c.(Config.GitCommitSHA) c.(Config.StdinInput)
    "" c.(Config.GCPProject) c.(Config.GCPLocation) "".

(** Two letters, a line feed, two letters. *)
Definition twoLines : string := "ab" +:+ LF +:+ "cd".

(** A configuration with the git-diff mode switched on or off. *)
Definition withGitDiff (on : bool) (c : Config.t) : Config.t :=
  Config.mk c.(Config.Prompt) c.(Config.Target) c.(Config.Model)
    c.(Config.OutputFormat) c.(Config.Yolo) c.(Config.ApprovalMode)
    c.(Config.IncludeDirs) c.(Config.Debug) c.(Config.Timeout)
    on c.(Config.GitCommitSHA) c.(Config.StdinInput)
    c.(Config.APIKey) c.(Config.GCPProject) c.(Config.GCPLocation)
    c.(Config.GCPCredentials).

(** The target is not a git repository. *)
Definition noRepository : string -> bool -> GitAnalyzer.t :=
  fun _ _ => GitAnalyzer.mk false (fun sha => sha) (fun _ => None).

(** The default configuration in git-diff mode, with a note on stdin. *)
Definition gitDiffConfig : Config.t :=
  Config.mk "Review this code" "." "gemini-2.5-pro" "json" false "" ""
    false 300 true "" "see the diff" "" "" "" "".

(** A host on which the gemini CLI is not installed. *)
Definition noGemini : Host.t :=
  Host.mk [] (fun _ _ => None) (fun _ data => data) (fun _ => None) false
    (fun _ _ _ => helloRun).

(** A model name that contains two keys of the table, gemini-2.5-flash and
    gemini-2.5-flash-lite, and is none. *)
Definition previewName : string := "gemini-2.5-flash-lite-preview-09-2025".

(* ===================================================================== *)
(** * Properties                                                          *)
(* ===================================================================== *)

(** ** The trimming loops reach the end of the white space *)

Lemma stripPrefix_length p s r :
  GoStrings.stripPrefix p s = Some r →
  String.length s = (String.length p + String.length r)%nat.
Proof.
  revert s. induction p as [| a p IH]; intros s; simpl.
  - intros [= ->]. reflexivity.
  - destruct s as [| b s]; [discriminate |].
    destruct (Ascii.eqb a b); [| discriminate].
    intros H. simpl. rewrite (IH _ H). reflexivity.
Qed.

Lemma firstStrip_lt runes s s' :
  Forall (fun r => r ≠ "") runes →
  GoStrings.firstStrip runes s = Some s' →
  (String.length s' < String.length s)%nat.
Proof.
  induction 1 as [| r runes Hr _ IH]; simpl; [discriminate |].
  destruct (GoStrings.stripPrefix r s) as [rest |] eqn:E; [| exact IH].
  intros [= <-]. rewrite (stripPrefix_length _ _ _ E).
  destruct r; [congruence | simpl; lia].
Qed.

Lemma trimWith_done (drop : string → option string) n s :
  (∀ s s', drop s = Some s' → (String.length s' < String.length s)%nat) →
  (String.length s ≤ n)%nat →
  drop (GoStrings.trimWith drop n s) = None.
Proof.
  intros Hdrop. revert s. induction n as [| n IH]; intros s Hlen; simpl.
  - destruct (drop s) as [s' |] eqn:E; [| reflexivity].
    apply Hdrop in E. lia.
  - destruct (drop s) as [s' |] eqn:E; [| exact E].
    apply IH. apply Hdrop in E. lia.
Qed.

Lemma spaceRunes_nonempty : Forall (fun r => r ≠ "") GoStrings.spaceRunes.
Proof. unfold GoStrings.spaceRunes. simpl. repeat constructor; discriminate. Qed.

Lemma spaceRunes_rev_nonempty :
  Forall (fun r => r ≠ "") (map rev_string GoStrings.spaceRunes).
Proof. unfold GoStrings.spaceRunes. simpl. repeat constructor; discriminate. Qed.

Lemma rev_string_onto_twice s a b :
  rev_string_onto (rev_string_onto s a) b = rev_string_onto a (s +:+ b).
Proof.
  revert a b. induction s as [| c s IH]; intros a b; [reflexivity |].
  change (rev_string_onto (rev_string_onto s (String c a)) b
          = rev_string_onto (String c a) (s +:+ b)).
  apply IH.
Qed.

Lemma append_empty_r s : s +:+ "" = s.
Proof.
  induction s as [| c s IH]; [reflexivity |].
  change (String c (s +:+ "") = String c s). f_equal. exact IH.
Qed.

Lemma rev_string_involutive s : rev_string (rev_string s) = s.
Proof.
  unfold rev_string. rewrite rev_string_onto_twice.
  cbn [rev_string_onto]. apply append_empty_r.
Qed.

Lemma rev_string_onto_length s a :
  String.length (rev_string_onto s a)
  = (String.length s + String.length a)%nat.
Proof.
  revert a. induction s as [| c s IH]; intros a; simpl; [reflexivity |].
  rewrite IH. simpl. lia.
Qed.

(** After TrimLeftSpace no white-space rune is left at the front. *)
Lemma TrimLeftSpace_done s :
  GoStrings.dropSpace (GoStrings.TrimLeftSpace s) = None.
Proof.
  apply trimWith_done; [| lia].
  intros t t'. apply firstStrip_lt, spaceRunes_nonempty.
Qed.

(** After TrimRightSpace no white-space rune is left at the end. *)
Lemma TrimRightSpace_done s :
  GoStrings.dropSpaceRev (rev_string (GoStrings.TrimRightSpace s)) = None.
Proof.
  unfold GoStrings.TrimRightSpace. rewrite rev_string_involutive.
  apply trimWith_done.
  - intros t t'. apply firstStrip_lt, spaceRunes_rev_nonempty.
  - unfold rev_string. rewrite rev_string_onto_length. simpl. lia.
Qed.

(** ** The model of encoding/json never runs out of fuel *)

Lemma consumes_parse_map {A B} (f : A → B) (p : Json.parse A) s :
  consumes p s → consumes (Json.parse_map f p) s.
Proof. destruct p; exact id. Qed.

Lemma consumes_weaken {A} (p : Json.parse A) s s' :
  (String.length s ≤ String.length s')%nat → consumes p s → consumes p s'.
Proof. destruct p; simpl; [lia | tauto | tauto]. Qed.

Lemma skipSpace_le s :
  (String.length (Json.skipSpace s) ≤ String.length s)%nat.
Proof.
  induction s as [| c s IH]; simpl; [lia |].
  destruct (Json.isJsonSpace c); simpl; lia.
Qed.

Lemma takeDigits_le s :
  (String.length (Json.takeDigits s).2 ≤ String.length s)%nat.
Proof.
  induction s as [| c s IH]; simpl; [lia |].
  destruct (Json.isDigit c); [| simpl; lia].
  destruct (Json.takeDigits s) as [ds rest]. simpl in *. lia.
Qed.

Lemma scanString_consumes s : consumes (Json.scanString s) s.
Proof.
  assert (H : ∀ n s, (String.length s ≤ n)%nat →
                     consumes (Json.scanString s) s).
  { clear s. induction n as [| n IH]; intros [| c r] Hlen; simpl in *;
      try exact I; try lia.
    destruct (code c =? 34)%N; [simpl; lia |].
    destruct (code c =? 92)%N.
    - destruct r as [| e r1]; [exact I |].
      destruct (code e =? 117)%N.
      + destruct r1 as [| h1 [| h2 [| h3 [| h4 r2]]]]; try exact I.
        destruct (Json.hex4 h1 h2 h3 h4); [| exact I].
        apply consumes_parse_map.
        apply (consumes_weaken _ r2); [simpl; lia |].
        apply IH. simpl in Hlen. lia.
      + destruct (Json.escChar e); [| exact I].
        apply consumes_parse_map.
        apply (consumes_weaken _ r1); [simpl; lia |].
        apply IH. simpl in Hlen. lia.
    - destruct (code c <? 32)%N; [exact I |].
      apply consumes_parse_map.
      apply (consumes_weaken _ r); [simpl; lia |].
      apply IH. lia. }
  apply (H (String.length s)). lia.
Qed.

Lemma stringLit_consumes s : consumes (Json.stringLit s) s.
Proof. apply consumes_parse_map, scanString_consumes. Qed.

Lemma keyword_consumes kw v s :
  kw ≠ "" → consumes (Json.keyword kw v s) s.
Proof.
  intros Hkw. unfold Json.keyword.
  destruct (GoStrings.stripPrefix kw s) as [rest |] eqn:E; [| exact I].
  simpl. rewrite (stripPrefix_length _ _ _ E).
  destruct kw; [congruence | simpl; lia].
Qed.

Lemma signPart_le s :
  (String.length (Json.signPart s).2 ≤ String.length s)%nat.
Proof.
  destruct s as [| c r]; simpl; [lia |].
  destruct (code c =? 45)%N; simpl; lia.
Qed.

Lemma intPart_lt s ip rest :
  Json.intPart s = Some (ip, rest) →
  (String.length rest < String.length s)%nat.
Proof.
  destruct s as [| c r]; simpl; [discriminate |].
  destruct (code c =? 48)%N; [intros [= <- <-]; simpl; lia |].
  destruct (Json.isDigit c); [| discriminate].
  pose proof (takeDigits_le r) as Hr.
  destruct (Json.takeDigits r) as [ds r']. intros [= <- <-].
  simpl in *. lia.
Qed.

Lemma fracPart_le s fp rest :
  Json.fracPart s = Some (fp, rest) →
  (String.length rest ≤ String.length s)%nat.
Proof.
  destruct s as [| c r]; simpl; [intros [= <- <-]; simpl; lia |].
  destruct (code c =? 46)%N; [| intros [= <- <-]; simpl; lia].
  pose proof (takeDigits_le r) as Hr.
  destruct (Json.takeDigits r) as [[| d ds] r']; [discriminate |].
  intros [= <- <-]. simpl in *. lia.
Qed.

Lemma expPart_le s ep rest :
  Json.expPart s = Some (ep, rest) →
  (String.length rest ≤ String.length s)%nat.
Proof.
  destruct s as [| c r]; simpl; [intros [= <- <-]; simpl; lia |].
  destruct ((code c =? 101) || (code c =? 69))%N;
    [| intros [= <- <-]; simpl; lia].
  destruct r as [| d r'].
  - simpl. discriminate.
  - destruct ((code d =? 43) || (code d =? 45))%N.
    + pose proof (takeDigits_le r') as Hr.
      destruct (Json.takeDigits r') as [[| g gs] r2]; [discriminate |].
      intros [= <- <-]. simpl in *. lia.
    + pose proof (takeDigits_le (String d r')) as Hr.
      destruct (Json.takeDigits (String d r')) as [[| g gs] r2];
        [discriminate |].
      intros [= <- <-]. simpl in *. lia.
Qed.

Lemma numberLit_consumes s : consumes (Json.numberLit s) s.
Proof.
  unfold Json.numberLit.
  pose proof (signPart_le s) as H1.
  destruct (Json.signPart s) as [sign s1]. simpl in H1.
  destruct (Json.intPart s1) as [[ip s2] |] eqn:E2; [| exact I].
  apply intPart_lt in E2.
  destruct (Json.fracPart s2) as [[fp s3] |] eqn:E3; [| exact I].
  apply fracPart_le in E3.
  destruct (Json.expPart s3) as [[ep s4] |] eqn:E4; [| exact I].
  apply expPart_le in E4. simpl. lia.
Qed.

(** With fuel above twice the length of the input, the three mutually
    recursive parsers never run out of fuel, and a successful parse leaves
    less input than it was given. *)
Lemma parse_consumes (fuel : nat) :
  (∀ depth s, (2 * String.length s < fuel)%nat →
     consumes (Json.parseValue fuel depth s) s)
  ∧ (∀ depth s, (2 * String.length s + 1 < fuel)%nat →
     consumes (Json.parseElems fuel depth s) s)
  ∧ (∀ depth s, (2 * String.length s + 1 < fuel)%nat →
     consumes (Json.parseMembers fuel depth s) s).
Proof.
  induction fuel as [| fuel (IHv & IHe & IHm)]; [repeat split; intros; lia |].
  repeat split; intros depth s Hfuel.
  - (* parseValue *)
    destruct s as [| c r]; [exact I |]. cbn [Json.parseValue].
    simpl in Hfuel. pose proof (skipSpace_le r) as Hsp.
    destruct (code c =? 123)%N.
    { destruct (Json.maxNestingDepth <? depth + 1)%N; [exact I |].
      destruct (Json.skipSpace r) as [| d r'] eqn:Er; [exact I |].
      destruct (code d =? 125)%N; [simpl in *; lia |].
      apply consumes_parse_map.
      apply (consumes_weaken _ (String d r')); [simpl in *; lia |].
      apply IHm. simpl in *. lia. }
    destruct (code c =? 91)%N.
    { destruct (Json.maxNestingDepth <? depth + 1)%N; [exact I |].
      destruct (Json.skipSpace r) as [| d r'] eqn:Er; [exact I |].
      destruct (code d =? 93)%N; [simpl in *; lia |].
      apply consumes_parse_map.
      apply (consumes_weaken _ (String d r')); [simpl in *; lia |].
      apply IHe. simpl in *. lia. }
    destruct (code c =? 34)%N.
    { apply consumes_parse_map.
      apply (consumes_weaken _ r); [simpl; lia |]. apply stringLit_consumes. }
    destruct (code c =? 116)%N; [apply keyword_consumes; discriminate |].
    destruct (code c =? 102)%N; [apply keyword_consumes; discriminate |].
    destruct (code c =? 110)%N; [apply keyword_consumes; discriminate |].
    apply consumes_parse_map, numberLit_consumes.
  - (* parseElems *)
    cbn [Json.parseElems].
    assert (Hv := IHv depth s ltac:(lia)).
    destruct (Json.parseValue fuel depth s) as [v rest | |];
      [| exact I | exact Hv].
    simpl in Hv. pose proof (skipSpace_le rest) as Hsp.
    destruct (Json.skipSpace rest) as [| c r] eqn:Er; [exact I |].
    destruct (code c =? 44)%N.
    { apply consumes_parse_map. pose proof (skipSpace_le r) as Hsp'.
      apply (consumes_weaken _ (Json.skipSpace r)); [simpl in *; lia |].
      apply IHe. simpl in *. lia. }
    destruct (code c =? 93)%N; [simpl in *; lia | exact I].
  - (* parseMembers *)
    cbn [Json.parseMembers].
    destruct s as [| q r0]; [exact I |].
    destruct (code q =? 34)%N; [| exact I].
    pose proof (stringLit_consumes r0) as Hk.
    destruct (Json.stringLit r0) as [key rest | |]; [| exact I | exact Hk].
    simpl in Hk, Hfuel. pose proof (skipSpace_le rest) as Hsp.
    destruct (Json.skipSpace rest) as [| c r] eqn:Er; [exact I |].
    destruct (code c =? 58)%N; [| exact I].
    pose proof (skipSpace_le r) as Hsp1.
    assert (Hv := IHv depth (Json.skipSpace r) ltac:(simpl in *; lia)).
    destruct (Json.parseValue fuel depth (Json.skipSpace r))
      as [v rest' | |]; [| exact I | exact Hv].
    simpl in Hv. pose proof (skipSpace_le rest') as Hsp2.
    destruct (Json.skipSpace rest') as [| c' r'] eqn:Er'; [exact I |].
    destruct (code c' =? 44)%N.
    { apply consumes_parse_map. pose proof (skipSpace_le r') as Hsp3.
      apply (consumes_weaken _ (Json.skipSpace r')); [simpl in *; lia |].
      apply IHm. simpl in *. lia. }
    destruct (code c' =? 125)%N; [simpl in *; lia | exact I].
Qed.

(** The fuel that [Json.document] gives is enough: when it rejects an input,
    the input is not a document. *)
Lemma document_fuel data :
  Json.parseValue (S (2 * String.length data)) 0 (Json.skipSpace data)
  ≠ Json.OutOfFuel.
Proof.
  pose proof (proj1 (parse_consumes (S (2 * String.length data))) 0%N
                (Json.skipSpace data)) as H.
  pose proof (skipSpace_le data) as Hsp.
  intros E. rewrite E in H. apply H. lia.
Qed.

(** ** Auth resolver *)

Section AuthMode.
Variable c : Config.t.

Let vertex : Prop :=
  (c.(Config.APIKey) ≠ "" ∧ c.(Config.GCPProject) ≠ "")
  ∨ (c.(Config.GCPCredentials) ≠ "" ∧ c.(Config.GCPProject) ≠ "").

Lemma DetectAuthMode_cases :
  (vertex ∧ Config.DetectAuthMode c = AuthModeVertexAI)
  ∨ (¬ vertex ∧ c.(Config.APIKey) ≠ ""
     ∧ Config.DetectAuthMode c = AuthModeGeminiAPIKey)
  ∨ (¬ vertex ∧ c.(Config.APIKey) = ""
     ∧ Config.DetectAuthMode c = AuthModeNone).
Proof.
  unfold vertex, Config.DetectAuthMode.
  destruct (decide (c.(Config.APIKey) = ""));
    repeat case_decide; tauto.
Qed.

End AuthMode.

(** C4, the claim as stated fails: with an API key next to the credentials,
    credentials without a project do not give the mode None but the API-key
    mode. *)
Lemma credentials_without_project_not_always_None :
  ¬ (keyAndCredentials.(Config.GCPCredentials) ≠ ""
     → keyAndCredentials.(Config.GCPProject) = ""
     → Config.DetectAuthMode keyAndCredentials = AuthModeNone).
Proof.
  intros H.
  assert (Hm : Config.DetectAuthMode keyAndCredentials = AuthModeGeminiAPIKey)
    by reflexivity.
  rewrite H in Hm; [discriminate | discriminate | reflexivity].
Qed.

(** C4, amended: the mode is a function of the three credential fields
    alone.  It is Vertex exactly when the project is set together with the
    API key or with the credentials; otherwise it is the API-key mode exactly
    when the API key is set; otherwise None.  In particular credentials
    without a project and without an API key give None. *)
Theorem DetectAuthMode_spec (c : Config.t) :
  let vertex :=
    (c.(Config.APIKey) ≠ "" ∧ c.(Config.GCPProject) ≠ "")
    ∨ (c.(Config.GCPCredentials) ≠ "" ∧ c.(Config.GCPProject) ≠ "") in
  (∀ c' : Config.t,
      c'.(Config.APIKey) = c.(Config.APIKey)
      → c'.(Config.GCPProject) = c.(Config.GCPProject)
      → c'.(Config.GCPCredentials) = c.(Config.GCPCredentials)
      → Config.DetectAuthMode c' = Config.DetectAuthMode c)
  ∧ (Config.DetectAuthMode c = AuthModeVertexAI ↔ vertex)
  ∧ (Config.DetectAuthMode c = AuthModeGeminiAPIKey
     ↔ ¬ vertex ∧ c.(Config.APIKey) ≠ "")
  ∧ (Config.DetectAuthMode c = AuthModeNone
     ↔ ¬ vertex ∧ c.(Config.APIKey) = "")
  ∧ (c.(Config.GCPCredentials) ≠ "" → c.(Config.GCPProject) = ""
     → c.(Config.APIKey) = "" → Config.DetectAuthMode c = AuthModeNone).
Proof.
  intros vertex.
  split.
  { intros c' Hk Hp Hc. unfold Config.DetectAuthMode.
    rewrite Hk, Hp, Hc. reflexivity. }
  subst vertex.
  destruct (DetectAuthMode_cases c)
    as [(Hv & ->) | [(Hv & Hk & ->) | (Hv & Hk & ->)]];
    intuition (try discriminate; try congruence).
Qed.

Lemma DetectAuthMode_spec_witness :
  Config.DetectAuthMode credentialsOnly = AuthModeNone.
Proof.
  destruct (DetectAuthMode_spec credentialsOnly) as (_ & _ & _ & _ & H).
  apply H; [discriminate | reflexivity | reflexivity].
Defined.

(** ** Argument builder *)

Lemma buildArgs_eq (e : CLIExecutor.t) (prompt : string) :
  let c := e.(CLIExecutor.config) in
  CLIExecutor.buildArgs e prompt =
    ["--prompt"; prompt]
      ++ optArg "--output-format" c.(Config.OutputFormat)
      ++ optArg "--model" c.(Config.Model)
      ++ switchArg "--yolo" c.(Config.Yolo)
      ++ optArg "--approval-mode" c.(Config.ApprovalMode)
      ++ optArg "--include-directories" c.(Config.IncludeDirs)
      ++ switchArg "--debug" c.(Config.Debug).
Proof.
  unfold CLIExecutor.buildArgs, optArg, switchArg. simpl.
  repeat case_decide;
    destruct (Config.Yolo _), (Config.Debug _); reflexivity.
Qed.

Lemma optArg_nonempty flag value a :
  flag ≠ "" → In a (optArg flag value) → a ≠ "".
Proof.
  unfold optArg. case_decide; simpl; intros Hf Hin; [| tauto].
  destruct Hin as [<- | [<- | []]]; assumption.
Qed.

Lemma switchArg_nonempty flag on a :
  flag ≠ "" → In a (switchArg flag on) → a ≠ "".
Proof.
  unfold switchArg. destruct on; simpl; intros Hf Hin; [| tauto].
  destruct Hin as [<- | []]; assumption.
Qed.

(** C8: the argument vector is the prompt flag with the prompt, followed, in
    this order, by the output-format, model, yolo, approval-mode,
    include-directories and debug flags, each present only when its setting
    is non-empty (or true); nothing stands for an omitted setting: after the
    prompt no argument is empty. *)
Theorem buildArgs_spec (e : CLIExecutor.t) (prompt : string) :
  let c := e.(CLIExecutor.config) in
  CLIExecutor.buildArgs e prompt =
    ["--prompt"; prompt]
      ++ optArg "--output-format" c.(Config.OutputFormat)
      ++ optArg "--model" c.(Config.Model)
      ++ switchArg "--yolo" c.(Config.Yolo)
      ++ optArg "--approval-mode" c.(Config.ApprovalMode)
      ++ optArg "--include-directories" c.(Config.IncludeDirs)
      ++ switchArg "--debug" c.(Config.Debug)
  ∧ (∀ a, In a (drop 2 (CLIExecutor.buildArgs e prompt)) → a ≠ "")
  ∧ length (CLIExecutor.buildArgs e prompt) =
      (2 + length (optArg "--output-format" c.(Config.OutputFormat))
         + length (optArg "--model" c.(Config.Model))
         + length (switchArg "--yolo" c.(Config.Yolo))
         + length (optArg "--approval-mode" c.(Config.ApprovalMode))
         + length (optArg "--include-directories" c.(Config.IncludeDirs))
         + length (switchArg "--debug" c.(Config.Debug)))%nat.
Proof.
  intros c. pose proof (buildArgs_eq e prompt) as Heq. fold c in Heq.
  split; [exact Heq |]. rewrite Heq. split.
  - intros a. cbn [skipn app].
    rewrite drop_0, !in_app_iff.
    intros [H | [H | [H | [H | [H | H]]]]];
      first [ eapply optArg_nonempty; [| exact H]; discriminate
            | eapply switchArg_nonempty; [| exact H]; discriminate ].
  - simpl length. rewrite !length_app. lia.
Qed.

(** The argument vector with every optional setting on, and with none. *)
Example buildArgs_all_flags :
  CLIExecutor.buildArgs (CLIExecutor.mk allFlags) "Review this code" =
    [ "--prompt"; "Review this code"; "--output-format"; "json";
      "--model"; "gemini-2.5-pro"; "--yolo"; "--approval-mode"; "auto_edit";
      "--include-directories"; "src,docs"; "--debug" ]
  ∧ CLIExecutor.buildArgs (CLIExecutor.mk Config.zero) "Review this code" =
    [ "--prompt"; "Review this code" ].
Proof. split; reflexivity. Qed.

(** ** Environment of the subprocess *)

Lemma buildEnv_vertex_eq (h : Host.t) (e : CLIExecutor.t) :
  let c := e.(CLIExecutor.config) in
  Config.DetectAuthMode c = AuthModeVertexAI →
  (CLIExecutor.buildEnv h e).1 =
    h.(Host.Environ)
      ++ ["GOOGLE_GENAI_USE_VERTEXAI=true"]
      ++ optVar "GOOGLE_CLOUD_PROJECT" c.(Config.GCPProject)
      ++ optVar "GOOGLE_CLOUD_LOCATION" c.(Config.GCPLocation)
      ++ optVar "GOOGLE_API_KEY" c.(Config.APIKey)
      ++ (if decide (c.(Config.GCPCredentials) ≠ "")
          then ["GOOGLE_APPLICATION_CREDENTIALS="
                  +:+ (CLIExecutor.credentialsPath h c.(Config.GCPCredentials)).1]
          else []).
Proof.
  intros c Hmode. unfold CLIExecutor.buildEnv. fold c. rewrite Hmode.
  unfold optVar.
  destruct (CLIExecutor.credentialsPath h (Config.GCPCredentials c))
    as [credPath written].
  repeat case_decide; cbn [fst app String.append];
    rewrite <- ?app_assoc; reflexivity.
Qed.

(** C3, the claim as stated fails: with project, API key and credentials all
    set, the mode is Vertex and the overrides carry both GOOGLE_API_KEY and
    GOOGLE_APPLICATION_CREDENTIALS. *)
Lemma vertex_env_carries_both :
  Config.DetectAuthMode vertexBoth = AuthModeVertexAI
  ∧ overrides quietHost (CLIExecutor.mk vertexBoth) =
      [ "GOOGLE_GENAI_USE_VERTEXAI=true";
        "GOOGLE_CLOUD_PROJECT=my-project";
        "GOOGLE_CLOUD_LOCATION=us-central1";
        "GOOGLE_API_KEY=test-api-key";
        "GOOGLE_APPLICATION_CREDENTIALS=/secrets/sa.json" ]
  ∧ hasVar "GOOGLE_API_KEY"
      (overrides quietHost (CLIExecutor.mk vertexBoth)) = true
  ∧ hasVar "GOOGLE_APPLICATION_CREDENTIALS"
      (overrides quietHost (CLIExecutor.mk vertexBoth)) = true.
Proof. repeat split; vm_compute; reflexivity. Qed.

(** With the location left empty, Vertex mode sets no location variable. *)
Example vertex_env_without_location :
  Config.DetectAuthMode vertexNoLocation = AuthModeVertexAI
  ∧ overrides quietHost (CLIExecutor.mk vertexNoLocation) =
      [ "GOOGLE_GENAI_USE_VERTEXAI=true";
        "GOOGLE_CLOUD_PROJECT=my-project";
        "GOOGLE_API_KEY=test-api-key" ].
Proof. split; vm_compute; reflexivity. Qed.

(** C3, amended: in Vertex mode the overrides are, in this order,
    GOOGLE_GENAI_USE_VERTEXAI=true, the project (never empty in this mode),
    the location when it is non-empty, GOOGLE_API_KEY exactly when the API
    key is non-empty and GOOGLE_APPLICATION_CREDENTIALS exactly when the
    credentials are non-empty.  At least one of the last two is present, and
    both are when both settings are. *)
Theorem buildEnv_vertex_spec (h : Host.t) (e : CLIExecutor.t) :
  let c := e.(CLIExecutor.config) in
  let ov := overrides h e in
  Config.DetectAuthMode c = AuthModeVertexAI →
  (CLIExecutor.buildEnv h e).1 = h.(Host.Environ) ++ ov
  ∧ ov = [ "GOOGLE_GENAI_USE_VERTEXAI=true";
           "GOOGLE_CLOUD_PROJECT=" +:+ c.(Config.GCPProject) ]
         ++ optVar "GOOGLE_CLOUD_LOCATION" c.(Config.GCPLocation)
         ++ optVar "GOOGLE_API_KEY" c.(Config.APIKey)
         ++ (if decide (c.(Config.GCPCredentials) ≠ "")
             then ["GOOGLE_APPLICATION_CREDENTIALS="
                     +:+ (CLIExecutor.credentialsPath h
                            c.(Config.GCPCredentials)).1]
             else [])
  ∧ c.(Config.GCPProject) ≠ ""
  ∧ In "GOOGLE_GENAI_USE_VERTEXAI=true" ov
  ∧ hasVar "GOOGLE_CLOUD_PROJECT" ov = true
  ∧ (hasVar "GOOGLE_CLOUD_LOCATION" ov = true ↔ c.(Config.GCPLocation) ≠ "")
  ∧ (hasVar "GOOGLE_API_KEY" ov = true ↔ c.(Config.APIKey) ≠ "")
  ∧ (hasVar "GOOGLE_APPLICATION_CREDENTIALS" ov = true
     ↔ c.(Config.GCPCredentials) ≠ "")
  ∧ (c.(Config.APIKey) ≠ "" ∨ c.(Config.GCPCredentials) ≠ "").
Proof.
  intros c ov Hmode.
  assert (Hv : (c.(Config.APIKey) ≠ "" ∧ c.(Config.GCPProject) ≠ "")
               ∨ (c.(Config.GCPCredentials) ≠ "" ∧ c.(Config.GCPProject) ≠ "")).
  { destruct (DetectAuthMode_cases c) as [(Hv & _) | [(_ & _ & E) | (_ & _ & E)]];
      [exact Hv | |]; rewrite E in Hmode; discriminate. }
  assert (Hproj : c.(Config.GCPProject) ≠ "") by tauto.
  assert (Hone : c.(Config.APIKey) ≠ "" ∨ c.(Config.GCPCredentials) ≠ "")
    by tauto.
  clear Hv.
  pose proof (buildEnv_vertex_eq h e Hmode) as Heq. fold c in Heq.
  assert (Hov : ov = [ "GOOGLE_GENAI_USE_VERTEXAI=true";
           "GOOGLE_CLOUD_PROJECT=" +:+ c.(Config.GCPProject) ]
         ++ optVar "GOOGLE_CLOUD_LOCATION" c.(Config.GCPLocation)
         ++ optVar "GOOGLE_API_KEY" c.(Config.APIKey)
         ++ (if decide (c.(Config.GCPCredentials) ≠ "")
             then ["GOOGLE_APPLICATION_CREDENTIALS="
                     +:+ (CLIExecutor.credentialsPath h
                            c.(Config.GCPCredentials)).1]
             else [])).
  { subst ov. unfold overrides. rewrite Heq, drop_app_length.
    unfold optVar at 1. rewrite decide_True by assumption. reflexivity. }
  split; [rewrite Heq, Hov; unfold optVar at 1;
          rewrite decide_True by assumption; reflexivity |].
  split; [exact Hov |]. split; [exact Hproj |].
  rewrite Hov. clear Hov Heq ov. unfold optVar, hasVar.
  destruct (decide (c.(Config.GCPCredentials) ≠ ""));
    destruct (decide (c.(Config.GCPLocation) ≠ ""));
    destruct (decide (c.(Config.APIKey) ≠ ""));
    cbn [app existsb]; unfold GoStrings.HasPrefix; cbn;
    intuition (try discriminate; try congruence).
Qed.

Lemma buildEnv_vertex_spec_witness :
  hasVar "GOOGLE_API_KEY" (overrides quietHost (CLIExecutor.mk vertexNoLocation))
    = true
  ↔ vertexNoLocation.(Config.APIKey) ≠ "".
Proof.
  destruct (buildEnv_vertex_spec quietHost (CLIExecutor.mk vertexNoLocation))
    as (_ & _ & _ & _ & _ & _ & H & _); [reflexivity | exact H].
Defined.

(** ** Output parser: single JSON document *)

Lemma ParseJSON_blank (p : OutputParser.t) (output : string) :
  GoStrings.TrimSpace output = "" →
  OutputParser.ParseJSON p output
  = (None, Some (Wrapped ErrOutputParsing EmptyOutput)).
Proof.
  intros H. unfold OutputParser.ParseJSON. rewrite H. reflexivity.
Qed.

Lemma ParseJSON_not_json (p : OutputParser.t) (output : string) :
  GoStrings.TrimSpace output ≠ "" →
  Json.document (GoStrings.TrimSpace output) = None →
  OutputParser.ParseJSON p output
  = (None, Some (Wrapped ErrOutputParsing (DecodeFailure SyntaxError))).
Proof.
  intros Hne H. unfold OutputParser.ParseJSON, Decode.Unmarshal.
  rewrite decide_False by assumption. rewrite H. reflexivity.
Qed.

(** An error of ParseJSON always wraps ErrOutputParsing, and comes without
    a response. *)
Lemma ParseJSON_error_kind (p : OutputParser.t) (output : string) err :
  (OutputParser.ParseJSON p output).2 = Some err →
  (OutputParser.ParseJSON p output).1 = None
  ∧ errors_Is err ErrOutputParsing = true.
Proof.
  unfold OutputParser.ParseJSON. case_decide.
  - intros [= <-]. split; reflexivity.
  - destruct (Decode.Unmarshal _ _ _); simpl.
    + discriminate.
    + intros [= <-]. split; reflexivity.
Qed.

(** C7, the claim as stated fails: a vertical tab followed by an empty
    object is not valid JSON, yet ParseJSON, which trims before it decodes,
    succeeds on it. *)
Lemma ParseJSON_trims_before_decoding :
  Json.document tabbedObject = None
  ∧ OutputParser.ParseJSON theParser tabbedObject
    = (Some CLIResponse.zero, None).
Proof. split; vm_compute; reflexivity. Qed.

(** C7, amended: ParseJSON fails with an error wrapping ErrOutputParsing on
    every output that is empty once trimmed and on every output that, once
    trimmed, is not one JSON document, among them the empty string, a string
    of white space and the text [not json]; on the hello document it
    succeeds with the text [Hello, World!]. *)
Theorem ParseJSON_spec (p : OutputParser.t) :
  (∀ output, GoStrings.TrimSpace output = "" →
     ∃ err, OutputParser.ParseJSON p output = (None, Some err)
            ∧ errors_Is err ErrOutputParsing = true)
  ∧ (∀ output, Json.document (GoStrings.TrimSpace output) = None →
     ∃ err, OutputParser.ParseJSON p output = (None, Some err)
            ∧ errors_Is err ErrOutputParsing = true)
  ∧ OutputParser.ParseJSON p ""
    = (None, Some (Wrapped ErrOutputParsing EmptyOutput))
  ∧ OutputParser.ParseJSON p blankOutput
    = (None, Some (Wrapped ErrOutputParsing EmptyOutput))
  ∧ OutputParser.ParseJSON p "not json"
    = (None, Some (Wrapped ErrOutputParsing (DecodeFailure SyntaxError)))
  ∧ OutputParser.ParseJSON p helloOutput
    = (Some (CLIResponse.mk "Hello, World!" None None), None).
Proof.
  split; [| split].
  - intros output H. eexists. split; [apply ParseJSON_blank, H | reflexivity].
  - intros output H.
    destruct (decide (GoStrings.TrimSpace output = "")) as [Hb | Hb].
    + eexists. split; [apply ParseJSON_blank, Hb | reflexivity].
    + eexists. split; [apply ParseJSON_not_json; assumption | reflexivity].
  - repeat split; vm_compute; reflexivity.
Qed.

Lemma ParseJSON_spec_witness :
  ∃ err, OutputParser.ParseJSON theParser blankOutput = (None, Some err)
         ∧ errors_Is err ErrOutputParsing = true.
Proof.
  destruct (ParseJSON_spec theParser) as (H & _).
  apply (H blankOutput). vm_compute. reflexivity.
Defined.

(** ** Output parser: event stream *)

Lemma ParseStreamJSON_eq (p : OutputParser.t) (output : string) :
  OutputParser.ParseStreamJSON p output
  = (fold_left OutputParser.streamLine
       (GoStrings.Split (GoStrings.TrimSpace output) (byte_of 10)) ([], None),
     None).
Proof.
  unfold OutputParser.ParseStreamJSON.
  destruct (fold_left _ _ _); reflexivity.
Qed.

Lemma streamLine_skipped st line :
  skipped line → OutputParser.streamLine st line = st.
Proof.
  intros [H | [e H]]; unfold OutputParser.streamLine; destruct st as [evs r].
  - rewrite H. reflexivity.
  - case_decide; [reflexivity |]. rewrite H. reflexivity.
Qed.

Lemma fold_streamLine_skipped lines st :
  Forall skipped lines → fold_left OutputParser.streamLine lines st = st.
Proof.
  intros H. revert st. induction H as [| line lines Hl _ IH]; intros st.
  - reflexivity.
  - simpl. rewrite streamLine_skipped by assumption. apply IH.
Qed.

(** What a line that decodes to an event does to the loop state. *)
Lemma streamLine_event evs r line ev :
  Decode.Unmarshal (Decode.structOf Decode.StreamEvent_fields)
    (GoStrings.TrimSpace line) StreamEvent.zero = Decode.Ok ev →
  OutputParser.streamLine (evs, r) line =
    (evs ++ [ev],
     if decide (ev.(StreamEvent.Type_) = "message"
                ∧ ev.(StreamEvent.Role) = "assistant"
                ∧ ev.(StreamEvent.Delta) = false)
     then Some (CLIResponse.mk ev.(StreamEvent.Content)
                  (default CLIResponse.zero r).(CLIResponse.Stats)
                  (default CLIResponse.zero r).(CLIResponse.Error))
     else if decide (ev.(StreamEvent.Type_) = "result")
     then Some (CLIResponse.mk "" ev.(StreamEvent.Stats) None)
     else r).
Proof.
  intros H. unfold OutputParser.streamLine.
  case_decide as Hblank.
  - rewrite Hblank in H. discriminate H.
  - rewrite H.
    destruct (decide (ev.(StreamEvent.Type_) = "result")) as [Hr | Hr];
      case_decide as Hm; try reflexivity.
    destruct Hm as (Hm & _). rewrite Hr in Hm. discriminate.
Qed.

(** A [result] event replaces the response reconstructed so far: the text
    taken from an earlier assistant message is gone. *)
Lemma streamLine_result_resets_text evs r line ev :
  Decode.Unmarshal (Decode.structOf Decode.StreamEvent_fields)
    (GoStrings.TrimSpace line) StreamEvent.zero = Decode.Ok ev →
  ev.(StreamEvent.Type_) = "result" →
  OutputParser.streamLine (evs, r) line
  = (evs ++ [ev], Some (CLIResponse.mk "" ev.(StreamEvent.Stats) None)).
Proof.
  intros H Hr. rewrite (streamLine_event _ _ _ _ H).
  rewrite decide_False, decide_True; [reflexivity | assumption |].
  intros (Hm & _). rewrite Hr in Hm. discriminate.
Qed.

(** Any four lines that decode to an init event, a user message, a final
    assistant message and a result event, in this order, give the four events
    and a response with the stats of the result event and an empty text. *)
Lemma streamLine_four_events l1 l2 l3 l4 (e1 e2 e3 e4 : StreamEvent.t) :
  let decode line :=
    Decode.Unmarshal (Decode.structOf Decode.StreamEvent_fields)
      (GoStrings.TrimSpace line) StreamEvent.zero in
  decode l1 = Decode.Ok e1 → decode l2 = Decode.Ok e2 →
  decode l3 = Decode.Ok e3 → decode l4 = Decode.Ok e4 →
  e1.(StreamEvent.Type_) = "init" →
  e2.(StreamEvent.Type_) = "message" → e2.(StreamEvent.Role) = "user" →
  e3.(StreamEvent.Type_) = "message" → e3.(StreamEvent.Role) = "assistant" →
  e3.(StreamEvent.Delta) = false →
  e4.(StreamEvent.Type_) = "result" →
  fold_left OutputParser.streamLine [l1; l2; l3; l4] ([], None)
  = ([e1; e2; e3; e4], Some (CLIResponse.mk "" e4.(StreamEvent.Stats) None)).
Proof.
  intros decode D1 D2 D3 D4 T1 T2 R2 T3 R3 N3 T4. cbn [fold_left].
  rewrite (streamLine_event _ _ _ _ D1), T1.
  rewrite decide_False by (intros (H & _); discriminate H).
  rewrite decide_False by discriminate.
  rewrite (streamLine_event _ _ _ _ D2), T2, R2.
  rewrite decide_False by (intros (_ & H & _); discriminate H).
  rewrite decide_False by discriminate.
  rewrite (streamLine_event _ _ _ _ D3), T3, R3, N3.
  rewrite decide_True by (repeat split).
  rewrite (streamLine_result_resets_text _ _ _ _ D4 T4).
  reflexivity.
Qed.

(** The reconstructed response never carries an in-band error. *)
Lemma streamLine_no_error st line :
  (∀ r, st.2 = Some r → r.(CLIResponse.Error) = None) →
  ∀ r, (OutputParser.streamLine st line).2 = Some r →
       r.(CLIResponse.Error) = None.
Proof.
  destruct st as [evs r0]. simpl. intros Hinv r.
  unfold OutputParser.streamLine.
  case_decide; [apply Hinv |].
  destruct (Decode.Unmarshal _ _ _) as [ev |]; [| apply Hinv].
  cbn [snd].
  destruct (decide (ev.(StreamEvent.Type_) = "result"));
    destruct (decide (_ ∧ _)); intros Hr;
    try (apply Hinv; exact Hr); injection Hr as <-; cbn; try reflexivity.
  destruct r0 as [r0 |]; cbn; [apply Hinv |]; reflexivity.
Qed.

Lemma ParseStreamJSON_no_error_field (p : OutputParser.t) output r :
  (OutputParser.ParseStreamJSON p output).1.2 = Some r →
  r.(CLIResponse.Error) = None.
Proof.
  rewrite ParseStreamJSON_eq. cbn [fst snd].
  generalize (GoStrings.Split (GoStrings.TrimSpace output) (byte_of 10)).
  intros lines.
  assert (Hgen : ∀ st,
    (∀ r, st.2 = Some r → r.(CLIResponse.Error) = None) →
    ∀ r, (fold_left OutputParser.streamLine lines st).2 = Some r →
         r.(CLIResponse.Error) = None).
  { induction lines as [| l lines IH]; intros st Hst; [exact Hst |].
    simpl. apply IH. apply streamLine_no_error, Hst. }
  destruct (fold_left _ _ _) as [evs r'] eqn:E.
  intros Hr. eapply (Hgen ([], None)); [discriminate |].
  rewrite E. exact Hr.
Qed.

(** C9: for every output ParseStreamJSON returns events, a response or nil,
    and the nil error; when every line is skipped, the events are empty and
    the response is nil. *)
Theorem ParseStreamJSON_never_fails (p : OutputParser.t) (output : string) :
  (∃ events response,
      OutputParser.ParseStreamJSON p output = (events, response, None))
  ∧ (Forall skipped
       (GoStrings.Split (GoStrings.TrimSpace output) (byte_of 10)) →
     OutputParser.ParseStreamJSON p output = ([], None, None)).
Proof.
  rewrite ParseStreamJSON_eq. split.
  - destruct (fold_left _ _ _) as [evs r]. eauto.
  - intros H. rewrite fold_streamLine_skipped by assumption. reflexivity.
Qed.

Lemma ParseStreamJSON_never_fails_witness :
  OutputParser.ParseStreamJSON theParser "not json" = ([], None, None).
Proof.
  apply (ParseStreamJSON_never_fails theParser "not json").
  change (Forall skipped ["not json"]).
  constructor; [| constructor].
  right. eexists. vm_compute. reflexivity.
Defined.

(** C1, what the code does: on the transcript of TestParseStreamJSON the
    four events come back in order and the response carries the stats of the
    [result] event, but its text is empty, not the content [Hi there!] of
    the assistant message: the [result] event, which comes last, replaces the
    response that held the text. *)
Theorem ParseStreamJSON_transcript :
  OutputParser.ParseStreamJSON theParser testTranscript
  = ([initEvent; userEvent; assistantEvent; resultEvent],
     Some (CLIResponse.mk "" resultEvent.(StreamEvent.Stats) None),
     None)
  ∧ assistantEvent.(StreamEvent.Content) = "Hi there!"
  ∧ assistantEvent.(StreamEvent.Delta) = false.
Proof. repeat split; vm_compute; reflexivity. Qed.

(** ** Process runner *)

Lemma afterRun_eq (out : RunOutcome.t) :
  CLIExecutor.afterRun out =
    match out.(RunOutcome.Err) with
    | Some err =>
        if out.(RunOutcome.DeadlineExceeded) then inr (Plain ErrTimeout)
        else if decide (out.(RunOutcome.Stdout) = "") then
          inr (Wrapped ErrCLIExecution
                 (RunFailure err out.(RunOutcome.Stderr)))
        else
          inl (ExecutionResult.mk out.(RunOutcome.Stdout) None
                 (exitCodeOf (Some err)))
    | None => inl (ExecutionResult.mk out.(RunOutcome.Stdout) None 0)
    end.
Proof.
  unfold CLIExecutor.afterRun.
  destruct (RunOutcome.Err out) as [err |]; [| reflexivity].
  destruct (RunOutcome.DeadlineExceeded out); [reflexivity |].
  destruct (RunOutcome.Stdout out) as [| ch rest].
  - rewrite decide_True by reflexivity. reflexivity.
  - rewrite decide_False by discriminate. destruct err; reflexivity.
Qed.

Lemma Execute_eq (h : Host.t) (e : CLIExecutor.t) (prompt stdinInput : string) :
  CLIExecutor.Execute h e prompt stdinInput =
    match CLIExecutor.afterRun (outcome h e prompt stdinInput) with
    | inr err => (None, Some err)
    | inl result => CLIExecutor.interpret e result
    end.
Proof.
  unfold outcome, CLIExecutor.Execute.
  destruct (CLIExecutor.command h e prompt stdinInput) as [cmd written].
  reflexivity.
Qed.

(** What goes on to be parsed is the captured stdout. *)
Lemma afterRun_result (out : RunOutcome.t) (result : ExecutionResult.t) :
  CLIExecutor.afterRun out = inl result →
  result = ExecutionResult.mk out.(RunOutcome.Stdout) None
             (exitCodeOf out.(RunOutcome.Err))
  ∧ (out.(RunOutcome.Err) = None
     ∨ out.(RunOutcome.DeadlineExceeded) = false
       ∧ out.(RunOutcome.Stdout) ≠ "").
Proof.
  rewrite afterRun_eq.
  destruct (RunOutcome.Err out) as [err |].
  - destruct (RunOutcome.DeadlineExceeded out); [discriminate |].
    case_decide; [discriminate |]. intros [= <-]. tauto.
  - intros [= <-]. tauto.
Qed.

(** A timeout wins over everything else the run produced. *)
Lemma Execute_timeout (h : Host.t) (e : CLIExecutor.t) prompt stdinInput err :
  (outcome h e prompt stdinInput).(RunOutcome.Err) = Some err →
  (outcome h e prompt stdinInput).(RunOutcome.DeadlineExceeded) = true →
  CLIExecutor.Execute h e prompt stdinInput = (None, Some (Plain ErrTimeout)).
Proof.
  intros He Hd. rewrite Execute_eq, afterRun_eq, He, Hd. reflexivity.
Qed.

Lemma TrimSpace_empty : GoStrings.TrimSpace "" = "".
Proof. reflexivity. Qed.

(** Only the JSON format can yield a response with an in-band error, and
    only from a non-empty output. *)
Lemma parseOutput_api_error (e : CLIExecutor.t) (raw : string) r apiErr :
  CLIExecutor.parseOutput e raw = (Some r, None) →
  r.(CLIResponse.Error) = Some apiErr →
  e.(CLIExecutor.config).(Config.OutputFormat) = "json" ∧ raw ≠ "".
Proof.
  unfold CLIExecutor.parseOutput. intros Hp He.
  case_decide as Hj.
  - split; [assumption |]. intros ->.
    rewrite ParseJSON_blank in Hp by apply TrimSpace_empty. discriminate.
  - exfalso. case_decide as Hs.
    + pose proof (ParseStreamJSON_no_error_field
                    (OutputParser.NewOutputParser
                       e.(CLIExecutor.config).(Config.Debug)) raw r) as Hn.
      destruct (OutputParser.ParseStreamJSON _ raw) as [[evs resp] perr].
      injection Hp as -> ->. rewrite Hn in He by reflexivity. discriminate.
    + injection Hp as <-. discriminate.
Qed.

(** C5: when Execute gets to parse the captured stdout and the parse, under
    the configured format, yields a response with an in-band error, Execute
    returns the result, parsed response included, together with an error
    that wraps ErrCLIExecution and carries the type and the message of the
    in-band error: never the nil error. *)
Theorem Execute_reports_api_error (h : Host.t) (e : CLIExecutor.t)
    (prompt stdinInput : string) (result : ExecutionResult.t)
    (r : CLIResponse.t) (apiErr : CLIError.t) :
  let out := outcome h e prompt stdinInput in
  CLIExecutor.afterRun out = inl result →
  CLIExecutor.parseOutput e out.(RunOutcome.Stdout) = (Some r, None) →
  r.(CLIResponse.Error) = Some apiErr →
  CLIExecutor.Execute h e prompt stdinInput =
    (Some (ExecutionResult.mk out.(RunOutcome.Stdout) (Some r)
             (exitCodeOf out.(RunOutcome.Err))),
     Some (Wrapped ErrCLIExecution
             (ApiFailure apiErr.(CLIError.Type_) apiErr.(CLIError.Message))))
  ∧ ∃ err, (CLIExecutor.Execute h e prompt stdinInput).2 = Some err
           ∧ errors_Is err ErrCLIExecution = true.
Proof.
  intros out Hrun Hparse Herr.
  assert (Heq : CLIExecutor.Execute h e prompt stdinInput =
    (Some (ExecutionResult.mk out.(RunOutcome.Stdout) (Some r)
             (exitCodeOf out.(RunOutcome.Err))),
     Some (Wrapped ErrCLIExecution
             (ApiFailure apiErr.(CLIError.Type_) apiErr.(CLIError.Message))))).
  { rewrite Execute_eq. fold out. rewrite Hrun.
    apply afterRun_result in Hrun as [-> _].
    unfold CLIExecutor.interpret. cbn [ExecutionResult.RawOutput].
    rewrite Hparse, Herr. reflexivity. }
  split; [exact Heq |]. rewrite Heq. eexists. split; reflexivity.
Qed.

Lemma Execute_reports_api_error_witness :
  CLIExecutor.Execute (hostReturning authErrorRun) jsonExecutor "Review" "" =
    (Some (ExecutionResult.mk authErrorOutput
             (Some (CLIResponse.mk "" None
                      (Some (CLIError.mk "AuthError" "Invalid API key" 401))))
             1),
     Some (Wrapped ErrCLIExecution (ApiFailure "AuthError" "Invalid API key"))).
Proof.
  apply (Execute_reports_api_error (hostReturning authErrorRun) jsonExecutor
           "Review" "" (ExecutionResult.mk authErrorOutput None 1)
           (CLIResponse.mk "" None
              (Some (CLIError.mk "AuthError" "Invalid API key" 401)))
           (CLIError.mk "AuthError" "Invalid API key" 401)).
  - reflexivity.
  - vm_compute. reflexivity.
  - reflexivity.
Defined.

(** C6, the claim as stated fails: a subprocess that exits with status 1
    without output as the deadline passes, like one killed at the deadline,
    makes Execute return ErrTimeout, not an error wrapping ErrCLIExecution. *)
Lemma Execute_nonzero_exit_at_deadline :
  CLIExecutor.Execute (hostReturning failureAtDeadline) jsonExecutor
    "Review" "" = (None, Some (Plain ErrTimeout))
  ∧ CLIExecutor.Execute (hostReturning killedAtDeadline) jsonExecutor
      "Review" "" = (None, Some (Plain ErrTimeout))
  ∧ errors_Is (Plain ErrTimeout) ErrCLIExecution = false.
Proof. repeat split; vm_compute; reflexivity. Qed.

(** C6, amended: when the run ends with an error (the subprocess exited
    with a non-zero status) and the deadline has not been exceeded, an empty
    stdout makes Execute return no result and an error wrapping
    ErrCLIExecution with the captured stderr, nothing being parsed.  A
    non-empty stdout makes it parse that output under the configured format
    and return a result with the raw output and the exit code: under json
    the outcome of ParseJSON (its error, or its response, with an in-band
    error reported), under stream-json the response of ParseStreamJSON,
    under every other format the response of ParseText. *)
Theorem Execute_failed_run (h : Host.t) (e : CLIExecutor.t)
    (prompt stdinInput : string) (err : RunError) :
  let out := outcome h e prompt stdinInput in
  let c := e.(CLIExecutor.config) in
  let parser := OutputParser.NewOutputParser c.(Config.Debug) in
  let result response :=
    Some (ExecutionResult.mk out.(RunOutcome.Stdout) response
            (exitCodeOf (Some err))) in
  out.(RunOutcome.Err) = Some err →
  out.(RunOutcome.DeadlineExceeded) = false →
  (out.(RunOutcome.Stdout) = "" →
     CLIExecutor.Execute h e prompt stdinInput =
       (None, Some (Wrapped ErrCLIExecution
                      (RunFailure err out.(RunOutcome.Stderr)))))
  ∧ (out.(RunOutcome.Stdout) ≠ "" →
     (c.(Config.OutputFormat) = "json" →
        CLIExecutor.Execute h e prompt stdinInput =
          match OutputParser.ParseJSON parser out.(RunOutcome.Stdout) with
          | (_, Some parseErr) => (result None, Some parseErr)
          | (Some r, None) =>
              (result (Some r),
               match r.(CLIResponse.Error) with
               | Some apiErr =>
                   Some (Wrapped ErrCLIExecution
                           (ApiFailure apiErr.(CLIError.Type_)
                                       apiErr.(CLIError.Message)))
               | None => None
               end)
          | (None, None) => (result None, None)
          end)
     ∧ (c.(Config.OutputFormat) = "stream-json" →
        CLIExecutor.Execute h e prompt stdinInput =
          (result (OutputParser.ParseStreamJSON parser
                     out.(RunOutcome.Stdout)).1.2, None))
     ∧ (c.(Config.OutputFormat) ≠ "json" →
        c.(Config.OutputFormat) ≠ "stream-json" →
        CLIExecutor.Execute h e prompt stdinInput =
          (result (Some (OutputParser.ParseText parser
                           out.(RunOutcome.Stdout))), None))).
Proof.
  intros out c parser result He Hd. rewrite Execute_eq. fold out.
  rewrite !afterRun_eq, He, Hd.
  split; intros Hs.
  - rewrite decide_True by assumption. reflexivity.
  - rewrite decide_False by assumption.
    unfold CLIExecutor.interpret, CLIExecutor.parseOutput.
    cbn [ExecutionResult.RawOutput ExecutionResult.ExitCode].
    fold c parser. subst result. cbn beta.
    split; [| split].
    + intros Hj. rewrite decide_True by assumption.
      destruct (OutputParser.ParseJSON parser _) as [[r |] [parseErr |]];
        try reflexivity.
      destruct (CLIResponse.Error r); reflexivity.
    + intros Hj. rewrite decide_False by (rewrite Hj; discriminate).
      rewrite decide_True by assumption.
      pose proof (ParseStreamJSON_no_error_field parser
                    out.(RunOutcome.Stdout)) as Hn.
      rewrite ParseStreamJSON_eq in *.
      destruct (fold_left _ _ _) as [evs [r |]]; cbn [fst snd] in *;
        [| reflexivity].
      rewrite (Hn r eq_refl). reflexivity.
    + intros Hj Hstream. rewrite !decide_False by assumption. reflexivity.
Qed.

Lemma Execute_failed_run_witness :
  CLIExecutor.Execute (hostReturning silentFailure) jsonExecutor "Review" "" =
    (None, Some (Wrapped ErrCLIExecution
                   (RunFailure (ExitError 1 "exit status 1") "quota exceeded")))
  ∧ CLIExecutor.Execute (hostReturning authErrorRun) jsonExecutor "Review" ""
    = (Some (ExecutionResult.mk authErrorOutput
               (Some (CLIResponse.mk "" None
                        (Some (CLIError.mk "AuthError" "Invalid API key"
                                 401))))
               1),
       Some (Wrapped ErrCLIExecution
               (ApiFailure "AuthError" "Invalid API key")))
  ∧ CLIExecutor.Execute (hostReturning noisyFailure)
      (executorFor "stream-json") "Review" ""
    = (Some (ExecutionResult.mk " partial answer " None 2), None)
  ∧ CLIExecutor.Execute (hostReturning noisyFailure) (executorFor "text")
      "Review" ""
    = (Some (ExecutionResult.mk " partial answer "
               (Some (CLIResponse.mk "partial answer" None None)) 2), None).
Proof.
  split; [| split; [| split]].
  - apply (Execute_failed_run (hostReturning silentFailure) jsonExecutor
             "Review" "" (ExitError 1 "exit status 1"));
      reflexivity.
  - destruct (Execute_failed_run (hostReturning authErrorRun) jsonExecutor
                "Review" "" (ExitError 1 "exit status 1"))
      as (_ & H); [reflexivity | reflexivity |].
    destruct H as (H & _ & _); [discriminate |].
    rewrite H by reflexivity. vm_compute. reflexivity.
  - destruct (Execute_failed_run (hostReturning noisyFailure)
                (executorFor "stream-json") "Review" ""
                (ExitError 2 "exit status 2"))
      as (_ & H); [reflexivity | reflexivity |].
    destruct H as (_ & H & _); [discriminate |].
    rewrite H by reflexivity. vm_compute. reflexivity.
  - destruct (Execute_failed_run (hostReturning noisyFailure)
                (executorFor "text") "Review" ""
                (ExitError 2 "exit status 2"))
      as (_ & H); [reflexivity | reflexivity |].
    destruct H as (_ & _ & H); [discriminate |].
    rewrite H by discriminate. vm_compute. reflexivity.
Defined.

(** ** Cost estimator *)

Lemma calculateModelCost_eq lower table modelName tokens :
  calculateModelCost lower table modelName tokens =
    let p := default defaultPricing (selectedEntry lower table modelName) in
    costAt p.(ModelPricing.InputPriceShort) p.(ModelPricing.OutputPriceShort)
      tokens.
Proof.
  unfold calculateModelCost, selectedEntry, costAt.
  destruct (mapLookup table modelName) as [p |]; [reflexivity |].
  cbn [negb]. destruct (find _ table) as [entry |]; reflexivity.
Qed.

Lemma mapLookup_In {V} (table : list (string * V)) key v :
  NoDup (map fst table) → In (key, v) table → mapLookup table key = Some v.
Proof.
  unfold mapLookup. induction table as [| [k w] table IH]; [intros _ [] |].
  cbn [map fst find]. intros Hnd Hin.
  apply NoDup_cons in Hnd as [Hk Hnd].
  destruct Hin as [[= -> ->] | Hin].
  - rewrite String.eqb_refl. reflexivity.
  - destruct (String.eqb_spec k key) as [-> | Hne].
    + exfalso. apply Hk. apply list_elem_of_In.
      change key with (fst (key, v)). apply in_map, Hin.
    + apply IH; assumption.
Qed.

Lemma PricingTable_keys_NoDup : NoDup (map fst PricingTable).
Proof. apply (bool_decide_unpack _). vm_compute. exact I. Qed.

(** Whatever the order in which the map is visited, a key of PricingTable
    selects its own entry. *)
Lemma mapLookup_order order key p :
  Permutation order PricingTable → In (key, p) PricingTable →
  mapLookup order key = Some p.
Proof.
  intros Hperm Hin. apply mapLookup_In.
  - assert (Hkeys : map fst order ≡ₚ map fst PricingTable)
      by (apply Permutation_map; exact Hperm).
    rewrite Hkeys. exact PricingTable_keys_NoDup.
  - eapply Permutation_in; [symmetry; exact Hperm | exact Hin].
Qed.

Lemma selectedEntry_sameShort lower table table' modelName :
  sameShortPrices table table' →
  option_Forall2 sameShort (selectedEntry lower table modelName)
    (selectedEntry lower table' modelName).
Proof.
  intros H. unfold selectedEntry, mapLookup.
  assert (Hfind : ∀ f : string → bool,
    option_Forall2 (fun a b => sameShort a.2 b.2)
      (find (fun entry => f (fst entry)) table)
      (find (fun entry => f (fst entry)) table')).
  { intros f. induction H as [| a b t t' [Hk Hs] _ IH]; cbn [find].
    - constructor.
    - rewrite <- Hk. destruct (f a.1); [constructor; exact Hs | exact IH]. }
  pose proof (Hfind (fun k => String.eqb k modelName)) as Hexact.
  cbn beta in Hexact. destruct Hexact as [a b Hs |]; [constructor; exact Hs |].
  pose proof (Hfind (fun k =>
    GoStrings.Contains (GoStrings.ToLower lower modelName)
      (GoStrings.ToLower lower k))) as Hpart.
  cbn beta in Hpart. destruct Hpart as [a b Hs |]; constructor. exact Hs.
Qed.

(** C2, the claim as stated fails: for gemini-2.5-pro (input 1.25, output
    10) and 1000 prompt, 500 candidate and 100 thought tokens the cost is not
    0.00625, and neither is the value of the quoted expression, in which the
    three products add up to 7250 and not to 6250. *)
Lemma cost_example_is_not_0_00625 :
  calculateModelCost asciiNames PricingTable "gemini-2.5-pro" exampleTokens
    ≠ 0.00625%float
  ∧ ((1000 * 1.25 + 500 * 10 + 100 * 10) / 1000000)%float ≠ 0.00625%float.
Proof.
  split; intros H;
    apply (f_equal (fun x => PrimFloat.eqb x 0.00625)) in H;
    vm_compute in H; discriminate H.
Qed.

(** C2, amended: for a model whose selected entry has input price 1.25 and
    output price 10, the cost of 1000 prompt, 500 candidate and 100 thought tokens is
    (1000*1.25 + 500*10 + 100*10)/1000000 = 0.00725, whatever the cached,
    tool and total counts: the thought tokens are billed at the output
    price and the cached and tool tokens are not billed. *)
Theorem cost_example lower table modelName (p : ModelPricing.t)
    (tokens : TokenStats.t) :
  selectedEntry lower table modelName = Some p →
  p.(ModelPricing.InputPriceShort) = 1.25%float →
  p.(ModelPricing.OutputPriceShort) = 10%float →
  tokens.(TokenStats.Prompt) = 1000%Z →
  tokens.(TokenStats.Candidates) = 500%Z →
  tokens.(TokenStats.Thoughts) = 100%Z →
  calculateModelCost lower table modelName tokens = 0.00725%float
  ∧ ((1000 * 1.25 + 500 * 10 + 100 * 10) / 1000000)%float = 0.00725%float
  ∧ calculateModelCost lower table modelName tokens
    = (float64_of_int 1000 / 1000000 * 1.25
       + float64_of_int 500 / 1000000 * 10
       + float64_of_int 100 / 1000000 * 10)%float.
Proof.
  intros Hp Hin Hout Hprompt Hcand Hth.
  rewrite calculateModelCost_eq, Hp.
  cbn [default]. cbn zeta. unfold costAt, id.
  rewrite Hin, Hout, Hprompt, Hcand, Hth.
  repeat split; vm_compute; reflexivity.
Qed.

Lemma cost_example_witness :
  calculateModelCost asciiNames PricingTable "gemini-2.5-pro" exampleTokens
  = 0.00725%float.
Proof.
  apply (cost_example asciiNames PricingTable "gemini-2.5-pro"
           (ModelPricing.mk "Gemini 2.5 Pro" 1.25 2.50 10.00 15.00 200000)
           exampleTokens); reflexivity.
Defined.

(** C10: the cost is the formula on the short-context input and output
    prices of the selected entry (the default prices when none is selected).
    Tables that agree on keys and short-context prices give the same cost,
    whatever their long-context prices and thresholds; and for
    gemini-2.5-pro the prices are 1.25 and 10 for every token count and every
    order in which the table is visited, also above 200000 prompt tokens. *)
Theorem cost_ignores_long_context lower (table : list (string * ModelPricing.t))
    (modelName : string) (tokens : TokenStats.t) :
  (let p := default defaultPricing (selectedEntry lower table modelName) in
   calculateModelCost lower table modelName tokens =
     costAt p.(ModelPricing.InputPriceShort) p.(ModelPricing.OutputPriceShort)
       tokens)
  ∧ (∀ table', sameShortPrices table table' →
       calculateModelCost lower table' modelName tokens
       = calculateModelCost lower table modelName tokens)
  ∧ (Permutation table PricingTable →
       calculateModelCost lower table "gemini-2.5-pro" tokens
       = costAt 1.25 10 tokens).
Proof.
  split; [apply calculateModelCost_eq |]. split.
  - intros table' H. rewrite !calculateModelCost_eq. cbn zeta.
    destruct (selectedEntry_sameShort lower _ _ modelName H)
      as [p p' [Hi Ho] |]; cbn [default]; unfold id.
    + rewrite Hi, Ho. reflexivity.
    + reflexivity.
  - intros Hperm. rewrite calculateModelCost_eq. unfold selectedEntry.
    rewrite (mapLookup_order table "gemini-2.5-pro"
               (ModelPricing.mk "Gemini 2.5 Pro" 1.25 2.50 10.00 15.00 200000)
               Hperm).
    + reflexivity.
    + cbn. tauto.
Qed.

Lemma cost_ignores_long_context_witness :
  calculateModelCost asciiNames longPricesChanged "gemini-2.5-pro" longPrompt
  = calculateModelCost asciiNames PricingTable "gemini-2.5-pro" longPrompt
  ∧ calculateModelCost asciiNames PricingTable "gemini-2.5-pro" longPrompt
    = 0.375%float.
Proof.
  destruct (cost_ignores_long_context asciiNames PricingTable
              "gemini-2.5-pro" longPrompt) as (_ & Hsame & Hpro).
  split.
  - apply Hsame. unfold sameShortPrices, longPricesChanged.
    repeat constructor.
  - rewrite Hpro; reflexivity.
Defined.

(** ** The documented examples *)

(** ParseText trims the white space around the text and keeps the rest. *)
Example ParseText_trims :
  OutputParser.ParseText theParser (bytes [32; 32; 10; 32]%N +:+ "Hello"
                                      +:+ bytes [32; 10; 32]%N)
  = CLIResponse.mk "Hello" None None.
Proof. vm_compute. reflexivity. Qed.

(** Keys are matched without regard to case. *)
Example ParseJSON_folds_keys :
  OutputParser.ParseJSON theParser (jsonText "{'RESPONSE':'ok'}")
  = (Some (CLIResponse.mk "ok" None None), None).
Proof. vm_compute. reflexivity. Qed.

(** A value of the wrong kind makes the whole document fail. *)
Example ParseJSON_wrong_kind :
  OutputParser.ParseJSON theParser (jsonText "{'response':5}")
  = (None, Some (Wrapped ErrOutputParsing
                   (DecodeFailure (UnmarshalTypeError "number")))).
Proof. vm_compute. reflexivity. Qed.

(** The test "response with error": ParseJSON itself succeeds. *)
Example ParseJSON_in_band_error :
  OutputParser.ParseJSON theParser authErrorOutput
  = (Some (CLIResponse.mk "" None
             (Some (CLIError.mk "AuthError" "Invalid API key" 401))), None).
Proof. vm_compute. reflexivity. Qed.

(** An unknown model is billed at the default prices: one million prompt
    tokens cost one dollar. *)
Example cost_unknown_model :
  calculateModelCost asciiNames PricingTable "some-other-model"
    (TokenStats.mk 1000000 0 0 0 0 0) = 1%float.
Proof. vm_compute. reflexivity. Qed.

(** A name that contains a key, in any case, is billed at that key's
    prices. *)
Example cost_partial_match :
  calculateModelCost asciiNames PricingTable "models/GEMINI-1.5-PRO-002"
    (TokenStats.mk 1000000 1000000 0 0 0 0) = 6.25%float.
Proof. vm_compute. reflexivity. Qed.

(* ===================================================================== *)
(** * Further properties                                                  *)
(* ===================================================================== *)

(** ** Environment builder *)

Lemma credentialsPath_eq (h : Host.t) (credentials : string) :
  CLIExecutor.credentialsPath h credentials =
    (absolute h (default credentials (tempFileFor h credentials)),
     match tempFileFor h credentials with
     | Some name => [(name, h.(Host.Written) name credentials)]
     | None => []
     end).
Proof.
  unfold CLIExecutor.credentialsPath, tempFileFor, absolute,
    credentialsPattern.
  destruct (GoStrings.HasPrefix (GoStrings.TrimSpace credentials) "{");
    [destruct (Host.CreateTemp h _ _) |]; unfold default, id;
    match goal with
    | |- context [Filepath.IsAbs ?p] => destruct (Filepath.IsAbs p)
    end; cbn [negb]; try reflexivity;
    match goal with
    | |- context [Host.Abs h ?p] => destruct (Host.Abs h p)
    end; reflexivity.
Qed.

Lemma buildEnv_vertex_written (h : Host.t) (e : CLIExecutor.t) :
  let c := e.(CLIExecutor.config) in
  Config.DetectAuthMode c = AuthModeVertexAI →
  (CLIExecutor.buildEnv h e).2 =
    if decide (c.(Config.GCPCredentials) ≠ "")
    then (CLIExecutor.credentialsPath h c.(Config.GCPCredentials)).2
    else [].
Proof.
  intros c Hmode. unfold CLIExecutor.buildEnv. fold c. rewrite Hmode.
  destruct (CLIExecutor.credentialsPath h (Config.GCPCredentials c))
    as [credPath written].
  repeat case_decide; reflexivity.
Qed.

Lemma buildEnv_not_vertex (h : Host.t) (e : CLIExecutor.t) :
  let c := e.(CLIExecutor.config) in
  Config.DetectAuthMode c ≠ AuthModeVertexAI →
  CLIExecutor.buildEnv h e =
    (h.(Host.Environ) ++ optVar "GEMINI_API_KEY" c.(Config.APIKey), []).
Proof.
  intros c Hmode. unfold CLIExecutor.buildEnv. fold c.
  destruct (DetectAuthMode_cases c)
    as [(_ & E) | [(_ & Hk & E) | (_ & Hk & E)]];
    rewrite E in *; [congruence | |]; unfold optVar.
  - rewrite decide_True by assumption. reflexivity.
  - rewrite decide_False by (intros H; apply H; assumption).
    rewrite app_nil_r. reflexivity.
Qed.

(** X1: without a project, or without both API key and credentials, the
    child process gets the ambient environment followed by GEMINI_API_KEY
    when the API key is set, and by nothing otherwise.  No temporary file is
    written, and location and credentials are not exported even when set. *)
Theorem buildEnv_outside_vertex (h : Host.t) (e : CLIExecutor.t) :
  let c := e.(CLIExecutor.config) in
  c.(Config.GCPProject) = ""
  ∨ (c.(Config.APIKey) = "" ∧ c.(Config.GCPCredentials) = "") →
  CLIExecutor.buildEnv h e =
    (h.(Host.Environ) ++ optVar "GEMINI_API_KEY" c.(Config.APIKey), []).
Proof.
  intros c Hc. apply buildEnv_not_vertex. fold c.
  destruct (DetectAuthMode_cases c)
    as [(Hv & _) | [(_ & _ & E) | (_ & _ & E)]];
    [| rewrite E; discriminate | rewrite E; discriminate].
  exfalso. tauto.
Qed.

Lemma buildEnv_outside_vertex_witness :
  CLIExecutor.buildEnv quietHost (CLIExecutor.mk keyAndCredentials) =
    (["GEMINI_API_KEY=test-api-key"], []).
Proof.
  apply (buildEnv_outside_vertex quietHost (CLIExecutor.mk keyAndCredentials)).
  left. reflexivity.
Defined.

(** X2: buildEnv only appends to the ambient environment, and what it
    appends tells the mode: GEMINI_API_KEY is assigned exactly in the
    API-key mode, GOOGLE_GENAI_USE_VERTEXAI exactly in Vertex mode (so never
    both), and nothing is appended exactly in the mode None. *)
Theorem buildEnv_mode_markers (h : Host.t) (e : CLIExecutor.t) :
  let c := e.(CLIExecutor.config) in
  let ov := overrides h e in
  (CLIExecutor.buildEnv h e).1 = h.(Host.Environ) ++ ov
  ∧ (hasVar "GEMINI_API_KEY" ov = true
     ↔ Config.DetectAuthMode c = AuthModeGeminiAPIKey)
  ∧ (hasVar "GOOGLE_GENAI_USE_VERTEXAI" ov = true
     ↔ Config.DetectAuthMode c = AuthModeVertexAI)
  ∧ (ov = [] ↔ Config.DetectAuthMode c = AuthModeNone).
Proof.
  intros c ov. subst ov. unfold overrides.
  destruct (decide (Config.DetectAuthMode c = AuthModeVertexAI)) as [Hm | Hm].
  - rewrite (buildEnv_vertex_eq h e Hm). fold c. rewrite drop_app_length, Hm.
    split; [reflexivity |].
    unfold optVar, hasVar.
    repeat case_decide; cbn [app existsb]; unfold GoStrings.HasPrefix; cbn;
      intuition (try discriminate; try congruence).
  - rewrite (buildEnv_not_vertex h e Hm). fold c. cbn [fst].
    rewrite drop_app_length. split; [reflexivity |].
    unfold optVar, hasVar.
    destruct (DetectAuthMode_cases c)
      as [(_ & E) | [(_ & Hk & E) | (_ & Hk & E)]];
      rewrite E in *; [congruence | |].
    + rewrite decide_True by assumption.
      cbn [existsb]; unfold GoStrings.HasPrefix; cbn.
      intuition (try discriminate; try congruence).
    + rewrite decide_False by (intros H; apply H; assumption).
      cbn. intuition (try discriminate; try congruence).
Qed.

(** X3: a temporary file is created only in Vertex mode, only for
    credentials that start, after white space, with an opening brace, and
    only when the host could create the file.  There is then exactly one
    such file, the credentials are handed unchanged to the one write to it,
    and it holds what that write left: the errors of the write and of the
    close are discarded.  GOOGLE_APPLICATION_CREDENTIALS names the file,
    whether the write succeeded or not. *)
Theorem buildEnv_temp_file (h : Host.t) (e : CLIExecutor.t)
    (name content : string) :
  let c := e.(CLIExecutor.config) in
  In (name, content) (CLIExecutor.buildEnv h e).2 →
  Config.DetectAuthMode c = AuthModeVertexAI
  ∧ GoStrings.HasPrefix (GoStrings.TrimSpace c.(Config.GCPCredentials)) "{"
    = true
  ∧ h.(Host.CreateTemp) "" "gcp-credentials-*.json" = Some name
  ∧ content = h.(Host.Written) name c.(Config.GCPCredentials)
  ∧ (CLIExecutor.buildEnv h e).2 = [(name, content)]
  ∧ In ("GOOGLE_APPLICATION_CREDENTIALS=" +:+ absolute h name)
       (overrides h e).
Proof.
  intros c Hin.
  destruct (decide (Config.DetectAuthMode c = AuthModeVertexAI)) as [Hm | Hm];
    [| rewrite (buildEnv_not_vertex h e Hm) in Hin; destruct Hin].
  split; [exact Hm |].
  unfold overrides. rewrite (buildEnv_vertex_eq h e Hm), drop_app_length.
  rewrite (buildEnv_vertex_written h e Hm) in *. fold c in Hin |- *.
  destruct (decide (c.(Config.GCPCredentials) ≠ "")); [| destruct Hin].
  rewrite credentialsPath_eq in *. cbn [fst snd] in *.
  unfold tempFileFor, credentialsPattern in *.
  destruct (GoStrings.HasPrefix (GoStrings.TrimSpace (Config.GCPCredentials c))
              "{") eqn:Hjson; [| destruct Hin].
  destruct (Host.CreateTemp h "" "gcp-credentials-*.json") as [tmp |] eqn:Htmp;
    [| destruct Hin].
  destruct Hin as [[= -> <-] | []].
  repeat split; try assumption; try reflexivity.
  cbn [default]. rewrite !in_app_iff. do 4 right. left. reflexivity.
Qed.

Lemma buildEnv_temp_file_witness :
  CLIExecutor.buildEnv quietHost (CLIExecutor.mk inlineCredentials) =
    ([ "GOOGLE_GENAI_USE_VERTEXAI=true";
       "GOOGLE_CLOUD_PROJECT=my-project";
       "GOOGLE_CLOUD_LOCATION=us-central1";
       "GOOGLE_APPLICATION_CREDENTIALS=/tmp/gcp-credentials-1.json" ],
     [("/tmp/gcp-credentials-1.json", jsonText "{'type':'service_account'}")])
  ∧ (CLIExecutor.buildEnv quietHost (CLIExecutor.mk inlineCredentials)).2 =
      [("/tmp/gcp-credentials-1.json", jsonText "{'type':'service_account'}")]
  ∧ (CLIExecutor.buildEnv failedWrite (CLIExecutor.mk inlineCredentials)).2 =
      [("/tmp/gcp-credentials-1.json", "")]
  ∧ In "GOOGLE_APPLICATION_CREDENTIALS=/tmp/gcp-credentials-1.json"
       (overrides failedWrite (CLIExecutor.mk inlineCredentials)).
Proof.
  split; [vm_compute; reflexivity |]. split; [| split].
  - apply (buildEnv_temp_file quietHost (CLIExecutor.mk inlineCredentials)
             "/tmp/gcp-credentials-1.json"
             (jsonText "{'type':'service_account'}")).
    vm_compute. left. reflexivity.
  - apply (buildEnv_temp_file failedWrite (CLIExecutor.mk inlineCredentials)
             "/tmp/gcp-credentials-1.json" "").
    vm_compute. left. reflexivity.
  - apply (buildEnv_temp_file failedWrite (CLIExecutor.mk inlineCredentials)
             "/tmp/gcp-credentials-1.json" "").
    vm_compute. left. reflexivity.
Defined.

(** X4: on a host whose filepath.Abs returns absolute paths, the path
    exported in GOOGLE_APPLICATION_CREDENTIALS is absolute, a relative one
    having been resolved, unless filepath.Abs failed on it. *)
Theorem credentials_variable_absolute (h : Host.t) (e : CLIExecutor.t) :
  let c := e.(CLIExecutor.config) in
  let path := (CLIExecutor.credentialsPath h c.(Config.GCPCredentials)).1 in
  (∀ p q, h.(Host.Abs) p = Some q → Filepath.IsAbs q = true) →
  Config.DetectAuthMode c = AuthModeVertexAI →
  c.(Config.GCPCredentials) ≠ "" →
  In ("GOOGLE_APPLICATION_CREDENTIALS=" +:+ path) (overrides h e)
  ∧ (Filepath.IsAbs path = true ∨ h.(Host.Abs) path = None).
Proof.
  intros c path Habs Hm Hc. split.
  - unfold overrides. rewrite (buildEnv_vertex_eq h e Hm), drop_app_length.
    fold c. rewrite decide_True by assumption.
    rewrite !in_app_iff. do 4 right. left. reflexivity.
  - subst path. rewrite credentialsPath_eq. cbn [fst]. unfold absolute.
    destruct (Filepath.IsAbs (default _ _)) eqn:Hp; [left; exact Hp |].
    destruct (Host.Abs h (default _ _)) as [q |] eqn:Hq; cbn [default].
    + left. exact (Habs _ _ Hq).
    + right. exact Hq.
Qed.

Lemma credentials_variable_absolute_witness :
  In "GOOGLE_APPLICATION_CREDENTIALS=/drone/src/sa.json"
     (overrides quietHost (CLIExecutor.mk relativeCredentials))
  ∧ (Filepath.IsAbs "/drone/src/sa.json" = true
     ∨ quietHost.(Host.Abs) "/drone/src/sa.json" = None).
Proof.
  apply (credentials_variable_absolute quietHost
           (CLIExecutor.mk relativeCredentials)).
  - intros p q H. injection H as <-. reflexivity.
  - reflexivity.
  - discriminate.
Defined.

(** X5: a failure to create the temporary file is passed over in silence:
    in Vertex mode, inline credentials are then themselves treated as the
    path, so that GOOGLE_APPLICATION_CREDENTIALS carries their text, made
    absolute like a path, and no file is written. *)
Theorem buildEnv_temp_file_failure (h : Host.t) (e : CLIExecutor.t) :
  let c := e.(CLIExecutor.config) in
  Config.DetectAuthMode c = AuthModeVertexAI →
  GoStrings.HasPrefix (GoStrings.TrimSpace c.(Config.GCPCredentials)) "{"
    = true →
  h.(Host.CreateTemp) "" "gcp-credentials-*.json" = None →
  In ("GOOGLE_APPLICATION_CREDENTIALS="
        +:+ absolute h c.(Config.GCPCredentials)) (overrides h e)
  ∧ (CLIExecutor.buildEnv h e).2 = [].
Proof.
  intros c Hm Hjson Htmp.
  assert (Hc : c.(Config.GCPCredentials) ≠ "").
  { intros E. rewrite E in Hjson. discriminate. }
  assert (Ht : tempFileFor h c.(Config.GCPCredentials) = None).
  { unfold tempFileFor, credentialsPattern. rewrite Hjson. exact Htmp. }
  split.
  - unfold overrides. rewrite (buildEnv_vertex_eq h e Hm), drop_app_length.
    fold c. rewrite decide_True by assumption.
    rewrite credentialsPath_eq, Ht. cbn [fst default].
    rewrite !in_app_iff. do 4 right. left. reflexivity.
  - rewrite (buildEnv_vertex_written h e Hm). fold c.
    rewrite decide_True by assumption.
    rewrite credentialsPath_eq, Ht. reflexivity.
Qed.

Lemma buildEnv_temp_file_failure_witness :
  In ("GOOGLE_APPLICATION_CREDENTIALS=/drone/src/"
        +:+ jsonText "{'type':'service_account'}")
     (overrides fullDisk (CLIExecutor.mk inlineCredentials))
  ∧ (CLIExecutor.buildEnv fullDisk (CLIExecutor.mk inlineCredentials)).2 = [].
Proof.
  apply (buildEnv_temp_file_failure fullDisk
           (CLIExecutor.mk inlineCredentials)); reflexivity.
Defined.

(** ** Execute: what comes back *)

Lemma afterRun_parseable (out : RunOutcome.t) :
  parseable out →
  CLIExecutor.afterRun out =
    inl (ExecutionResult.mk out.(RunOutcome.Stdout) None
           (exitCodeOf out.(RunOutcome.Err))).
Proof.
  unfold parseable. rewrite afterRun_eq.
  destruct (RunOutcome.Err out) as [err |]; [| reflexivity].
  intros [H | [Hd Hs]]; [discriminate |].
  rewrite Hd, decide_False by assumption. reflexivity.
Qed.

Lemma afterRun_not_parseable (out : RunOutcome.t) :
  ¬ parseable out →
  ∃ runErr, out.(RunOutcome.Err) = Some runErr
    ∧ CLIExecutor.afterRun out =
        inr (if out.(RunOutcome.DeadlineExceeded) then Plain ErrTimeout
             else Wrapped ErrCLIExecution
                    (RunFailure runErr out.(RunOutcome.Stderr))).
Proof.
  unfold parseable. rewrite afterRun_eq. intros Hn.
  destruct (RunOutcome.Err out) as [err |]; [| tauto].
  exists err. split; [reflexivity |].
  destruct (RunOutcome.DeadlineExceeded out); [reflexivity |].
  case_decide; [reflexivity | tauto].
Qed.

Lemma parseable_dec (out : RunOutcome.t) : parseable out ∨ ¬ parseable out.
Proof.
  unfold parseable.
  destruct (RunOutcome.Err out); destruct (RunOutcome.DeadlineExceeded out);
    destruct (decide (RunOutcome.Stdout out = ""));
    intuition (try discriminate; try congruence).
Qed.

(** What interpret returns, by the outcome of the parse. *)
Lemma interpret_eq (e : CLIExecutor.t) (raw : string) (code : Z) :
  CLIExecutor.interpret e (ExecutionResult.mk raw None code) =
    match CLIExecutor.parseOutput e raw with
    | (_, Some parseErr) =>
        (Some (ExecutionResult.mk raw None code), Some parseErr)
    | (response, None) =>
        (Some (ExecutionResult.mk raw response code),
         match response with
         | Some r =>
             match r.(CLIResponse.Error) with
             | Some apiErr =>
                 Some (Wrapped ErrCLIExecution
                         (ApiFailure apiErr.(CLIError.Type_)
                                     apiErr.(CLIError.Message)))
             | None => None
             end
         | None => None
         end)
    end.
Proof.
  unfold CLIExecutor.interpret. cbn [ExecutionResult.RawOutput
    ExecutionResult.ExitCode].
  destruct (CLIExecutor.parseOutput e raw) as [[r |] [parseErr |]];
    try reflexivity.
  destruct (CLIResponse.Error r); reflexivity.
Qed.

(** The parse under a format other than JSON never fails and never yields
    an in-band error. *)
Lemma parseOutput_lenient (e : CLIExecutor.t) (raw : string) :
  e.(CLIExecutor.config).(Config.OutputFormat) ≠ "json" →
  ∃ response, CLIExecutor.parseOutput e raw = (response, None)
    ∧ ∀ r, response = Some r → r.(CLIResponse.Error) = None.
Proof.
  intros Hj. unfold CLIExecutor.parseOutput.
  rewrite decide_False by assumption. case_decide as Hs.
  - pose proof (ParseStreamJSON_no_error_field
                  (OutputParser.NewOutputParser
                     e.(CLIExecutor.config).(Config.Debug)) raw) as Hn.
    rewrite ParseStreamJSON_eq in *.
    destruct (fold_left _ _ _) as [evs resp]. cbn [fst snd] in Hn.
    exists resp. split; [reflexivity |]. intros r ->. apply Hn. reflexivity.
  - eexists. split; [reflexivity |]. intros r [= <-]. reflexivity.
Qed.

(** The parse under the JSON format yields a response or an error wrapping
    ErrOutputParsing, never both and never neither. *)
Lemma parseOutput_json (e : CLIExecutor.t) (raw : string) :
  e.(CLIExecutor.config).(Config.OutputFormat) = "json" →
  (∃ r, CLIExecutor.parseOutput e raw = (Some r, None))
  ∨ (∃ d, CLIExecutor.parseOutput e raw
          = (None, Some (Wrapped ErrOutputParsing d))).
Proof.
  intros Hj. unfold CLIExecutor.parseOutput.
  rewrite decide_True by assumption. unfold OutputParser.ParseJSON.
  case_decide; [right; eexists; reflexivity |].
  destruct (Decode.Unmarshal _ _ _);
    [left | right]; eexists; reflexivity.
Qed.

(** X6: Execute returns no result exactly when the run ended with an error
    and either the deadline was exceeded or nothing was printed to stdout;
    in every other case a result comes back, be it next to an error. *)
Theorem Execute_no_result (h : Host.t) (e : CLIExecutor.t)
    (prompt stdinInput : string) :
  let out := outcome h e prompt stdinInput in
  (CLIExecutor.Execute h e prompt stdinInput).1 = None
  ↔ out.(RunOutcome.Err) ≠ None
    ∧ (out.(RunOutcome.DeadlineExceeded) = true
       ∨ out.(RunOutcome.Stdout) = "").
Proof.
  intros out. rewrite Execute_eq. fold out.
  destruct (parseable_dec out) as [Hp | Hp].
  - rewrite (afterRun_parseable out Hp), interpret_eq.
    unfold parseable in Hp.
    destruct (CLIExecutor.parseOutput e _) as [resp [parseErr |]];
      cbn [fst]; split; try discriminate;
      intros [Herr Hrest]; exfalso;
      destruct Hp as [Hp | [Hd Hs]]; try tauto;
      destruct Hrest; congruence.
  - destruct (afterRun_not_parseable out Hp) as (runErr & Herr & ->).
    cbn [fst]. split; [| reflexivity]. intros _.
    unfold parseable in Hp. rewrite Herr in *.
    split; [discriminate |].
    destruct (RunOutcome.DeadlineExceeded out); [tauto |].
    right. destruct (decide (RunOutcome.Stdout out = "")); tauto.
Qed.

(** X7: when Execute returns the nil error, it returns a result that holds
    the captured stdout unchanged and the exit code of the run, 0 unless the
    run ended in an exit error; the response in it carries no in-band error,
    and is missing only under the stream-json format.  The run itself either
    succeeded or failed before the deadline with something on stdout. *)
Theorem Execute_success (h : Host.t) (e : CLIExecutor.t)
    (prompt stdinInput : string) (r : option ExecutionResult.t) :
  let out := outcome h e prompt stdinInput in
  CLIExecutor.Execute h e prompt stdinInput = (r, None) →
  parseable out
  ∧ ∃ response,
      r = Some (ExecutionResult.mk out.(RunOutcome.Stdout) response
                  (exitCodeOf out.(RunOutcome.Err)))
      ∧ (∀ resp, response = Some resp → resp.(CLIResponse.Error) = None)
      ∧ (response = None
         → e.(CLIExecutor.config).(Config.OutputFormat) = "stream-json").
Proof.
  intros out. rewrite Execute_eq. fold out.
  destruct (parseable_dec out) as [Hp | Hp].
  - rewrite (afterRun_parseable out Hp), interpret_eq.
    destruct (CLIExecutor.parseOutput e _) as [resp [parseErr |]] eqn:Hparse;
      [discriminate |].
    intros [= <- Herr]. split; [exact Hp |].
    exists resp. split; [reflexivity |]. split.
    + intros resp' ->. destruct (CLIResponse.Error resp'); [discriminate |].
      reflexivity.
    + intros ->. unfold CLIExecutor.parseOutput in Hparse.
      case_decide as Hj.
      * exfalso. revert Hparse. unfold OutputParser.ParseJSON.
        case_decide; [discriminate |].
        destruct (Decode.Unmarshal _ _ _); discriminate.
      * case_decide as Hs; [exact Hs | discriminate].
  - destruct (afterRun_not_parseable out Hp) as (runErr & _ & ->).
    destruct (RunOutcome.DeadlineExceeded out); discriminate.
Qed.

Lemma Execute_success_witness :
  parseable (outcome (hostReturning helloRun) jsonExecutor "Review" "")
  ∧ ∃ response,
      Some (ExecutionResult.mk helloOutput
              (Some (CLIResponse.mk "Hello, World!" None None)) 0)
      = Some (ExecutionResult.mk helloOutput response 0)
      ∧ (∀ resp, response = Some resp → resp.(CLIResponse.Error) = None)
      ∧ (response = None → "json" = "stream-json").
Proof.
  apply (Execute_success (hostReturning helloRun) jsonExecutor "Review" "").
  vm_compute. reflexivity.
Defined.

(** X8: an error of Execute is of one of four kinds, told apart by what
    comes with it.  ErrTimeout, and the wrapping of ErrCLIExecution around
    the error of the run and the captured stderr, come without a result.
    A wrapping of ErrOutputParsing comes with a result without response, a
    wrapping of ErrCLIExecution around an in-band error with a result that
    holds the response; both occur under the JSON format only. *)
Theorem Execute_error_kinds (h : Host.t) (e : CLIExecutor.t)
    (prompt stdinInput : string) (r : option ExecutionResult.t)
    (err : error) :
  let out := outcome h e prompt stdinInput in
  let format := e.(CLIExecutor.config).(Config.OutputFormat) in
  let result response :=
    Some (ExecutionResult.mk out.(RunOutcome.Stdout) response
            (exitCodeOf out.(RunOutcome.Err))) in
  CLIExecutor.Execute h e prompt stdinInput = (r, Some err) →
  (err = Plain ErrTimeout ∧ r = None
   ∧ out.(RunOutcome.DeadlineExceeded) = true)
  ∨ (∃ runErr,
       err = Wrapped ErrCLIExecution
               (RunFailure runErr out.(RunOutcome.Stderr))
       ∧ r = None ∧ out.(RunOutcome.Err) = Some runErr
       ∧ out.(RunOutcome.Stdout) = "")
  ∨ (∃ d, err = Wrapped ErrOutputParsing d ∧ r = result None
          ∧ format = "json")
  ∨ (∃ resp apiErr,
       err = Wrapped ErrCLIExecution
               (ApiFailure apiErr.(CLIError.Type_) apiErr.(CLIError.Message))
       ∧ r = result (Some resp)
       ∧ resp.(CLIResponse.Error) = Some apiErr ∧ format = "json").
Proof.
  intros out format result. rewrite Execute_eq. fold out.
  destruct (parseable_dec out) as [Hp | Hp].
  - rewrite (afterRun_parseable out Hp), interpret_eq.
    destruct (decide (format = "json")) as [Hj | Hj].
    + destruct (parseOutput_json e out.(RunOutcome.Stdout) Hj)
        as [(resp & ->) | (d & ->)].
      * destruct (CLIResponse.Error resp) as [apiErr |] eqn:Hapi;
          [| discriminate].
        intros [= <- <-]. do 3 right. exists resp, apiErr. tauto.
      * intros [= <- <-]. do 2 right. left. exists d. tauto.
    + destruct (parseOutput_lenient e out.(RunOutcome.Stdout) Hj)
        as (resp & -> & Hnone).
      destruct resp as [resp |]; [| discriminate].
      rewrite (Hnone resp eq_refl). discriminate.
  - destruct (afterRun_not_parseable out Hp) as (runErr & Herr & ->).
    unfold parseable in Hp. rewrite Herr in Hp.
    destruct (RunOutcome.DeadlineExceeded out) eqn:Hd; intros [= <- <-].
    + left. tauto.
    + right. left. exists runErr.
      destruct (decide (RunOutcome.Stdout out = "")); tauto.
Qed.

Lemma Execute_error_kinds_witness :
  (Wrapped ErrCLIExecution
     (RunFailure (ExitError 1 "exit status 1") "quota exceeded")
   = Plain ErrTimeout
   ∧ @None ExecutionResult.t = None
   ∧ silentFailure.(RunOutcome.DeadlineExceeded) = true)
  ∨ (∃ runErr,
       Wrapped ErrCLIExecution
         (RunFailure (ExitError 1 "exit status 1") "quota exceeded")
       = Wrapped ErrCLIExecution (RunFailure runErr "quota exceeded")
       ∧ @None ExecutionResult.t = None
       ∧ silentFailure.(RunOutcome.Err) = Some runErr
       ∧ silentFailure.(RunOutcome.Stdout) = "")
  ∨ (∃ d, Wrapped ErrCLIExecution
            (RunFailure (ExitError 1 "exit status 1") "quota exceeded")
          = Wrapped ErrOutputParsing d
          ∧ None = Some (ExecutionResult.mk "" None 1) ∧ "json" = "json")
  ∨ (∃ resp apiErr,
       Wrapped ErrCLIExecution
         (RunFailure (ExitError 1 "exit status 1") "quota exceeded")
       = Wrapped ErrCLIExecution
           (ApiFailure apiErr.(CLIError.Type_) apiErr.(CLIError.Message))
       ∧ None = Some (ExecutionResult.mk "" (Some resp) 1)
       ∧ resp.(CLIResponse.Error) = Some apiErr ∧ "json" = "json").
Proof.
  apply (Execute_error_kinds (hostReturning silentFailure) jsonExecutor
           "Review" "" None).
  vm_compute. reflexivity.
Defined.

(** X9: under every output format other than json, a run that gets to the
    parsing never makes Execute fail: whatever was printed, and whatever the
    exit code, the result comes back with the nil error.  A non-zero exit
    with output, and an error reported inside the output, go unreported. *)
Theorem Execute_lenient_formats (h : Host.t) (e : CLIExecutor.t)
    (prompt stdinInput : string) :
  let out := outcome h e prompt stdinInput in
  e.(CLIExecutor.config).(Config.OutputFormat) ≠ "json" →
  parseable out →
  ∃ response,
    CLIExecutor.Execute h e prompt stdinInput =
      (Some (ExecutionResult.mk out.(RunOutcome.Stdout) response
               (exitCodeOf out.(RunOutcome.Err))), None).
Proof.
  intros out Hj Hp. rewrite Execute_eq. fold out.
  rewrite (afterRun_parseable out Hp), interpret_eq.
  destruct (parseOutput_lenient e out.(RunOutcome.Stdout) Hj)
    as (resp & -> & Hnone).
  exists resp. destruct resp as [resp |]; [| reflexivity].
  rewrite (Hnone resp eq_refl). reflexivity.
Qed.

Lemma Execute_lenient_formats_witness :
  ∃ response,
    CLIExecutor.Execute (hostReturning authErrorRun)
      (executorFor "stream-json") "Review" "" =
      (Some (ExecutionResult.mk authErrorOutput response 1), None).
Proof.
  apply (Execute_lenient_formats (hostReturning authErrorRun)
           (executorFor "stream-json") "Review" "").
  - discriminate.
  - right. split; [reflexivity | discriminate].
Defined.

(** X10: every output format other than json and stream-json, a misspelt
    one included, is the text format: a run that gets to the parsing yields
    the nil error and a response whose text is the trimmed stdout, without
    statistics, while the raw output keeps the stdout untrimmed. *)
Theorem Execute_text (h : Host.t) (e : CLIExecutor.t)
    (prompt stdinInput : string) :
  let out := outcome h e prompt stdinInput in
  e.(CLIExecutor.config).(Config.OutputFormat) ≠ "json" →
  e.(CLIExecutor.config).(Config.OutputFormat) ≠ "stream-json" →
  parseable out →
  CLIExecutor.Execute h e prompt stdinInput =
    (Some (ExecutionResult.mk out.(RunOutcome.Stdout)
             (Some (CLIResponse.mk
                      (GoStrings.TrimSpace out.(RunOutcome.Stdout)) None None))
             (exitCodeOf out.(RunOutcome.Err))), None).
Proof.
  intros out Hj Hs Hp. rewrite Execute_eq. fold out.
  rewrite (afterRun_parseable out Hp), interpret_eq.
  unfold CLIExecutor.parseOutput.
  rewrite !decide_False by assumption. reflexivity.
Qed.

Lemma Execute_text_witness :
  CLIExecutor.Execute (hostReturning noisyFailure) (executorFor "JSON")
    "Review" "" =
    (Some (ExecutionResult.mk " partial answer "
             (Some (CLIResponse.mk "partial answer" None None)) 2), None).
Proof.
  apply (Execute_text (hostReturning noisyFailure) (executorFor "JSON")
           "Review" "").
  - discriminate.
  - discriminate.
  - right. split; [reflexivity | discriminate].
Defined.

(** X11: under the json format a run that gets to the parsing with nothing
    but white space on stdout, a silent exit with status 0 included, is a
    failure: Execute returns an error wrapping ErrOutputParsing, together
    with a result that has no response. *)
Theorem Execute_json_blank_output (h : Host.t) (e : CLIExecutor.t)
    (prompt stdinInput : string) :
  let out := outcome h e prompt stdinInput in
  e.(CLIExecutor.config).(Config.OutputFormat) = "json" →
  parseable out →
  GoStrings.TrimSpace out.(RunOutcome.Stdout) = "" →
  CLIExecutor.Execute h e prompt stdinInput =
    (Some (ExecutionResult.mk out.(RunOutcome.Stdout) None
             (exitCodeOf out.(RunOutcome.Err))),
     Some (Wrapped ErrOutputParsing EmptyOutput)).
Proof.
  intros out Hj Hp Hblank. rewrite Execute_eq. fold out.
  rewrite (afterRun_parseable out Hp), interpret_eq.
  unfold CLIExecutor.parseOutput.
  rewrite decide_True by assumption.
  rewrite (ParseJSON_blank _ _ Hblank). reflexivity.
Qed.

Lemma Execute_json_blank_output_witness :
  CLIExecutor.Execute (hostReturning blankRun) jsonExecutor "Review" "" =
    (Some (ExecutionResult.mk LF None 0),
     Some (Wrapped ErrOutputParsing EmptyOutput)).
Proof.
  apply (Execute_json_blank_output (hostReturning blankRun) jsonExecutor
           "Review" "").
  - reflexivity.
  - left. reflexivity.
  - reflexivity.
Defined.

(** ** Output parser: how the stream is folded *)

Lemma decodeLine_blank line :
  GoStrings.TrimSpace line = "" → decodeLine line = None.
Proof. intros H. unfold decodeLine. rewrite H. reflexivity. Qed.

Lemma streamLine_absorb evs r line :
  OutputParser.streamLine (evs, r) line =
    match decodeLine line with
    | Some ev => (evs ++ [ev], absorb r ev)
    | None => (evs, r)
    end.
Proof.
  destruct (decodeLine line) as [ev |] eqn:Hd.
  - unfold decodeLine in Hd.
    destruct (Decode.Unmarshal _ _ _) as [ev' |] eqn:Hu; [| discriminate].
    injection Hd as ->. rewrite (streamLine_event _ _ _ _ Hu).
    unfold absorb, isFinalMessage, isResult.
    repeat case_bool_decide; repeat case_decide; try reflexivity; tauto.
  - apply streamLine_skipped. unfold skipped.
    unfold decodeLine in Hd.
    destruct (Decode.Unmarshal _ _ _) as [ev' | err] eqn:Hu; [discriminate |].
    right. exists err. reflexivity.
Qed.

Lemma fold_streamLine_absorb lines evs r :
  fold_left OutputParser.streamLine lines (evs, r) =
    (evs ++ omap decodeLine lines, fold_left absorb (omap decodeLine lines) r).
Proof.
  revert evs r. induction lines as [| line lines IH]; intros evs r.
  - cbn. rewrite app_nil_r. reflexivity.
  - cbn [fold_left]. rewrite streamLine_absorb.
    change (omap decodeLine (line :: lines))
      with (match decodeLine line with
            | Some ev => ev :: omap decodeLine lines
            | None => omap decodeLine lines
            end).
    destruct (decodeLine line) as [ev |]; rewrite IH.
    + cbn [fold_left]. rewrite <- app_assoc. reflexivity.
    + reflexivity.
Qed.

Lemma fold_absorb events r :
  (default CLIResponse.zero r).(CLIResponse.Error) = None →
  fold_left absorb events r =
    match r with
    | Some r =>
        Some (CLIResponse.mk
                (textAfter r.(CLIResponse.Response) events)
                (statsAfter r.(CLIResponse.Stats) events) None)
    | None =>
        if existsb relevant events then
          Some (CLIResponse.mk (textAfter "" events) (statsAfter None events)
                  None)
        else None
    end.
Proof.
  revert r. induction events as [| ev events IH]; intros r Hr.
  - destruct r as [[]|]; cbn in *; subst; reflexivity.
  - cbn [fold_left existsb]. unfold relevant, absorb.
    unfold textAfter, statsAfter. cbn [fold_left].
    destruct (isFinalMessage ev), (isResult ev), r as [[]|];
      cbn in Hr; subst; rewrite IH by reflexivity; reflexivity.
Qed.


Lemma ParseStreamJSON_fold (p : OutputParser.t) (output : string) :
  let events :=
    omap decodeLine
      (GoStrings.Split (GoStrings.TrimSpace output) (byte_of 10)) in
  OutputParser.ParseStreamJSON p output
  = (events, fold_left absorb events None, None).
Proof.
  intros events. rewrite ParseStreamJSON_eq, fold_streamLine_absorb.
  reflexivity.
Qed.

Lemma textAfter_irrelevant text events :
  Forall (λ ev, relevant ev = false) events → textAfter text events = text.
Proof.
  unfold textAfter. induction 1 as [| ev events Hev _ IH]; [reflexivity |].
  cbn [fold_left]. unfold relevant in Hev.
  apply orb_false_iff in Hev as [-> ->]. exact IH.
Qed.

Lemma statsAfter_irrelevant stats events :
  Forall (λ ev, relevant ev = false) events →
  statsAfter stats events = stats.
Proof.
  unfold statsAfter. induction 1 as [| ev events Hev _ IH]; [reflexivity |].
  cbn [fold_left]. unfold relevant in Hev.
  apply orb_false_iff in Hev as [-> ->]. exact IH.
Qed.

Lemma existsb_relevant_middle pre ev post :
  relevant ev = true → existsb relevant (pre ++ ev :: post) = true.
Proof.
  intros H. rewrite existsb_app. cbn [existsb]. rewrite H.
  rewrite orb_true_r. reflexivity.
Qed.

(** X12: the events ParseStreamJSON returns are the lines of the trimmed
    output that decode as an event, in the order of the lines; blank lines
    and lines that do not decode leave no trace. *)
Theorem ParseStreamJSON_events (p : OutputParser.t) (output : string) :
  (OutputParser.ParseStreamJSON p output).1.1 =
    omap decodeLine
      (GoStrings.Split (GoStrings.TrimSpace output) (byte_of 10)).
Proof. rewrite ParseStreamJSON_fold. reflexivity. Qed.

(** X13: the response ParseStreamJSON reconstructs is a function of the
    returned events.  It is missing exactly when none of them is a result
    event or a complete assistant message.  Otherwise its statistics are
    those of the last result event (none when there is no result event),
    its text is the content of the last complete assistant message if no
    result event follows that message and empty if one does, and it has no
    in-band error. *)
Theorem ParseStreamJSON_response (p : OutputParser.t) (output : string) :
  let events := (OutputParser.ParseStreamJSON p output).1.1 in
  (OutputParser.ParseStreamJSON p output).1.2 =
    if existsb relevant events then
      Some (CLIResponse.mk (textAfter "" events) (statsAfter None events) None)
    else None.
Proof.
  rewrite ParseStreamJSON_fold. cbn [fst snd].
  rewrite fold_absorb by reflexivity. reflexivity.
Qed.

(** X14: when a result event is the last event that counts (only events
    that are neither result events nor complete assistant messages follow
    it), the response has the statistics of that event and an empty text,
    whatever the assistant said before. *)
Theorem ParseStreamJSON_result_last (p : OutputParser.t) (output : string)
    (pre post : list StreamEvent.t) (ev : StreamEvent.t) :
  (OutputParser.ParseStreamJSON p output).1.1 = pre ++ ev :: post →
  isResult ev = true →
  Forall (λ ev', relevant ev' = false) post →
  (OutputParser.ParseStreamJSON p output).1.2 =
    Some (CLIResponse.mk "" ev.(StreamEvent.Stats) None).
Proof.
  rewrite ParseStreamJSON_fold. cbn [fst snd]. intros -> Hres Hpost.
  assert (Hmsg : isFinalMessage ev = false).
  { unfold isResult, isFinalMessage in *.
    apply bool_decide_eq_true in Hres. apply bool_decide_eq_false.
    rewrite Hres. intros [[=] _]. }
  rewrite fold_absorb by reflexivity.
  rewrite existsb_relevant_middle
    by (unfold relevant; rewrite Hres; reflexivity).
  unfold textAfter, statsAfter. rewrite !fold_left_app. cbn [fold_left].
  rewrite Hmsg, Hres.
  fold (textAfter "" post). fold (statsAfter ev.(StreamEvent.Stats) post).
  rewrite textAfter_irrelevant, statsAfter_irrelevant by assumption.
  reflexivity.
Qed.

Lemma ParseStreamJSON_result_last_witness :
  (OutputParser.ParseStreamJSON theParser testTranscript).1.2 =
    Some (CLIResponse.mk "" (Some CLIStats.zero) None).
Proof.
  apply (ParseStreamJSON_result_last theParser testTranscript
           [initEvent; userEvent; assistantEvent] [] resultEvent).
  - vm_compute. reflexivity.
  - reflexivity.
  - constructor.
Defined.

(** X15: when a complete assistant message is the last event that counts,
    the response has the content of that message as its text, and the
    statistics of the last result event before it, none if there is no such
    event. *)
Theorem ParseStreamJSON_message_last (p : OutputParser.t) (output : string)
    (pre post : list StreamEvent.t) (ev : StreamEvent.t) :
  (OutputParser.ParseStreamJSON p output).1.1 = pre ++ ev :: post →
  isFinalMessage ev = true →
  Forall (λ ev', relevant ev' = false) post →
  (OutputParser.ParseStreamJSON p output).1.2 =
    Some (CLIResponse.mk ev.(StreamEvent.Content) (statsAfter None pre) None).
Proof.
  rewrite ParseStreamJSON_fold. cbn [fst snd]. intros -> Hmsg Hpost.
  rewrite fold_absorb by reflexivity.
  rewrite existsb_relevant_middle
    by (unfold relevant; rewrite Hmsg; apply orb_true_r).
  unfold textAfter, statsAfter. rewrite !fold_left_app. cbn [fold_left].
  rewrite Hmsg.
  fold (textAfter ev.(StreamEvent.Content) post).
  fold (statsAfter None pre). fold (statsAfter (statsAfter None pre) post).
  rewrite textAfter_irrelevant, statsAfter_irrelevant by assumption.
  reflexivity.
Qed.

Lemma ParseStreamJSON_message_last_witness :
  (OutputParser.ParseStreamJSON theParser resultFirstTranscript).1.2 =
    Some (CLIResponse.mk "Hi there!" (Some CLIStats.zero) None).
Proof.
  apply (ParseStreamJSON_message_last theParser resultFirstTranscript
           [initEvent; userEvent; resultEvent] [] assistantEvent).
  - vm_compute. reflexivity.
  - reflexivity.
  - constructor.
Defined.

(** ** Trimming is idempotent, so the parsers see the output up to its
       surrounding white space *)

Lemma stripPrefix_append p s r :
  GoStrings.stripPrefix p s = Some r → s = p +:+ r.
Proof.
  revert s. induction p as [| a p IH]; intros s; cbn [GoStrings.stripPrefix].
  - intros [= ->]. reflexivity.
  - destruct s as [| b s]; [discriminate |].
    destruct (Ascii.eqb_spec a b) as [-> |]; [| discriminate].
    intros H. rewrite (IH _ H) at 1. reflexivity.
Qed.

Lemma stripPrefix_extend p s r y :
  GoStrings.stripPrefix p s = Some r →
  GoStrings.stripPrefix p (s +:+ y) = Some (r +:+ y).
Proof.
  revert s. induction p as [| a p IH]; intros s; cbn [GoStrings.stripPrefix].
  - intros [= ->]. reflexivity.
  - destruct s as [| b s]; [discriminate |].
    change (String b s +:+ y) with (String b (s +:+ y)).
    cbn [GoStrings.stripPrefix].
    destruct (Ascii.eqb a b); [apply IH | discriminate].
Qed.

Lemma firstStrip_extend runes s y :
  GoStrings.firstStrip runes (s +:+ y) = None →
  GoStrings.firstStrip runes s = None.
Proof.
  induction runes as [| r runes IH]; cbn [GoStrings.firstStrip];
    [reflexivity |].
  destruct (GoStrings.stripPrefix r s) as [rest |] eqn:E.
  - rewrite (stripPrefix_extend _ _ _ y E). discriminate.
  - destruct (GoStrings.stripPrefix r (s +:+ y)); [discriminate | exact IH].
Qed.

Lemma append_assoc_string (a b c : string) : (a +:+ b) +:+ c = a +:+ (b +:+ c).
Proof.
  induction a as [| x a IH]; [reflexivity |].
  change (String x ((a +:+ b) +:+ c) = String x (a +:+ (b +:+ c))).
  f_equal. exact IH.
Qed.

Lemma firstStrip_suffix runes s s' :
  GoStrings.firstStrip runes s = Some s' → ∃ x, s = x +:+ s'.
Proof.
  induction runes as [| r runes IH]; cbn [GoStrings.firstStrip];
    [discriminate |].
  destruct (GoStrings.stripPrefix r s) as [rest |] eqn:E; [| exact IH].
  intros [= <-]. exists r. apply stripPrefix_append. exact E.
Qed.

Lemma trimWith_suffix runes n s :
  ∃ x, s = x +:+ GoStrings.trimWith (GoStrings.firstStrip runes) n s.
Proof.
  revert s. induction n as [| n IH]; intros s; cbn [GoStrings.trimWith].
  - exists "". reflexivity.
  - destruct (GoStrings.firstStrip runes s) as [s' |] eqn:E.
    + destruct (firstStrip_suffix _ _ _ E) as [x Hx].
      destruct (IH s') as [y Hy]. exists (x +:+ y).
      rewrite append_assoc_string, <- Hy. exact Hx.
    + exists "". reflexivity.
Qed.

Lemma trimWith_fixed (drop : string → option string) n s :
  drop s = None → GoStrings.trimWith drop n s = s.
Proof.
  intros H. destruct n; cbn [GoStrings.trimWith]; [reflexivity |].
  rewrite H. reflexivity.
Qed.

Lemma rev_string_onto_append x w acc :
  rev_string_onto (x +:+ w) acc = rev_string_onto w (rev_string_onto x acc).
Proof.
  revert acc. induction x as [| c x IH]; intros acc; [reflexivity |].
  change (rev_string_onto (x +:+ w) (String c acc)
          = rev_string_onto w (rev_string_onto x (String c acc))).
  apply IH.
Qed.

Lemma rev_string_onto_eq w acc : rev_string_onto w acc = rev_string w +:+ acc.
Proof.
  transitivity (rev_string_onto (rev_string_onto (rev_string w) "") acc).
  - f_equal. symmetry. apply rev_string_involutive.
  - rewrite rev_string_onto_twice. reflexivity.
Qed.

(** TrimRightSpace returns a prefix of its argument. *)
Lemma TrimRightSpace_prefix s : ∃ y, s = GoStrings.TrimRightSpace s +:+ y.
Proof.
  unfold GoStrings.TrimRightSpace, GoStrings.dropSpaceRev.
  destruct (trimWith_suffix (map rev_string GoStrings.spaceRunes)
              (String.length s) (rev_string s)) as [x Hx].
  exists (rev_string x).
  rewrite <- (rev_string_involutive s) at 1. rewrite Hx at 1.
  unfold rev_string at 1. rewrite rev_string_onto_append.
  rewrite rev_string_onto_eq. reflexivity.
Qed.

Lemma TrimSpace_no_leading_space s :
  GoStrings.dropSpace (GoStrings.TrimSpace s) = None.
Proof.
  unfold GoStrings.TrimSpace.
  destruct (TrimRightSpace_prefix (GoStrings.TrimLeftSpace s)) as [y Hy].
  pose proof (TrimLeftSpace_done s) as H. rewrite Hy in H.
  exact (firstStrip_extend _ _ _ H).
Qed.

Lemma TrimSpace_no_trailing_space s :
  GoStrings.dropSpaceRev (rev_string (GoStrings.TrimSpace s)) = None.
Proof. apply TrimRightSpace_done. Qed.

Lemma TrimSpace_idempotent s :
  GoStrings.TrimSpace (GoStrings.TrimSpace s) = GoStrings.TrimSpace s.
Proof.
  set (t := GoStrings.TrimSpace s).
  unfold GoStrings.TrimSpace at 1.
  unfold GoStrings.TrimLeftSpace.
  rewrite (trimWith_fixed _ _ _ (TrimSpace_no_leading_space s)). fold t.
  unfold GoStrings.TrimRightSpace.
  rewrite (trimWith_fixed _ _ _ (TrimSpace_no_trailing_space s)).
  apply rev_string_involutive.
Qed.

(** X16: the three parsers see their input only up to surrounding white
    space, and not at all the debug flag of the parser: each returns on an
    output what it returns on the trimmed output. *)
Theorem parsers_ignore_surrounding_space (p p' : OutputParser.t)
    (output : string) :
  OutputParser.ParseJSON p output
    = OutputParser.ParseJSON p' (GoStrings.TrimSpace output)
  ∧ OutputParser.ParseStreamJSON p output
    = OutputParser.ParseStreamJSON p' (GoStrings.TrimSpace output)
  ∧ OutputParser.ParseText p output
    = OutputParser.ParseText p' (GoStrings.TrimSpace output).
Proof.
  unfold OutputParser.ParseJSON, OutputParser.ParseStreamJSON,
    OutputParser.ParseText.
  rewrite !TrimSpace_idempotent. repeat split; reflexivity.
Qed.

(** X17: the text response neither starts nor ends with a white-space
    rune, carries neither statistics nor an in-band error, and parsing it
    again as text gives it back. *)
Theorem ParseText_trimmed (p : OutputParser.t) (output : string) :
  let r := OutputParser.ParseText p output in
  GoStrings.dropSpace r.(CLIResponse.Response) = None
  ∧ GoStrings.dropSpaceRev (rev_string r.(CLIResponse.Response)) = None
  ∧ r.(CLIResponse.Stats) = None
  ∧ r.(CLIResponse.Error) = None
  ∧ OutputParser.ParseText p r.(CLIResponse.Response) = r.
Proof.
  cbn. split; [apply TrimSpace_no_leading_space |].
  split; [apply TrimSpace_no_trailing_space |].
  repeat split. unfold OutputParser.ParseText.
  rewrite TrimSpace_idempotent. reflexivity.
Qed.

(** ** The one-line excerpt of the prompt *)

Lemma length_append (a b : string) :
  String.length (a +:+ b) = (String.length a + String.length b)%nat.
Proof.
  induction a as [| c a IH]; [reflexivity |].
  change (S (String.length (a +:+ b))
          = S (String.length a + String.length b))%nat.
  rewrite IH. reflexivity.
Qed.

Lemma length_takeBytes n s :
  (n ≤ String.length s)%nat → String.length (takeBytes n s) = n.
Proof.
  revert s. induction n as [| n IH]; intros s; [reflexivity |].
  destruct s as [| c s]; cbn; [lia |]. intros H. rewrite IH by lia.
  reflexivity.
Qed.

Lemma stringsIndex_lt s sep i :
  stringsIndex s sep = Some i → (i < String.length s)%nat.
Proof.
  revert i. induction s as [| c s IH]; intros i; cbn; [discriminate |].
  destruct (Ascii.eqb c sep); [intros [= <-]; lia |].
  destruct (stringsIndex s sep) as [j |]; [| discriminate].
  intros [= <-]. specialize (IH j eq_refl). lia.
Qed.

(** No separator occurs before the first one. *)
Lemma stringsIndex_takeBytes s sep n :
  (∀ i, stringsIndex s sep = Some i → (n ≤ i)%nat) →
  stringsIndex (takeBytes n s) sep = None.
Proof.
  revert s. induction n as [| n IH]; intros s H; [reflexivity |].
  destruct s as [| c s]; [reflexivity |]. cbn in *.
  destruct (Ascii.eqb c sep); [specialize (H O eq_refl); lia |].
  rewrite IH; [reflexivity |]. intros i Hi. rewrite Hi in H.
  specialize (H (S i) eq_refl). lia.
Qed.

Lemma stringsIndex_append_dots s :
  stringsIndex s (byte_of 10) = None →
  stringsIndex (s +:+ "...") (byte_of 10) = None.
Proof.
  induction s as [| c s IH]; [intros _; reflexivity |].
  change (String c s +:+ "...") with (String c (s +:+ "...")).
  cbn [stringsIndex].
  destruct (Ascii.eqb c (byte_of 10)); [discriminate |].
  destruct (stringsIndex s (byte_of 10)); [discriminate |].
  intros _. rewrite IH by reflexivity. reflexivity.
Qed.

Lemma sliceTo_eq s n :
  (0 ≤ n ≤ Z.of_nat (String.length s))%Z →
  sliceTo s n = Some (takeBytes (Z.to_nat n) s).
Proof.
  intros H. unfold sliceTo.
  destruct (Z.leb_spec 0 n); [| lia].
  destruct (Z.leb_spec n (Z.of_nat (String.length s))); [| lia].
  reflexivity.
Qed.

(** The three ways in which truncateString returns. *)
Lemma truncateString_cases s maxLen :
  (∃ i, stringsIndex s (byte_of 10) = Some i ∧ (Z.of_nat i < maxLen)%Z
        ∧ truncateString s maxLen = Some (takeBytes i s +:+ "..."))
  ∨ ((∀ i, stringsIndex s (byte_of 10) = Some i → (maxLen ≤ Z.of_nat i)%Z)
     ∧ (Z.of_nat (String.length s) ≤ maxLen)%Z
     ∧ truncateString s maxLen = Some s)
  ∨ ((∀ i, stringsIndex s (byte_of 10) = Some i → (maxLen ≤ Z.of_nat i)%Z)
     ∧ (maxLen < Z.of_nat (String.length s))%Z
     ∧ truncateString s maxLen =
         if (3 <=? maxLen)%Z
         then Some (takeBytes (Z.to_nat (maxLen - 3)) s +:+ "...")
         else None).
Proof.
  unfold truncateString.
  assert (Hwhole :
    (Z.of_nat (String.length s) ≤ maxLen)%Z
    ∧ (if (Z.of_nat (String.length s) <=? maxLen)%Z then Some s
       else match sliceTo s (maxLen - 3) with
            | Some head => Some (head +:+ "...")
            | None => None
            end) = Some s
    ∨ (maxLen < Z.of_nat (String.length s))%Z
      ∧ (if (Z.of_nat (String.length s) <=? maxLen)%Z then Some s
         else match sliceTo s (maxLen - 3) with
              | Some head => Some (head +:+ "...")
              | None => None
              end) =
        if (3 <=? maxLen)%Z
        then Some (takeBytes (Z.to_nat (maxLen - 3)) s +:+ "...")
        else None).
  { destruct (Z.leb_spec (Z.of_nat (String.length s)) maxLen);
      [left; split; [assumption | reflexivity] |].
    right. split; [assumption |].
    destruct (Z.leb_spec 3 maxLen).
    - rewrite sliceTo_eq by lia. reflexivity.
    - unfold sliceTo. destruct (Z.leb_spec 0 (maxLen - 3)); [lia |].
      reflexivity. }
  destruct (stringsIndex s (byte_of 10)) as [idx |] eqn:Hidx.
  - destruct (Z.ltb_spec (Z.of_nat idx) maxLen).
    + left. exists idx. split; [reflexivity |]. split; [assumption |].
      pose proof (stringsIndex_lt _ _ _ Hidx).
      rewrite sliceTo_eq by lia. rewrite Nat2Z.id. reflexivity.
    + right.
      destruct Hwhole as [[Hl ->] | [Hl ->]]; [left | right];
        (split; [intros i [= <-]; assumption |]);
        split; try assumption; reflexivity.
  - right.
    destruct Hwhole as [[Hl ->] | [Hl ->]]; [left | right];
      (split; [intros i [=] |]); split; try assumption; reflexivity.
Qed.

(** X18: for a maximal length of at least 3, truncateString returns, and
    what it returns has no line feed.  It is the string itself or a proper
    prefix of it followed by three dots.  Its length is at most the maximal
    length when the string has no line feed, but can exceed it by up to two
    bytes when it has one. *)
Theorem truncateString_bounds (s : string) (maxLen : Z) :
  (3 ≤ maxLen)%Z →
  ∃ r, truncateString s maxLen = Some r
    ∧ (Z.of_nat (String.length r) ≤ maxLen + 2)%Z
    ∧ (stringsIndex s (byte_of 10) = None
       → (Z.of_nat (String.length r) ≤ maxLen)%Z)
    ∧ stringsIndex r (byte_of 10) = None
    ∧ (r = s
       ∨ ∃ n, (n < String.length s)%nat ∧ r = takeBytes n s +:+ "...").
Proof.
  intros Hmax.
  destruct (truncateString_cases s maxLen)
    as [(i & Hi & Hlt & ->) | [(Hidx & Hlen & ->) | (Hidx & Hlen & ->)]].
  - pose proof (stringsIndex_lt _ _ _ Hi) as Hil.
    eexists. split; [reflexivity |].
    rewrite length_append, length_takeBytes by lia.
    change (String.length "...") with 3%nat.
    split; [lia |]. split; [rewrite Hi; discriminate |].
    split.
    + apply stringsIndex_append_dots, stringsIndex_takeBytes.
      intros j Hj. rewrite Hi in Hj. injection Hj as <-. lia.
    + right. exists i. split; [assumption | reflexivity].
  - exists s. split; [reflexivity |]. split; [lia |]. split; [lia |].
    split; [| left; reflexivity].
    destruct (stringsIndex s (byte_of 10)) as [i |] eqn:Hi; [| reflexivity].
    pose proof (stringsIndex_lt _ _ _ Hi). specialize (Hidx i eq_refl). lia.
  - destruct (Z.leb_spec 3 maxLen); [| lia].
    eexists. split; [reflexivity |].
    rewrite length_append, length_takeBytes by lia.
    change (String.length "...") with 3%nat.
    split; [lia |]. split; [lia |]. split.
    + apply stringsIndex_append_dots, stringsIndex_takeBytes.
      intros j Hj. specialize (Hidx j Hj). lia.
    + right. exists (Z.to_nat (maxLen - 3)). split; [lia | reflexivity].
Qed.

Lemma truncateString_bounds_witness :
  ∃ r, truncateString twoLines 3 = Some r
    ∧ (Z.of_nat (String.length r) ≤ 3 + 2)%Z
    ∧ (stringsIndex twoLines (byte_of 10) = None
       → (Z.of_nat (String.length r) ≤ 3)%Z)
    ∧ stringsIndex r (byte_of 10) = None
    ∧ (r = twoLines
       ∨ ∃ n, (n < String.length twoLines)%nat
              ∧ r = takeBytes n twoLines +:+ "...").
Proof. apply (truncateString_bounds twoLines 3). lia. Defined.

(** X19: truncateString panics exactly when the maximal length is below 3,
    the string is longer than it and no line feed occurs among its first
    bytes up to the maximal length: the slice then ends at a negative
    index. *)
Theorem truncateString_panics (s : string) (maxLen : Z) :
  truncateString s maxLen = None
  ↔ (maxLen < 3)%Z
    ∧ (maxLen < Z.of_nat (String.length s))%Z
    ∧ ∀ i, stringsIndex s (byte_of 10) = Some i → (maxLen ≤ Z.of_nat i)%Z.
Proof.
  destruct (truncateString_cases s maxLen)
    as [(i & Hi & Hlt & ->) | [(Hidx & Hlen & ->) | (Hidx & Hlen & ->)]].
  - split; [discriminate |]. intros (_ & _ & H). specialize (H i Hi). lia.
  - split; [discriminate |]. intros (_ & H & _). lia.
  - destruct (Z.leb_spec 3 maxLen).
    + split; [discriminate |]. intros (H' & _). lia.
    + split; [| reflexivity]. intros _. tauto.
Qed.

(** ** The configuration summary *)

(** X20: displayConfig never panics: the excerpt of the prompt is taken
    with a maximal length of 100, for which truncateString returns on every
    prompt. *)
Theorem displayConfig_returns (p : Plugin.t) :
  ∃ text, Plugin.displayConfig p = Some text.
Proof.
  unfold Plugin.displayConfig.
  destruct (truncateString_bounds p.(Plugin.config).(Config.Prompt) 100)
    as (r & -> & _); [lia |].
  eexists. reflexivity.
Qed.

(** X21: the summary shows neither the API key nor the credentials: two
    configurations that differ in these two fields only, and lead to the
    same authentication mode, are summarised by the same text. *)
Theorem displayConfig_hides_secrets (c c' : Config.t) :
  withoutSecrets c = withoutSecrets c' →
  Config.DetectAuthMode c = Config.DetectAuthMode c' →
  Plugin.displayConfig (Plugin.New c) = Plugin.displayConfig (Plugin.New c').
Proof.
  intros Hsame Hmode. unfold Plugin.displayConfig, Plugin.New.
  cbn [Plugin.config]. rewrite Hmode.
  destruct c, c'. unfold withoutSecrets in Hsame. cbn in Hsame |- *.
  injection Hsame as -> -> -> -> -> -> -> -> -> -> -> -> -> ->.
  reflexivity.
Qed.

Lemma displayConfig_hides_secrets_witness :
  Plugin.displayConfig (Plugin.New (withAuth "key-one" "" "" ""))
  = Plugin.displayConfig (Plugin.New keyAndCredentials).
Proof.
  apply (displayConfig_hides_secrets (withAuth "key-one" "" "" "")
           keyAndCredentials); reflexivity.
Defined.

(** ** The plugin *)

Lemma Execute_error_sentinel (h : Host.t) (e : CLIExecutor.t)
    (prompt stdinInput : string) r err :
  CLIExecutor.Execute h e prompt stdinInput = (r, Some err) →
  errors_Is err ErrTimeout = true
  ∨ errors_Is err ErrCLIExecution = true
  ∨ errors_Is err ErrOutputParsing = true.
Proof.
  rewrite Execute_eq.
  set (out := outcome h e prompt stdinInput).
  destruct (parseable_dec out) as [Hp | Hp].
  - rewrite (afterRun_parseable out Hp), interpret_eq.
    destruct (decide (e.(CLIExecutor.config).(Config.OutputFormat) = "json"))
      as [Hj | Hj].
    + destruct (parseOutput_json e out.(RunOutcome.Stdout) Hj)
        as [(resp & ->) | (d & ->)].
      * destruct (CLIResponse.Error resp); [| discriminate].
        intros [= _ <-]. right. left. reflexivity.
      * intros [= _ <-]. right. right. reflexivity.
    + destruct (parseOutput_lenient e out.(RunOutcome.Stdout) Hj)
        as (resp & -> & Hnone).
      destruct resp as [resp |]; [| discriminate].
      rewrite (Hnone resp eq_refl). discriminate.
  - destruct (afterRun_not_parseable out Hp) as (runErr & _ & ->).
    destruct (RunOutcome.DeadlineExceeded out); intros [= _ <-];
      [left | right; left]; reflexivity.
Qed.

(** Execute does not look at the git-diff switch. *)
Lemma Execute_ignores_GitDiff (h : Host.t) (c : Config.t) (on : bool)
    (prompt stdinInput : string) :
  CLIExecutor.Execute h (CLIExecutor.NewCLIExecutor (withGitDiff on c))
    prompt stdinInput
  = CLIExecutor.Execute h (CLIExecutor.NewCLIExecutor c) prompt stdinInput.
Proof. destruct c. reflexivity. Qed.

(** X22: every error of Exec matches one of the five sentinel errors of
    the package, and which one tells how far Exec got.  With an empty prompt
    Exec returns ErrPromptRequired, whatever the host; with a non-empty
    prompt on a host without the gemini CLI it returns ErrGeminiCLINotFound,
    and nothing is run; in every other case an error of Exec matches
    ErrTimeout, ErrCLIExecution or ErrOutputParsing. *)
Theorem Exec_errors (git : string → bool → GitAnalyzer.t) (h : Host.t)
    (p : Plugin.t) :
  let c := p.(Plugin.config) in
  (c.(Config.Prompt) = ""
   → Plugin.Exec git h p = Some (Plain ErrPromptRequired))
  ∧ (c.(Config.Prompt) ≠ "" → h.(Host.VersionRuns) = false
     → Plugin.Exec git h p = Some (Plain ErrGeminiCLINotFound))
  ∧ (∀ err, c.(Config.Prompt) ≠ "" → h.(Host.VersionRuns) = true
     → Plugin.Exec git h p = Some err
     → errors_Is err ErrTimeout = true
       ∨ errors_Is err ErrCLIExecution = true
       ∨ errors_Is err ErrOutputParsing = true).
Proof.
  intros c. unfold Plugin.Exec, Config.Validate, CLIExecutor.CheckGeminiCLI.
  fold c. split; [| split].
  - intros Hprompt. rewrite decide_True by assumption. reflexivity.
  - intros Hprompt Hv. rewrite decide_False, Hv by assumption. reflexivity.
  - intros err Hprompt Hv. rewrite decide_False, Hv by assumption.
    destruct (CLIExecutor.Execute h _ _ _) as [r [err' |]] eqn:Hexec;
      [| discriminate].
    intros [= <-]. exact (Execute_error_sentinel _ _ _ _ _ _ Hexec).
Qed.

Lemma Exec_errors_witness :
  Plugin.Exec noRepository noGemini (Plugin.New gitDiffConfig)
  = Some (Plain ErrGeminiCLINotFound).
Proof.
  destruct (Exec_errors noRepository noGemini (Plugin.New gitDiffConfig))
    as (_ & H & _).
  apply H; [discriminate | reflexivity].
Defined.

(** X23: a failure to build the git context is not fatal: in git-diff mode,
    when the context cannot be built, Exec ends as it does with the git-diff
    mode switched off, the tool receiving the configured stdin input
    alone. *)
Theorem Exec_git_context_failure (git : string → bool → GitAnalyzer.t)
    (h : Host.t) (c : Config.t) :
  c.(Config.GitDiff) = true →
  Plugin.buildGitContext git (Plugin.New c) = None →
  Plugin.Exec git h (Plugin.New c)
  = Plugin.Exec git h (Plugin.New (withGitDiff false c)).
Proof.
  intros Hdiff Hctx. unfold Plugin.Exec, Plugin.stdinPayload.
  rewrite Hctx. unfold Plugin.New. cbn [Plugin.config]. rewrite Hdiff.
  rewrite Execute_ignores_GitDiff.
  destruct c; reflexivity.
Qed.

Lemma Exec_git_context_failure_witness :
  Plugin.Exec noRepository (hostReturning helloRun) (Plugin.New gitDiffConfig)
  = Plugin.Exec noRepository (hostReturning helloRun)
      (Plugin.New (withGitDiff false gitDiffConfig)).
Proof.
  apply (Exec_git_context_failure noRepository (hostReturning helloRun)
           gitDiffConfig); reflexivity.
Defined.

(** X24: once the prompt is validated and the gemini CLI found, Exec ends
    as the one run of the tool ends.  That run starts [gemini] in the target
    directory under the configured timeout, with the prompt behind the
    prompt flag and no empty argument, and attaches a stdin exactly when
    there is something to send. *)
Theorem Exec_runs_gemini (git : string → bool → GitAnalyzer.t) (h : Host.t)
    (p : Plugin.t) :
  let c := p.(Plugin.config) in
  let e := CLIExecutor.NewCLIExecutor c in
  let payload := Plugin.stdinPayload git p in
  let cmd := (CLIExecutor.command h e c.(Config.Prompt) payload).1 in
  let written := (CLIExecutor.command h e c.(Config.Prompt) payload).2 in
  Config.Validate c = None →
  h.(Host.VersionRuns) = true →
  Plugin.Exec git h p =
    match CLIExecutor.afterRun
            (h.(Host.Run) c.(Config.Timeout) cmd written) with
    | inr err => Some err
    | inl result => (CLIExecutor.interpret e result).2
    end
  ∧ cmd.(Cmd.Path) = "gemini"
  ∧ cmd.(Cmd.Dir) = c.(Config.Target)
  ∧ take 2 cmd.(Cmd.Args) = ["--prompt"; c.(Config.Prompt)]
  ∧ (∀ a, In a cmd.(Cmd.Args) → a ≠ "")
  ∧ cmd.(Cmd.Stdin) = (if decide (payload = "") then None else Some payload)
  ∧ cmd.(Cmd.Env) = (CLIExecutor.buildEnv h e).1.
Proof.
  intros c e payload cmd written Hvalid Hv.
  assert (Hprompt : c.(Config.Prompt) ≠ "").
  { revert Hvalid. unfold Config.Validate. case_decide; [discriminate |].
    intros _. assumption. }
  split.
  { unfold Plugin.Exec, CLIExecutor.CheckGeminiCLI. fold c e payload.
    rewrite Hvalid, Hv. rewrite Execute_eq. unfold outcome.
    subst cmd written.
    destruct (CLIExecutor.command h e _ payload) as [cmd written].
    cbn [fst snd CLIExecutor.config e CLIExecutor.NewCLIExecutor].
    destruct (CLIExecutor.afterRun _) as [result | err]; [| reflexivity].
    destruct (CLIExecutor.interpret e result) as [r [err |]]; reflexivity. }
  subst cmd written. unfold CLIExecutor.command.
  destruct (CLIExecutor.buildEnv h e) as [env files].
  cbn [fst snd Cmd.Path Cmd.Dir Cmd.Args Cmd.Stdin Cmd.Env].
  rewrite buildArgs_eq.
  repeat split.
  - intros a. rewrite !in_app_iff. cbn [In].
    intros [[<- | [<- | []]] | [H | [H | [H | [H | [H | H]]]]]];
      first [ discriminate | assumption
            | eapply optArg_nonempty; [| exact H]; discriminate
            | eapply switchArg_nonempty; [| exact H]; discriminate ].
  - destruct (decide (payload = "")) as [-> | Hne].
    + reflexivity.
    + rewrite decide_True by assumption. reflexivity.
Qed.

Lemma Exec_runs_gemini_witness :
  Plugin.Exec noRepository (hostReturning helloRun) (Plugin.New gitDiffConfig)
  = None.
Proof.
  destruct (Exec_runs_gemini noRepository (hostReturning helloRun)
              (Plugin.New gitDiffConfig)) as [H _];
    [reflexivity | reflexivity |].
  rewrite H. vm_compute. reflexivity.
Defined.

(** ** Cost estimator: the order in which the table is visited *)

Lemma find_none_iff {A} (f : A → bool) (l : list A) :
  find f l = None ↔ ∀ x, In x l → f x = false.
Proof.
  split; [apply find_none |].
  induction l as [| a l IH]; intros H; [reflexivity |]. cbn.
  rewrite (H a (or_introl eq_refl)). apply IH.
  intros x Hx. apply H. right. exact Hx.
Qed.

Lemma find_none_Permutation {A} (f : A → bool) (l l' : list A) :
  Permutation l l' → find f l' = None → find f l = None.
Proof.
  intros Hperm. rewrite !find_none_iff. intros H x Hx. apply H.
  exact (Permutation_in x Hperm Hx).
Qed.

Lemma mapLookup_None_Permutation {V} (l l' : list (string * V)) key :
  Permutation l l' → mapLookup l' key = None → mapLookup l key = None.
Proof.
  intros Hperm. unfold mapLookup.
  destruct (find _ l') eqn:E'; [discriminate |]. intros _.
  rewrite (find_none_Permutation _ _ _ Hperm E'). reflexivity.
Qed.

Lemma HasPrefix_refl s : GoStrings.HasPrefix s s = true.
Proof.
  unfold GoStrings.HasPrefix.
  assert (H : GoStrings.stripPrefix s s = Some "").
  { induction s as [| c s IH]; [reflexivity |]. cbn.
    rewrite Ascii.eqb_refl. exact IH. }
  rewrite H. reflexivity.
Qed.

Lemma Contains_refl s : GoStrings.Contains s s = true.
Proof. destruct s; cbn [GoStrings.Contains]; rewrite HasPrefix_refl;
  reflexivity. Qed.

(** X25: for a model named exactly as a key of the table, the cost is the
    formula on the short-context prices stored under that key, in whatever
    order the table is visited. *)
Theorem cost_listed_model lower (order : list (string * ModelPricing.t))
    (key : string) (p : ModelPricing.t) (tokens : TokenStats.t) :
  Permutation order PricingTable →
  In (key, p) PricingTable →
  calculateModelCost lower order key tokens =
    costAt p.(ModelPricing.InputPriceShort) p.(ModelPricing.OutputPriceShort)
      tokens.
Proof.
  intros Hperm Hin. rewrite calculateModelCost_eq. unfold selectedEntry.
  rewrite (mapLookup_order order key p Hperm Hin). reflexivity.
Qed.

Lemma cost_listed_model_witness :
  calculateModelCost asciiNames (rev PricingTable) "gemini-2.5-flash"
    exampleTokens
  = costAt 0.30 2.50 exampleTokens.
Proof.
  apply (cost_listed_model asciiNames (rev PricingTable) "gemini-2.5-flash"
           (ModelPricing.mk "Gemini 2.5 Flash" 0.30 0.30 2.50 2.50 0)).
  - symmetry. apply Permutation_rev.
  - vm_compute. tauto.
Defined.

(** X26: for a model name that is no key of the table, any key it contains
    (case-insensitively) can be the one that sets the prices: there is an
    order of visiting the table under which the cost is the formula on that
    key's prices.  So the cost of a name that contains two keys with
    different prices is not determined by the name and the token counts. *)
Theorem cost_partial_match_any_key lower (modelName key : string)
    (p : ModelPricing.t) (tokens : TokenStats.t) :
  In (key, p) PricingTable →
  mapLookup PricingTable modelName = None →
  GoStrings.Contains (GoStrings.ToLower lower modelName)
    (GoStrings.ToLower lower key) = true →
  ∃ order, Permutation order PricingTable
    ∧ calculateModelCost lower order modelName tokens =
        costAt p.(ModelPricing.InputPriceShort)
          p.(ModelPricing.OutputPriceShort) tokens.
Proof.
  intros Hin Hnone Hmatch.
  destruct (in_split _ _ Hin) as (l1 & l2 & Hsplit).
  exists ((key, p) :: l1 ++ l2).
  assert (Hperm : Permutation ((key, p) :: l1 ++ l2) PricingTable).
  { rewrite Hsplit. apply Permutation_middle. }
  split; [exact Hperm |].
  rewrite calculateModelCost_eq. unfold selectedEntry.
  rewrite (mapLookup_None_Permutation _ _ _ Hperm Hnone).
  cbn [find fst snd]. rewrite Hmatch. reflexivity.
Qed.

Lemma cost_partial_match_any_key_witness :
  (∃ order, Permutation order PricingTable
     ∧ calculateModelCost asciiNames order previewName exampleTokens
       = costAt 0.30 2.50 exampleTokens)
  ∧ (∃ order, Permutation order PricingTable
       ∧ calculateModelCost asciiNames order previewName exampleTokens
         = costAt 0.10 0.40 exampleTokens).
Proof.
  split.
  - apply (cost_partial_match_any_key asciiNames previewName
             "gemini-2.5-flash"
             (ModelPricing.mk "Gemini 2.5 Flash" 0.30 0.30 2.50 2.50 0)).
    + vm_compute. tauto.
    + reflexivity.
    + reflexivity.
  - apply (cost_partial_match_any_key asciiNames previewName
             "gemini-2.5-flash-lite"
             (ModelPricing.mk "Gemini 2.5 Flash-Lite" 0.10 0.10 0.40 0.40 0)).
    + vm_compute. tauto.
    + reflexivity.
    + reflexivity.
Defined.

(** X27: a model name that contains no key of the table (case-insensitively)
    is billed at the default prices, 1.00 per million input tokens and 5.00
    per million output tokens, in whatever order the table is visited. *)
Theorem cost_default_prices lower (order : list (string * ModelPricing.t))
    (modelName : string) (tokens : TokenStats.t) :
  Permutation order PricingTable →
  (∀ key p, In (key, p) PricingTable →
     GoStrings.Contains (GoStrings.ToLower lower modelName)
       (GoStrings.ToLower lower key) = false) →
  calculateModelCost lower order modelName tokens = costAt 1.00 5.00 tokens.
Proof.
  intros Hperm Hnone.
  assert (Hall : ∀ entry, In entry order →
            GoStrings.Contains (GoStrings.ToLower lower modelName)
              (GoStrings.ToLower lower entry.1) = false).
  { intros [key p] Hin. apply (Hnone key p).
    exact (Permutation_in _ Hperm Hin). }
  rewrite calculateModelCost_eq. unfold selectedEntry, mapLookup.
  assert (Hkey : find (λ entry, String.eqb entry.1 modelName) order = None).
  { apply find_none_iff. intros entry Hin.
    destruct (String.eqb_spec entry.1 modelName) as [E |]; [| reflexivity].
    specialize (Hall entry Hin). rewrite E, Contains_refl in Hall.
    discriminate. }
  rewrite Hkey.
  assert (Hpart : find (λ entry,
                     GoStrings.Contains (GoStrings.ToLower lower modelName)
                       (GoStrings.ToLower lower entry.1)) order = None).
  { apply find_none_iff. exact Hall. }
  rewrite Hpart. reflexivity.
Qed.

Lemma cost_default_prices_witness :
  calculateModelCost asciiNames (rev PricingTable) "some-other-model"
    exampleTokens
  = costAt 1.00 5.00 exampleTokens.
Proof.
  apply (cost_default_prices asciiNames (rev PricingTable)
           "some-other-model").
  - symmetry. apply Permutation_rev.
  - intros key p Hin.
    repeat (destruct Hin as [Hin | Hin];
            [injection Hin as <- <-; reflexivity |]).
    destruct Hin.
Defined.

(** X28: a model that used no prompt, candidate or thought tokens costs
    nothing, whatever its name, the order in which the table is visited and
    its cached, tool and total counts. *)
Theorem cost_of_no_tokens lower (order : list (string * ModelPricing.t))
    (modelName : string) (tokens : TokenStats.t) :
  Permutation order PricingTable →
  tokens.(TokenStats.Prompt) = 0%Z →
  tokens.(TokenStats.Candidates) = 0%Z →
  tokens.(TokenStats.Thoughts) = 0%Z →
  calculateModelCost lower order modelName tokens = 0%float.
Proof.
  intros Hperm Hp Hc Ht. rewrite calculateModelCost_eq. cbn zeta.
  unfold costAt. rewrite Hp, Hc, Ht.
  assert (Hsel : ∀ p, selectedEntry lower order modelName = Some p →
                      In p (map snd PricingTable)).
  { intros p. unfold selectedEntry, mapLookup.
    destruct (find _ order) as [entry |] eqn:E1; cbn beta iota.
    - intros [= <-]. apply find_some in E1 as [Hin _].
      apply in_map. exact (Permutation_in _ Hperm Hin).
    - clear E1.
      destruct (find _ order) as [entry |] eqn:E2; cbn beta iota;
        [| discriminate].
      intros [= <-]. apply find_some in E2 as [Hin _].
      apply in_map. exact (Permutation_in _ Hperm Hin). }
  destruct (selectedEntry lower order modelName) as [p |];
    cbn [default]; unfold id; [| vm_compute; reflexivity].
  specialize (Hsel p eq_refl). cbn in Hsel.
  repeat (destruct Hsel as [<- | Hsel]; [vm_compute; reflexivity |]).
  destruct Hsel.
Qed.

Lemma cost_of_no_tokens_witness :
  calculateModelCost asciiNames PricingTable "gemini-2.5-pro"
    (TokenStats.mk 0 0 1500 200 0 50) = 0%float.
Proof.
  apply (cost_of_no_tokens asciiNames PricingTable "gemini-2.5-pro"
           (TokenStats.mk 0 0 1500 200 0 50)); reflexivity.
Defined.
